(** * PagerDuty incident pipeline: record model, store, fetcher, metrics

    A shallow embedding of [incident_v2.py], [database_v2.py],
    [pagerduty_client_v2.py] and [analytics_v2.py], together with models of
    the library routines those files call ([datetime.isoformat],
    [datetime.fromisoformat], [datetime.astimezone], SQLite's [substr],
    [DATE], [BETWEEN], [ORDER BY] and [INSERT OR REPLACE]).

    Conventions.
    - Python [str] is [string].  The models of [lower] and [strip] are
      Python's on ASCII text ([Str.isascii]); on other text Python also
      maps capitals outside ASCII and strips Unicode white space, which the
      models do not, so what is stated about the text they produce is
      stated for ASCII text.
    - A Python exception is a value of [exn]; a call that may raise returns
      [result].
    - A [datetime] carries its [tzinfo] as the UTC offset of a fixed-offset
      [timezone], in microseconds; [None] is a naive datetime. *)

From Stdlib Require Import ZArith String Ascii List Lia Bool.
From Stdlib Require Import Floats Uint63.
From stdpp Require Import base option list sorting gmap strings.

Local Open Scope Z_scope.

(** ** Exceptions and results *)

Inductive exn :=
| AttributeError
| KeyError (key : string)
| TypeError
| ValueError
| InvalidServiceIds (invalid available : list string)
| IntegrityError
| HTTPError (status : Z)
| Timeout
| RequestException
| OverflowError
| ProgrammingError
| ModelLimit.

Inductive result (A : Type) :=
| Ok (a : A)
| Raise (e : exn).
Arguments Ok {A} a.
Arguments Raise {A} e.

Global Instance result_ret : MRet result := λ A a, Ok a.
Global Instance result_bind : MBind result := λ A B k r,
  match r with
  | Ok a => k a
  | Raise e => Raise e
  end.

Global Instance result_fmap : FMap result := λ A B f r,
  match r with
  | Ok a => Ok (f a)
  | Raise e => Raise e
  end.

(** [ModelLimit] is not a Python exception: it marks a run that leaves the
    model (a value of a type the records below cannot hold, or a loop cut
    off by its fuel). *)

Definition is_ok {A} (r : result A) : bool :=
  match r with Ok _ => true | Raise _ => false end.

(** ** Strings *)

Module Str.

(** [s[n:]] *)
Fixpoint drop (n : nat) (s : string) : string :=
  match n, s with
  | O, _ => s
  | S n', String _ s' => drop n' s'
  | S _, EmptyString => EmptyString
  end.

(** [s[:n]] *)
Fixpoint take (n : nat) (s : string) : string :=
  match n, s with
  | O, _ => EmptyString
  | S n', String c s' => String c (take n' s')
  | S _, EmptyString => EmptyString
  end.

(** [s[a:b]] for [0 <= a <= b] *)
Definition slice (a b : nat) (s : string) : string :=
  take (b - a) (drop a s).

(** [s.find(c)], with [None] for Python's [-1] *)
Fixpoint find (c : ascii) (s : string) : option nat :=
  match s with
  | EmptyString => None
  | String c' s' =>
      if Ascii.eqb c' c then Some O else S <$> find c s'
  end.

(** [s.isascii()] *)
Definition isascii_char (c : ascii) : bool := (N_of_ascii c <? 128)%N.

Fixpoint isascii (s : string) : bool :=
  match s with
  | EmptyString => true
  | String c s' => isascii_char c && isascii s'
  end.

(** [s.lower()] for ASCII [s]: only [A] to [Z] change. *)
Definition lower_char (c : ascii) : ascii :=
  let n := N_of_ascii c in
  if ((65 <=? n) && (n <=? 90))%N then ascii_of_N (n + 32) else c.

Fixpoint lower (s : string) : string :=
  match s with
  | EmptyString => EmptyString
  | String c s' => String (lower_char c) (lower s')
  end.

(** [s.strip()] for ASCII [s]: the ASCII characters for which
    [str.isspace()] holds are removed at both ends. *)
Definition is_space (c : ascii) : bool :=
  let n := N_of_ascii c in
  (((9 <=? n) && (n <=? 13)) || ((28 <=? n) && (n <=? 32)))%N.

Fixpoint lstrip (s : string) : string :=
  match s with
  | EmptyString => EmptyString
  | String c s' => if is_space c then lstrip s' else s
  end.

Fixpoint rstrip (s : string) : string :=
  match s with
  | EmptyString => EmptyString
  | String c s' =>
      match rstrip s' with
      | EmptyString => if is_space c then EmptyString else String c EmptyString
      | r => String c r
      end
  end.

Definition strip (s : string) : string := rstrip (lstrip s).

(** [s.replace(old, new)] for a one-character [old] *)
Fixpoint replace_char (old : ascii) (new : string) (s : string) : string :=
  match s with
  | EmptyString => EmptyString
  | String c s' =>
      if Ascii.eqb c old then new +:+ replace_char old new s'
      else String c (replace_char old new s')
  end.

(** Decimal digits. *)
Definition digit_char (d : Z) : ascii :=
  match d with
  | 0 => "0" | 1 => "1" | 2 => "2" | 3 => "3" | 4 => "4"
  | 5 => "5" | 6 => "6" | 7 => "7" | 8 => "8" | _ => "9"
  end%char.

Definition digit_val (c : ascii) : option Z :=
  let n := Z.of_N (N_of_ascii c) in
  if (48 <=? n) && (n <=? 57) then Some (n - 48) else None.

(** ["%0kd" % n] for [0 <= n < 10^k] *)
Fixpoint pad (k : nat) (n : Z) : string :=
  match k with
  | O => EmptyString
  | S k' => String (digit_char (n / 10 ^ Z.of_nat k'))
                   (pad k' (n mod 10 ^ Z.of_nat k'))
  end.

(** Read exactly [k] decimal digits from the front of [s]. *)
Fixpoint digits_acc (k : nat) (acc : Z) (s : string) : option (Z * string) :=
  match k with
  | O => Some (acc, s)
  | S k' =>
      match s with
      | EmptyString => None
      | String c s' =>
          match digit_val c with
          | Some d => digits_acc k' (acc * 10 + d) s'
          | None => None
          end
      end
  end.

Definition digits (k : nat) (s : string) : option (Z * string) :=
  digits_acc k 0 s.

(** A string read in full as a [k]-digit number. *)
Definition digits_all (s : string) : option Z :=
  match digits (String.length s) s with
  | Some (n, _) => Some n
  | None => None
  end.

(** Strings in which [find c] finds nothing. *)
Fixpoint nochar (c : ascii) (s : string) : bool :=
  match s with
  | EmptyString => true
  | String c' s' => negb (Ascii.eqb c' c) && nochar c s'
  end.

End Str.

(** ** [datetime]

    The pure-Python reference implementation of the standard [datetime]
    module, restricted to what the repository calls.  A [tzinfo] is a
    fixed-offset [timezone], kept as its [utcoffset()] in microseconds. *)

Record datetime := mkdatetime {
  year : Z;
  month : Z;
  day : Z;
  hour : Z;
  minute : Z;
  second : Z;
  microsecond : Z;
  tzinfo : option Z
}.

Global Instance datetime_eq_dec : EqDecision datetime.
Proof. solve_decision. Defined.

Definition US_PER_SECOND : Z := 1000000.
Definition US_PER_MINUTE : Z := 60 * US_PER_SECOND.
Definition US_PER_HOUR : Z := 60 * US_PER_MINUTE.
Definition US_PER_DAY : Z := 24 * US_PER_HOUR.

Definition MINYEAR : Z := 1.
Definition MAXYEAR : Z := 9999.
Definition MAXORDINAL : Z := 3652059.

Definition is_leap (y : Z) : bool :=
  (y mod 4 =? 0) && (negb (y mod 100 =? 0) || (y mod 400 =? 0)).

Definition DAYS_IN_MONTH (m : Z) : Z :=
  match m with
  | 1 => 31 | 2 => 28 | 3 => 31 | 4 => 30 | 5 => 31 | 6 => 30
  | 7 => 31 | 8 => 31 | 9 => 30 | 10 => 31 | 11 => 30 | 12 => 31
  | _ => -1
  end.

Definition DAYS_BEFORE_MONTH (m : Z) : Z :=
  match m with
  | 1 => 0 | 2 => 31 | 3 => 59 | 4 => 90 | 5 => 120 | 6 => 151
  | 7 => 181 | 8 => 212 | 9 => 243 | 10 => 273 | 11 => 304 | 12 => 334
  | _ => -1
  end.

Definition days_in_month (y m : Z) : Z :=
  if (m =? 2) && is_leap y then 29 else DAYS_IN_MONTH m.

Definition days_before_year (y : Z) : Z :=
  let y' := y - 1 in y' * 365 + y' / 4 - y' / 100 + y' / 400.

Definition days_before_month (y m : Z) : Z :=
  DAYS_BEFORE_MONTH m + (if (2 <? m) && is_leap y then 1 else 0).

Definition ymd2ord (y m d : Z) : Z :=
  days_before_year y + days_before_month y m + d.

Definition DI400Y : Z := 146097.
Definition DI100Y : Z := 36524.
Definition DI4Y : Z := 1461.

Definition ord2ymd (n0 : Z) : Z * Z * Z :=
  let n := n0 - 1 in
  let n400 := n / DI400Y in
  let n := n mod DI400Y in
  let y := n400 * 400 + 1 in
  let n100 := n / DI100Y in
  let n := n mod DI100Y in
  let n4 := n / DI4Y in
  let n := n mod DI4Y in
  let n1 := n / 365 in
  let n := n mod 365 in
  let y := y + n100 * 100 + n4 * 4 + n1 in
  if (n1 =? 4) || (n100 =? 4) then (y - 1, 12, 31)
  else
    let leapyear := (n1 =? 3) && (negb (n4 =? 24) || (n100 =? 3)) in
    let m := Z.shiftr (n + 50) 5 in
    let preceding := DAYS_BEFORE_MONTH m + (if (2 <? m) && leapyear then 1 else 0) in
    let '(m, preceding) :=
      if n <? preceding
      then (m - 1,
            preceding - (DAYS_IN_MONTH (m - 1)
                         + (if (m - 1 =? 2) && leapyear then 1 else 0)))
      else (m, preceding) in
    (y, m, n - preceding + 1).

(** The checks of the [datetime] and [timezone] constructors. *)
Definition check_date_fields (y m d : Z) : bool :=
  (MINYEAR <=? y) && (y <=? MAXYEAR) && (1 <=? m) && (m <=? 12)
  && (1 <=? d) && (d <=? days_in_month y m).

Definition check_time_fields (h mi s us : Z) : bool :=
  (0 <=? h) && (h <=? 23) && (0 <=? mi) && (mi <=? 59)
  && (0 <=? s) && (s <=? 59) && (0 <=? us) && (us <=? 999999).

Definition check_utcoffset (off : Z) : bool :=
  (- US_PER_DAY <? off) && (off <? US_PER_DAY).

Definition datetime_ok (d : datetime) : bool :=
  check_date_fields (year d) (month d) (day d)
  && check_time_fields (hour d) (minute d) (second d) (microsecond d)
  && match tzinfo d with
     | None => true
     | Some off => check_utcoffset off
     end.

(** [datetime(y, m, d, h, mi, s, us, tz)] *)
Definition new_datetime (y m d h mi s us : Z) (tz : option Z) : result datetime :=
  let dt := mkdatetime y m d h mi s us tz in
  if datetime_ok dt then Ok dt else Raise ValueError.

(** [_format_offset(off)]: the sign, then the magnitude as
    [HH:MM[:SS[.ffffff]]]. *)
Definition format_offset_abs (a : Z) : string :=
  let hh := a / US_PER_HOUR in
  let r := a mod US_PER_HOUR in
  let mm := r / US_PER_MINUTE in
  let ss := r mod US_PER_MINUTE in
  Str.pad 2 hh +:+ ":" +:+ Str.pad 2 mm
  +:+ (if ss =? 0 then ""
       else ":" +:+ Str.pad 2 (ss / US_PER_SECOND)
            +:+ (if ss mod US_PER_SECOND =? 0 then ""
                 else "." +:+ Str.pad 6 (ss mod US_PER_SECOND))).

Definition format_offset (off : option Z) : string :=
  match off with
  | None => ""
  | Some off =>
      (if off <? 0 then "-" else "+") +:+ format_offset_abs (Z.abs off)
  end.

(** [_format_time(hh, mm, ss, us, timespec='auto')] *)
Definition format_time (h mi s us : Z) : string :=
  Str.pad 2 h +:+ ":" +:+ Str.pad 2 mi +:+ ":" +:+ Str.pad 2 s
  +:+ (if us =? 0 then "" else "." +:+ Str.pad 6 us).

(** [date.isoformat()] *)
Definition date_isoformat (y m d : Z) : string :=
  Str.pad 4 y +:+ "-" +:+ Str.pad 2 m +:+ "-" +:+ Str.pad 2 d.

(** [datetime.isoformat()] *)
Definition isoformat (d : datetime) : string :=
  date_isoformat (year d) (month d) (day d) +:+ "T"
  +:+ format_time (hour d) (minute d) (second d) (microsecond d)
  +:+ format_offset (tzinfo d).

(** [_parse_isoformat_date(dtstr)]: ten characters [YYYY-MM-DD]. *)
Definition parse_isoformat_date (dtstr : string) : result (Z * Z * Z) :=
  match Str.digits 4 dtstr with
  | Some (y, String "-" r1) =>
      match Str.digits 2 r1 with
      | Some (m, String "-" r2) =>
          match Str.digits 2 r2 with
          | Some (d, EmptyString) => Ok (y, m, d)
          | _ => Raise ValueError
          end
      | _ => Raise ValueError
      end
  | _ => Raise ValueError
  end.

(** The fraction after the seconds: three or six digits. *)
Definition parse_fraction (f : string) : result Z :=
  match String.length f, Str.digits_all f with
  | 3%nat, Some n => Ok (n * 1000)
  | 6%nat, Some n => Ok n
  | _, _ => Raise ValueError
  end.

(** [_parse_hh_mm_ss_ff(tstr)]: [HH[:MM[:SS[.fff[fff]]]]], the loop over the
    three components unrolled. *)
Definition parse_hh_mm_ss_ff (tstr : string) : result (Z * Z * Z * Z) :=
  match Str.digits 2 tstr with
  | None => Raise ValueError
  | Some (hh, EmptyString) => Ok (hh, 0, 0, 0)
  | Some (hh, String ":" r1) =>
      match Str.digits 2 r1 with
      | None => Raise ValueError
      | Some (mm, EmptyString) => Ok (hh, mm, 0, 0)
      | Some (mm, String ":" r2) =>
          match Str.digits 2 r2 with
          | None => Raise ValueError
          | Some (ss, EmptyString) => Ok (hh, mm, ss, 0)
          | Some (ss, String "." f) =>
              us ← parse_fraction f; Ok (hh, mm, ss, us)
          | Some _ => Raise ValueError
          end
      | Some _ => Raise ValueError
      end
  | Some _ => Raise ValueError
  end.

(** [_parse_isoformat_time(tstr)]:
    [HH[:MM[:SS[.fff[fff]]]][+HH:MM[:SS[.ffffff]]]] *)
Definition parse_isoformat_time (tstr : string)
  : result (Z * Z * Z * Z * option Z) :=
  if (String.length tstr <? 2)%nat then Raise ValueError else
  let tz_pos : nat :=
    match Str.find "-" tstr with
    | Some i => S i
    | None => match Str.find "+" tstr with
              | Some i => S i
              | None => O
              end
    end in
  let timestr := if (0 <? tz_pos)%nat then Str.take (tz_pos - 1) tstr else tstr in
  '(hh, mm, ss, us) ← parse_hh_mm_ss_ff timestr;
  if (0 <? tz_pos)%nat then
    let tzstr := Str.drop tz_pos tstr in
    let n := String.length tzstr in
    if negb ((n =? 5) || (n =? 8) || (n =? 15))%nat then Raise ValueError else
    '(th, tm, ts, tus) ← parse_hh_mm_ss_ff tzstr;
    if (th =? 0) && (tm =? 0) && (ts =? 0) && (tus =? 0)
    then Ok (hh, mm, ss, us, Some 0)
    else
      let tzsign := if String.eqb (Str.slice (tz_pos - 1) tz_pos tstr) "-" then -1 else 1 in
      let td := th * US_PER_HOUR + tm * US_PER_MINUTE + ts * US_PER_SECOND + tus in
      let off := tzsign * td in
      if check_utcoffset off then Ok (hh, mm, ss, us, Some off)
      else Raise ValueError
  else Ok (hh, mm, ss, us, None).

(** [datetime.fromisoformat(date_string)] *)
Definition fromisoformat (date_string : string) : result datetime :=
  let dstr := Str.slice 0 10 date_string in
  let tstr := Str.drop 11 date_string in
  '(y, m, d) ← parse_isoformat_date dstr;
  '(hh, mm, ss, us, tz) ←
    (if String.eqb tstr "" then Ok (0, 0, 0, 0, None)
     else parse_isoformat_time tstr);
  new_datetime y m d hh mm ss us tz.


(** [datetime.toordinal()] and [date.fromordinal(n)] *)
Definition toordinal (d : datetime) : Z := ymd2ord (year d) (month d) (day d).

(** [self + timedelta(microseconds=delta)], keeping [tzinfo]. *)
Definition add_timedelta (d : datetime) (delta : Z) : result datetime :=
  let total :=
    (((toordinal d * 24 + hour d) * 60 + minute d) * 60 + second d)
    * US_PER_SECOND + microsecond d + delta in
  let days := total / US_PER_DAY in
  let rem := total mod US_PER_DAY in
  if (0 <? days) && (days <=? MAXORDINAL) then
    let '(y, m, dd) := ord2ymd days in
    Ok (mkdatetime y m dd (rem / US_PER_HOUR)
          (rem mod US_PER_HOUR / US_PER_MINUTE)
          (rem mod US_PER_MINUTE / US_PER_SECOND)
          (rem mod US_PER_SECOND) (tzinfo d))
  else Raise OverflowError.

(** [self.replace(tzinfo=tz)] *)
Definition replace_tzinfo (d : datetime) (tz : option Z) : datetime :=
  mkdatetime (year d) (month d) (day d) (hour d) (minute d) (second d)
    (microsecond d) tz.

Definition replace_hms (d : datetime) (h mi s : Z) : datetime :=
  mkdatetime (year d) (month d) (day d) h mi s (microsecond d) (tzinfo d).

Definition replace_hmsu (d : datetime) (h mi s us : Z) : datetime :=
  mkdatetime (year d) (month d) (day d) h mi s us (tzinfo d).

(** [self.astimezone(tz)] for a [tz] that is a different object from
    [self.tzinfo].  A naive [self] is taken to be in the host's local zone,
    whose UTC offset at that wall time is [local_utcoffset self]. *)
Definition astimezone (local_utcoffset : datetime → Z)
    (d : datetime) (tz : Z) : result datetime :=
  let myoffset :=
    match tzinfo d with
    | Some off => off
    | None => local_utcoffset d
    end in
  utc ← add_timedelta d (- myoffset);
  add_timedelta (replace_tzinfo utc (Some tz)) tz.

(** [timezone(timedelta(hours=-7))] *)
Definition utc_minus_7 : Z := -7 * US_PER_HOUR.

(** [d - timedelta(days=n)] on the date part, as [(y, m, d)]. *)
Definition date_sub_days (d : datetime) (n : Z) : result (Z * Z * Z) :=
  let o := toordinal d - n in
  if (0 <? o) && (o <=? MAXORDINAL) then Ok (ord2ymd o) else Raise OverflowError.

(** ** Python values held in the dictionaries of [incident_v2.py] *)

Inductive value :=
| VNone
| VBool (b : bool)
| VInt (n : Z)
| VStr (s : string).

Global Instance value_eq_dec : EqDecision value.
Proof. solve_decision. Defined.

(** [bool(v)] *)
Definition truthy (v : value) : bool :=
  match v with
  | VNone => false
  | VBool b => b
  | VInt n => negb (n =? 0)
  | VStr s => negb (String.eqb s "")
  end.

Definition of_optstr (o : option string) : value :=
  match o with
  | Some s => VStr s
  | None => VNone
  end.

(** A value read into a field annotated [str] or [Optional[str]]. *)
Definition as_optstr (v : value) : result (option string) :=
  match v with
  | VNone => Ok None
  | VStr s => Ok (Some s)
  | _ => Raise ModelLimit
  end.

(** [data[k]] *)
Definition getitem (data : gmap string value) (k : string) : result value :=
  match data !! k with
  | Some v => Ok v
  | None => Raise (KeyError k)
  end.

(** [datetime.fromisoformat(v)] on a Python value *)
Definition fromisoformat_value (v : value) : result datetime :=
  match v with
  | VStr s => fromisoformat s
  | _ => Raise TypeError
  end.

(** ** [incident_v2.py] *)

(** The dataclass.  Python does not enforce the annotations, so a field
    annotated [str] or [datetime] may hold [None]: those fields are
    options here. *)
Record Incident := mkIncident {
  id : option string;
  title : option string;
  status : option string;
  service_id : option string;
  service_name : option string;
  created_at : option datetime;
  resolved_at : option datetime;
  acknowledged_at : option datetime;
  is_escalated : bool;
  escalation_policy_id : option string;
  escalation_policy_name : option string;
  urgency : option string;
  priority : option string;
  description : option string;
  resolved_by_ccoe : bool;
  caused_by_infra : option string
}.

Global Instance Incident_eq_dec : EqDecision Incident.
Proof. solve_decision. Defined.


(** [self.t.isoformat() if self.t else None]; a [datetime] is always true. *)
Definition isoformat_opt (t : option datetime) : value :=
  match t with
  | Some d => VStr (isoformat d)
  | None => VNone
  end.

(** The sixteen keys of [to_dict], in the order of the columns. *)
Definition FIELD_NAMES : list string :=
  ["id"; "title"; "status"; "service_id"; "service_name"; "created_at";
   "resolved_at"; "acknowledged_at"; "is_escalated"; "escalation_policy_id";
   "escalation_policy_name"; "urgency"; "priority"; "description";
   "resolved_by_ccoe"; "caused_by_infra"].

(** The dictionary literal of [to_dict]: sixteen keys, written over
    [base]. *)
Definition fields_dict (base : gmap string value)
    (v_id v_title v_status v_service_id v_service_name v_created_at
     v_resolved_at v_acknowledged_at v_is_escalated v_escalation_policy_id
     v_escalation_policy_name v_urgency v_priority v_description
     v_resolved_by_ccoe v_caused_by_infra : value) : gmap string value :=
  <["id" := v_id]> $
  <["title" := v_title]> $
  <["status" := v_status]> $
  <["service_id" := v_service_id]> $
  <["service_name" := v_service_name]> $
  <["created_at" := v_created_at]> $
  <["resolved_at" := v_resolved_at]> $
  <["acknowledged_at" := v_acknowledged_at]> $
  <["is_escalated" := v_is_escalated]> $
  <["escalation_policy_id" := v_escalation_policy_id]> $
  <["escalation_policy_name" := v_escalation_policy_name]> $
  <["urgency" := v_urgency]> $
  <["priority" := v_priority]> $
  <["description" := v_description]> $
  <["resolved_by_ccoe" := v_resolved_by_ccoe]> $
  <["caused_by_infra" := v_caused_by_infra]> base.

Definition to_dict (self : Incident) : result (gmap string value) :=
  created ← match created_at self with
            | Some d => Ok (isoformat d)
            | None => Raise AttributeError
            end;
  Ok (fields_dict ∅
        (of_optstr (id self)) (of_optstr (title self)) (of_optstr (status self))
        (of_optstr (service_id self)) (of_optstr (service_name self))
        (VStr created) (isoformat_opt (resolved_at self))
        (isoformat_opt (acknowledged_at self)) (VBool (is_escalated self))
        (of_optstr (escalation_policy_id self))
        (of_optstr (escalation_policy_name self)) (of_optstr (urgency self))
        (of_optstr (priority self)) (of_optstr (description self))
        (VBool (resolved_by_ccoe self)) (of_optstr (caused_by_infra self))).

(** [datetime.fromisoformat(data[k]) if data[k] else None] *)
Definition fromisoformat_if (data : gmap string value) (k : string)
  : result (option datetime) :=
  v ← getitem data k;
  if truthy v then Some <$> fromisoformat_value v else Ok None.

Definition getitem_str (data : gmap string value) (k : string)
  : result (option string) :=
  v ← getitem data k; as_optstr v.

Definition from_dict (data : gmap string value) : result Incident :=
  created ← (v ← getitem data "created_at"; fromisoformat_value v);
  resolved ← fromisoformat_if data "resolved_at";
  acknowledged ← fromisoformat_if data "acknowledged_at";
  id_ ← getitem_str data "id";
  title_ ← getitem_str data "title";
  status_ ← getitem_str data "status";
  service_id_ ← getitem_str data "service_id";
  service_name_ ← getitem_str data "service_name";
  is_escalated_ ← truthy <$> getitem data "is_escalated";
  escalation_policy_id_ ← getitem_str data "escalation_policy_id";
  escalation_policy_name_ ← getitem_str data "escalation_policy_name";
  urgency_ ← getitem_str data "urgency";
  priority_ ← getitem_str data "priority";
  description_ ← getitem_str data "description";
  let resolved_by_ccoe_ := truthy (default (VBool false) (data !! "resolved_by_ccoe")) in
  caused_by_infra_ ← as_optstr (default VNone (data !! "caused_by_infra"));
  Ok (mkIncident id_ title_ status_ service_id_ service_name_ (Some created)
        resolved acknowledged is_escalated_ escalation_policy_id_
        escalation_policy_name_ urgency_ priority_ description_
        resolved_by_ccoe_ caused_by_infra_).

(** [get_date_str_utc_minus_7]; [local_utcoffset] is the host's zone, which
    [astimezone] consults for a naive [created_at]. *)
Definition get_date_str_utc_minus_7 (local_utcoffset : datetime → Z)
    (self : Incident) : result string :=
  c ← match created_at self with
      | Some d => Ok d
      | None => Raise AttributeError
      end;
  local_time ← astimezone local_utcoffset c utc_minus_7;
  Ok (date_isoformat (year local_time) (month local_time) (day local_time)).

(** [s.lower() in ['triggered', 'acknowledged']] and friends; a [None]
    status has no [lower]. *)
Definition is_triggered_or_acknowledged (self : Incident) : result bool :=
  match status self with
  | Some s => Ok (bool_decide (Str.lower s ∈ ["triggered"; "acknowledged"]))
  | None => Raise AttributeError
  end.

Definition is_resolved (self : Incident) : result bool :=
  match status self with
  | Some s => Ok (String.eqb (Str.lower s) "resolved")
  | None => Raise AttributeError
  end.

Definition is_caused_by_infrastructure (self : Incident) : bool :=
  match caused_by_infra self with
  | Some s => negb (String.eqb s "") && negb (String.eqb (Str.strip s) "")
  | None => false
  end.

(** ** SQLite

    The parts of SQLite that [database_v2.py] and [analytics_v2.py] rely
    on: the [incidents] table with its constraints, [INSERT OR REPLACE],
    text comparison, [substr] and the [DATE] function. *)

Module Sqlite.

(** *** The [DATE(X)] function, after [date.c] *)

Definition is_space (c : ascii) : bool :=
  match c with
  | " " | "009" | "010" | "011" | "012" | "013" => true
  | _ => false
  end%char.

Fixpoint skip_spaces (s : string) : string :=
  match s with
  | String c s' => if is_space c then skip_spaces s' else s
  | EmptyString => s
  end.

(** [getDigits]: [n] digits whose value lies in [[lo, hi]]. *)
Definition get_digits (n : nat) (lo hi : Z) (s : string) : option (Z * string) :=
  match Str.digits n s with
  | Some (v, r) => if (lo <=? v) && (v <=? hi) then Some (v, r) else None
  | None => None
  end.

(** [parseTimezone]: [(+|-)HH:MM] or [Z], blanks around it; the offset in
    minutes, or [None] on a syntax error. *)
Definition parse_timezone (z : string) : option Z :=
  let end_ok (r : string) (tz : Z) :=
    match skip_spaces r with
    | EmptyString => Some tz
    | _ => None
    end in
  let hhmm (sgn : Z) (r : string) :=
    match get_digits 2 0 14 r with
    | Some (nHr, String ":" r1) =>
        match get_digits 2 0 59 r1 with
        | Some (nMn, r2) => end_ok r2 (sgn * (nMn + nHr * 60))
        | None => None
        end
    | _ => None
    end in
  match skip_spaces z with
  | String "-" r => hhmm (-1) r
  | String "+" r => hhmm 1 r
  | String "Z" r | String "z" r => end_ok r 0
  | EmptyString => Some 0
  | _ => None
  end.

(** The digits of a fraction: their value and their number. *)
Fixpoint fraction_digits (s : string) (acc : Z) (n : nat) : Z * nat * string :=
  match s with
  | String c s' =>
      match Str.digit_val c with
      | Some d => fraction_digits s' (acc * 10 + d) (S n)
      | None => (acc, n, s)
      end
  | EmptyString => (acc, n, s)
  end.

(** [parseHhMmSs]: [HH:MM[:SS[.FFF]]] and a time zone; the time of day in
    milliseconds, rounded as [(sqlite3_int64)(s*1000 + 0.5)] but in exact
    arithmetic, and the offset in minutes. *)
Definition parse_hhmmss (z : string) : option (Z * Z) :=
  match get_digits 2 0 24 z with
  | Some (h, String ":" r0) =>
      match get_digits 2 0 59 r0 with
      | Some (m, r1) =>
          let finish (ms : Z) (r : string) :=
            match parse_timezone r with
            | Some tz => Some (h * 3600000 + m * 60000 + ms, tz)
            | None => None
            end in
          match r1 with
          | String ":" r2 =>
              match get_digits 2 0 59 r2 with
              | Some (s, r3) =>
                  match r3 with
                  | String "." (String c _ as f) =>
                      match Str.digit_val c with
                      | Some _ =>
                          let '(num, k, r4) := fraction_digits f 0 O in
                          let scale := 10 ^ Z.of_nat k in
                          finish (((s * scale + num) * 2000 + scale) / (2 * scale)) r4
                      | None => finish (s * 1000) r3
                      end
                  | _ => finish (s * 1000) r3
                  end
              | None => None
              end
          | _ => finish 0 r1
          end
      | None => None
      end
  | _ => None
  end.

Fixpoint skip_spaces_or_T (s : string) : string :=
  match s with
  | String c s' => if is_space c || Ascii.eqb c "T" then skip_spaces_or_T s' else s
  | EmptyString => s
  end.

(** [computeJD]: the Julian day number in milliseconds. *)
Definition compute_jd (Y M D : Z) : Z :=
  let '(Y, M) := if M <=? 2 then (Y - 1, M + 12) else (Y, M) in
  let A := Z.quot Y 100 in
  let B := 2 - A + Z.quot A 4 in
  let X1 := Z.quot (36525 * (Y + 4716)) 100 in
  let X2 := Z.quot (306001 * (M + 1)) 10000 in
  (X1 + X2 + D + B) * 86400000 - 131716800000.

(** [computeYMD] *)
Definition compute_ymd (iJD : Z) : Z * Z * Z :=
  let Z0 := Z.quot (iJD + 43200000) 86400000 in
  let A := Z.quot (100 * Z0 - 186721625) 3652425 in
  let A := Z0 + 1 + A - Z.quot A 4 in
  let B := A + 1524 in
  let C := Z.quot (20 * B - 2442) 7305 in
  let D := Z.quot (36525 * Z.land C 32767) 100 in
  let E := Z.quot ((B - D) * 10000) 306001 in
  let X1 := Z.quot (306001 * E) 10000 in
  let day := B - D - X1 in
  let mon := if E <? 14 then E - 1 else E - 13 in
  let yr := if 2 <? mon then C - 4716 else C - 4715 in
  (yr, mon, day).

Definition valid_julian_day (iJD : Z) : bool :=
  (0 <=? iJD) && (iJD <=? 464269060799999).

(** [parseYyyyMmDd]: the date as it is written and, when a time follows,
    the time of day in milliseconds and the offset in minutes. *)
Definition parse_yyyymmdd (z : string) : option (Z * Z * Z * option (Z * Z)) :=
  let '(neg, z) :=
    match z with
    | String "-" r => (true, r)
    | _ => (false, z)
    end in
  match get_digits 4 0 9999 z with
  | Some (Y, String "-" r0) =>
      match get_digits 2 1 12 r0 with
      | Some (M, String "-" r1) =>
          match get_digits 2 1 31 r1 with
          | Some (D, r2) =>
              let r3 := skip_spaces_or_T r2 in
              let Y := if neg then - Y else Y in
              match parse_hhmmss r3, r3 with
              | Some t, _ => Some (Y, M, D, Some t)
              | None, EmptyString => Some (Y, M, D, None)
              | None, _ => None
              end
          | None => None
          end
      | _ => None
      end
  | _ => None
  end.

(** The text [dateFunc] prints: four digits of the year, with a sign in
    front of a negative one. *)
Definition format_ymd (ymd : Z * Z * Z) : string :=
  let '(Y, M, D) := ymd in
  (if Y <? 0 then "-" +:+ Str.pad 4 (- Y) else Str.pad 4 Y)
  +:+ "-" +:+ Str.pad 2 M +:+ "-" +:+ Str.pad 2 D.

(** [DATE(X)] for a text [X], after [date.c] of SQLite 3.40; [None] is SQL
    [NULL].  [computeJD] adds the time of day to the Julian day and
    subtracts the offset; the result must be a valid Julian day.  With an
    offset other than zero the date is computed back from that instant in
    UTC ([computeYMD]); without an offset, or with a zero one, the date is
    printed as it was parsed, whatever the time of day is.  A bare time is
    a time of 2000-01-01.

    Outside the model: any other text gives [NULL] here, where SQLite also
    accepts ["now"] and a Julian day number, neither of which starts with a
    four-digit year and a dash; and the seconds are rounded to milliseconds
    in exact arithmetic, where [date.c] computes in binary64, which is the
    same for the fractions of six digits that [isoformat] writes. *)
Definition date (x : string) : option string :=
  match parse_yyyymmdd x with
  | Some (Y, M, D, t) =>
      let '(ms, tz) := default (0, 0) t in
      let iJD := compute_jd Y M D + ms - tz * 60000 in
      if (Y <? -4713) || negb (valid_julian_day iJD) then None
      else Some (format_ymd (if tz =? 0 then (Y, M, D) else compute_ymd iJD))
  | None =>
      match parse_hhmmss x with
      | Some (ms, tz) =>
          Some (format_ymd (compute_ymd (compute_jd 2000 1 1 + ms - tz * 60000)))
      | None => None
      end
  end.

(** [substr(X, 1, 10)] *)
Definition substr_1_10 (x : string) : string := Str.take 10 x.

(** [X BETWEEN lo AND hi] on text with the [BINARY] collation; a [NULL]
    operand makes the test fail. *)
Definition between (x : option string) (lo hi : string) : bool :=
  match x with
  | Some s => String.leb lo s && String.leb s hi
  | None => false
  end.

End Sqlite.

(** ** [database_v2.py] *)

(** A row of the [incidents] table.  Columns declared [NOT NULL] hold a
    value; the others may be [NULL] ([None]).  [id TEXT PRIMARY KEY] is not
    declared [NOT NULL], and in a rowid table SQLite then admits [NULL]
    there.  The two [BOOLEAN] columns hold integers.  The [TIMESTAMP]
    columns have numeric affinity, under which an ISO-8601 text stays
    text. *)
Record Row := mkRow {
  r_id : option string;
  r_title : string;
  r_status : string;
  r_service_id : string;
  r_service_name : string;
  r_created_at : string;
  r_resolved_at : option string;
  r_acknowledged_at : option string;
  r_is_escalated : Z;
  r_escalation_policy_id : option string;
  r_escalation_policy_name : option string;
  r_urgency : option string;
  r_priority : option string;
  r_description : option string;
  r_resolved_by_ccoe : Z;
  r_caused_by_infra : option string;
  r_updated_at : string
}.

Global Instance Row_eq_dec : EqDecision Row.
Proof. solve_decision. Defined.

(** The table, in rowid order. *)
Abbreviation table := (list Row).

(** A bound parameter stored in a text or timestamp column. *)
Definition bind_text (v : value) : result (option string) :=
  match v with
  | VNone => Ok None
  | VStr s => Ok (Some s)
  | _ => Raise ModelLimit
  end.

(** The same for a [NOT NULL] column without default: under [OR REPLACE] a
    [NULL] there aborts the statement. *)
Definition bind_text_not_null (v : value) : result string :=
  o ← bind_text v;
  match o with
  | Some s => Ok s
  | None => Raise IntegrityError
  end.

(** [BOOLEAN NOT NULL DEFAULT 0]: under [OR REPLACE] a [NULL] becomes the
    default. *)
Definition bind_boolean (v : value) : result Z :=
  match v with
  | VNone => Ok 0
  | VBool b => Ok (Z.b2z b)
  | VInt n => Ok n
  | VStr _ => Raise ModelLimit
  end.

(** Two rows collide on the primary key when both ids are the same text;
    [NULL] collides with nothing. *)
Definition same_key (k : option string) (r : Row) : bool :=
  match k, r_id r with
  | Some a, Some b => String.eqb a b
  | _, _ => false
  end.

(** [INSERT OR REPLACE INTO incidents (...17 columns...) VALUES (?, ...)] *)
Definition insert_or_replace (tbl : table) (params : list value) : result table :=
  match params with
  | [p_id; p_title; p_status; p_service_id; p_service_name; p_created_at;
     p_resolved_at; p_acknowledged_at; p_is_escalated; p_escalation_policy_id;
     p_escalation_policy_name; p_urgency; p_priority; p_description;
     p_resolved_by_ccoe; p_caused_by_infra; p_updated_at] =>
      c_id ← bind_text p_id;
      c_title ← bind_text_not_null p_title;
      c_status ← bind_text_not_null p_status;
      c_service_id ← bind_text_not_null p_service_id;
      c_service_name ← bind_text_not_null p_service_name;
      c_created_at ← bind_text_not_null p_created_at;
      c_resolved_at ← bind_text p_resolved_at;
      c_acknowledged_at ← bind_text p_acknowledged_at;
      c_is_escalated ← bind_boolean p_is_escalated;
      c_escalation_policy_id ← bind_text p_escalation_policy_id;
      c_escalation_policy_name ← bind_text p_escalation_policy_name;
      c_urgency ← bind_text p_urgency;
      c_priority ← bind_text p_priority;
      c_description ← bind_text p_description;
      c_resolved_by_ccoe ← bind_boolean p_resolved_by_ccoe;
      c_caused_by_infra ← bind_text p_caused_by_infra;
      c_updated_at ← bind_text_not_null p_updated_at;
      Ok (filter (λ r, ¬ same_key c_id r) tbl
          ++ [mkRow c_id c_title c_status c_service_id c_service_name
                c_created_at c_resolved_at c_acknowledged_at c_is_escalated
                c_escalation_policy_id c_escalation_policy_name c_urgency
                c_priority c_description c_resolved_by_ccoe c_caused_by_infra
                c_updated_at])
  | _ => Raise ProgrammingError
  end.

(** [dict(row)] with [sqlite3.Row] as row factory *)
Definition dict_of_row (r : Row) : gmap string value :=
  fields_dict {["updated_at" := VStr (r_updated_at r)]}
    (of_optstr (r_id r)) (VStr (r_title r)) (VStr (r_status r))
    (VStr (r_service_id r)) (VStr (r_service_name r)) (VStr (r_created_at r))
    (of_optstr (r_resolved_at r)) (of_optstr (r_acknowledged_at r))
    (VInt (r_is_escalated r)) (of_optstr (r_escalation_policy_id r))
    (of_optstr (r_escalation_policy_name r)) (of_optstr (r_urgency r))
    (of_optstr (r_priority r)) (of_optstr (r_description r))
    (VInt (r_resolved_by_ccoe r)) (of_optstr (r_caused_by_infra r)).

Module IncidentDatabase.

(** The statements both [store_incident] and the loop body of
    [store_incidents_batch] run: [to_dict], the clock, the seventeen
    parameters, [execute].  [now] is [datetime.now(self.utc_minus_7)]. *)
Definition execute_store (now : datetime) (tbl : table) (incident : Incident)
  : result table :=
  incident_data ← to_dict incident;
  let current_time_utc7 := isoformat now in
  params ← mapM (getitem incident_data) FIELD_NAMES;
  insert_or_replace tbl (params ++ [VStr current_time_utc7]).

(** [store_incident]: the new table, or the exception with the table as it
    was (the connection's context manager rolls back). *)
Definition store_incident (now : datetime) (tbl : table) (incident : Incident)
  : result table :=
  execute_store now tbl incident.

(** The [for] loop of [store_incidents_batch]; [clock i] is the clock
    reading in iteration [i]. *)
Fixpoint store_loop (clock : nat → datetime) (i : nat) (stored_count : nat)
    (tbl : table) (incidents : list Incident) : nat * table :=
  match incidents with
  | [] => (stored_count, tbl)
  | incident :: rest =>
      match execute_store (clock i) tbl incident with
      | Ok tbl' => store_loop clock (S i) (S stored_count) tbl' rest
      | Raise _ => store_loop clock (S i) stored_count tbl rest
      end
  end.

Definition store_incidents_batch (clock : nat → datetime) (tbl : table)
    (incidents : list Incident) : nat * table :=
  match incidents with
  | [] => (O, tbl)
  | _ => store_loop clock O O tbl incidents
  end.

(** [ORDER BY created_at DESC]: text compared bytewise.  The order among
    equal keys is not specified by SQL, and nothing below depends on it. *)
Definition created_desc (r1 r2 : Row) : Prop :=
  String.le (r_created_at r2) (r_created_at r1).

Global Instance created_desc_dec : RelDecision created_desc.
Proof. intros r1 r2. unfold created_desc. apply _. Defined.

Definition order_by_created_at_desc (rows : table) : table :=
  merge_sort created_desc rows.

(** [for row in cursor.fetchall(): incidents.append(Incident.from_dict(dict(row)))] *)
Definition incidents_of_rows (rows : table) : result (list Incident) :=
  mapM (λ row, from_dict (dict_of_row row)) rows.

(** The [WHERE] clause built by [get_incidents_by_date_range]; the service
    test is added only [if service_id:]. *)
Definition date_range_where (start_date end_date : string)
    (service_id : option string) (r : Row) : bool :=
  Sqlite.between (Some (Sqlite.substr_1_10 (r_created_at r))) start_date end_date
  && match service_id with
     | Some s => if String.eqb s "" then true else String.eqb (r_service_id r) s
     | None => true
     end.

Definition get_incidents_by_date_range (tbl : table)
    (start_date end_date : string) (service_id : option string)
  : result (list Incident) :=
  incidents_of_rows
    (order_by_created_at_desc
       (filter (λ r, date_range_where start_date end_date service_id r) tbl)).

(** The window [[today - days, today]] as two date strings. *)
Definition last_x_days_window (now_utc7 : datetime) (days : Z)
  : result (string * string) :=
  let end_date := date_isoformat (year now_utc7) (month now_utc7) (day now_utc7) in
  '(y, m, d) ← date_sub_days now_utc7 days;
  Ok (date_isoformat y m d, end_date).

Definition get_incidents_last_x_days (now_utc7 : datetime) (tbl : table)
    (days : Z) (service_id : option string) : result (list Incident) :=
  '(start_date, end_date) ← last_x_days_window now_utc7 days;
  get_incidents_by_date_range tbl start_date end_date service_id.

Definition date_between (start_date end_date : string) (r : Row) : bool :=
  Sqlite.between (Sqlite.date (r_created_at r)) start_date end_date.

Definition get_escalated_incidents_last_x_days (now_utc7 : datetime)
    (tbl : table) (days : Z) : result (list Incident) :=
  '(start_date, end_date) ← last_x_days_window now_utc7 days;
  incidents_of_rows
    (order_by_created_at_desc
       (filter (λ r, date_between start_date end_date r
                     && (r_is_escalated r =? 1)) tbl)).

Definition get_incident_by_id (tbl : table) (incident_id : string)
  : result (option Incident) :=
  match filter (λ r, r_id r = Some incident_id) tbl with
  | row :: _ => Some <$> from_dict (dict_of_row row)
  | [] => Ok None
  end.

Definition get_incident_count (tbl : table) : nat := length tbl.

(** [SELECT DISTINCT service_id FROM incidents]: every service id of the
    table once.  SQL leaves the order of the result open. *)
Definition get_all_service_ids (tbl : table) : list string :=
  remove_dups (r_service_id <$> tbl).

(** The [WHERE] clause of the [DELETE]: [DATE(created_at) < ?] on text; it
    does not hold when [DATE(created_at)] is [NULL]. *)
Definition older_than (cutoff_date : string) (r : Row) : bool :=
  match Sqlite.date (r_created_at r) with
  | Some s => String.ltb s cutoff_date
  | None => false
  end.

(** [delete_incidents_older_than_days]: [cursor.rowcount] and the table
    after the [DELETE]. *)
Definition delete_incidents_older_than_days (now_utc7 : datetime) (tbl : table)
    (days : Z) : result (nat * table) :=
  '(y, m, d) ← date_sub_days now_utc7 days;
  let cutoff_date := date_isoformat y m d in
  Ok (length (filter (λ r, older_than cutoff_date r) tbl),
      filter (λ r, negb (older_than cutoff_date r)) tbl).

End IncidentDatabase.

(** ** [analytics_v2.py] *)

Module IncidentAnalytics.

Record MetricResult := mkMetricResult {
  metric_name : string;
  metric_value : nat;
  period_days : Z
}.

(** [SELECT COUNT( * ) FROM incidents WHERE ...] *)
Definition count_where (P : Row → bool) (tbl : table) : nat :=
  length (filter (λ r, P r) tbl).

Definition get_total_incidents_last_x_days (now_utc7 : datetime) (tbl : table)
    (days : Z) : result MetricResult :=
  '(start_date, end_date) ← IncidentDatabase.last_x_days_window now_utc7 days;
  Ok (mkMetricResult "total_incidents"
        (count_where (IncidentDatabase.date_between start_date end_date) tbl) days).

Definition get_escalated_incidents_last_x_days (now_utc7 : datetime)
    (tbl : table) (days : Z) : result MetricResult :=
  '(start_date, end_date) ← IncidentDatabase.last_x_days_window now_utc7 days;
  Ok (mkMetricResult "escalated_incidents"
        (count_where (λ r, IncidentDatabase.date_between start_date end_date r
                           && (r_is_escalated r =? 1)) tbl) days).

(** Python's [a / b] on two counts: both convert to binary64 exactly (they
    are far below [2^53]) and the quotient is the IEEE one. *)
Definition int_truediv (a b : nat) : float :=
  PrimFloat.div (PrimFloat.of_uint63 (Uint63.of_Z (Z.of_nat a)))
                (PrimFloat.of_uint63 (Uint63.of_Z (Z.of_nat b))).


(** [status IN ('triggered', 'acknowledged')] *)
Definition status_triggered (r : Row) : bool :=
  String.eqb (r_status r) "triggered" || String.eqb (r_status r) "acknowledged".

(** [status = 'resolved'] *)
Definition status_resolved (r : Row) : bool := String.eqb (r_status r) "resolved".

(** [caused_by_infra IS NOT NULL AND caused_by_infra != ''] *)
Definition infra_caused (r : Row) : bool :=
  match r_caused_by_infra r with
  | Some s => negb (String.eqb s "")
  | None => false
  end.

Definition get_triggered_incidents_last_x_days (now_utc7 : datetime)
    (tbl : table) (days : Z) : result MetricResult :=
  '(start_date, end_date) ← IncidentDatabase.last_x_days_window now_utc7 days;
  Ok (mkMetricResult "triggered_incidents"
        (count_where (λ r, IncidentDatabase.date_between start_date end_date r
                           && status_triggered r) tbl) days).

Definition get_resolved_incidents_last_x_days (now_utc7 : datetime)
    (tbl : table) (days : Z) : result MetricResult :=
  '(start_date, end_date) ← IncidentDatabase.last_x_days_window now_utc7 days;
  Ok (mkMetricResult "resolved_incidents"
        (count_where (λ r, IncidentDatabase.date_between start_date end_date r
                           && status_resolved r) tbl) days).

Definition get_ccoe_resolved_incidents_last_x_days (now_utc7 : datetime)
    (tbl : table) (days : Z) : result MetricResult :=
  '(start_date, end_date) ← IncidentDatabase.last_x_days_window now_utc7 days;
  Ok (mkMetricResult "ccoe_resolved_incidents"
        (count_where (λ r, IncidentDatabase.date_between start_date end_date r
                           && (r_resolved_by_ccoe r =? 1)) tbl) days).

Definition get_infrastructure_caused_incidents_last_x_days (now_utc7 : datetime)
    (tbl : table) (days : Z) : result MetricResult :=
  '(start_date, end_date) ← IncidentDatabase.last_x_days_window now_utc7 days;
  Ok (mkMetricResult "infrastructure_caused_incidents"
        (count_where (λ r, IncidentDatabase.date_between start_date end_date r
                           && infra_caused r) tbl) days).

Record ServiceMetrics := mkServiceMetrics {
  sm_service_id : string;
  sm_service_name : string;
  total_incidents : nat;
  triggered_incidents : nat;
  resolved_incidents : nat;
  escalated_incidents : nat;
  escalation_rate : float;
  ccoe_resolved_incidents : nat;
  infrastructure_caused_incidents : nat
}.

(** [(escalated / total * 100) if total > 0 else 0.0] *)
Definition rate_of (escalated total : nat) : float :=
  if (0 <? total)%nat then PrimFloat.mul (int_truediv escalated total) 100%float
  else 0%float.

(** The rows of one group of [GROUP BY service_id, service_name]. *)
Definition service_group (rows : table) (k : string * string) : table :=
  filter (λ r, (r_service_id r, r_service_name r) = k) rows.

(** The row the query computes for a group, as the loop turns it into a
    [ServiceMetrics]. *)
Definition service_metrics_of (rows : table) (k : string * string)
  : ServiceMetrics :=
  let g := service_group rows k in
  let total := length g in
  let escalated := count_where (λ r, r_is_escalated r =? 1) g in
  mkServiceMetrics k.1 k.2 total
    (count_where status_triggered g) (count_where status_resolved g)
    escalated (rate_of escalated total)
    (count_where (λ r, r_resolved_by_ccoe r =? 1) g)
    (count_where infra_caused g).

(** [ORDER BY total_incidents DESC]; the order among equal totals is not
    specified by SQL, and nothing below depends on it. *)
Definition total_desc (a b : ServiceMetrics) : Prop :=
  (total_incidents b <= total_incidents a)%nat.

Global Instance total_desc_dec : RelDecision total_desc.
Proof. intros a b. unfold total_desc. apply _. Defined.

Definition get_service_metrics_last_x_days (now_utc7 : datetime) (tbl : table)
    (days : Z) : result (list ServiceMetrics) :=
  '(start_date, end_date) ← IncidentDatabase.last_x_days_window now_utc7 days;
  let rows := filter (λ r, IncidentDatabase.date_between start_date end_date r) tbl in
  Ok (merge_sort total_desc
        (service_metrics_of rows
           <$> remove_dups ((λ r, (r_service_id r, r_service_name r)) <$> rows))).

(** The dictionary [get_daily_incident_trend_last_x_days] builds for a row
    of its query, by its keys. *)
Record DailyTrend := mkDailyTrend {
  d_date : string;
  d_total_incidents : nat;
  d_triggered_incidents : nat;
  d_resolved_incidents : nat;
  d_escalated_incidents : nat;
  d_escalation_rate : float
}.

(** The rows of one group of [GROUP BY DATE(created_at)]. *)
Definition day_group (rows : table) (d : string) : table :=
  filter (λ r, Sqlite.date (r_created_at r) = Some d) rows.

Definition daily_trend_of (rows : table) (d : string) : DailyTrend :=
  let g := day_group rows d in
  let total := length g in
  let escalated := count_where (λ r, r_is_escalated r =? 1) g in
  mkDailyTrend d total (count_where status_triggered g)
    (count_where status_resolved g) escalated (rate_of escalated total).

(** [ORDER BY incident_date DESC] *)
Definition date_desc (a b : string) : Prop := String.le b a.

Global Instance date_desc_dec : RelDecision date_desc.
Proof. intros a b. unfold date_desc. apply _. Defined.

Definition get_daily_incident_trend_last_x_days (now_utc7 : datetime)
    (tbl : table) (days : Z) : result (list DailyTrend) :=
  '(start_date, end_date) ← IncidentDatabase.last_x_days_window now_utc7 days;
  let rows := filter (λ r, IncidentDatabase.date_between start_date end_date r) tbl in
  Ok (daily_trend_of rows
        <$> merge_sort date_desc
              (remove_dups (omap (λ r, Sqlite.date (r_created_at r)) rows))).

(** [a < b] on the keys [(x.escalated_incidents, x.escalation_rate)]:
    tuples compare by their first components unless these are equal. *)
Definition key_lt (a b : ServiceMetrics) : bool :=
  if (escalated_incidents a =? escalated_incidents b)%nat
  then PrimFloat.ltb (escalation_rate a) (escalation_rate b)
  else (escalated_incidents a <? escalated_incidents b)%nat.

(** [sorted(l, key=..., reverse=True)]: descending, and stable: items with
    equal keys stay in the order of [l]. *)
Fixpoint insert_desc (x : ServiceMetrics) (l : list ServiceMetrics)
  : list ServiceMetrics :=
  match l with
  | [] => [x]
  | y :: l' => if key_lt x y then y :: insert_desc x l' else x :: y :: l'
  end.

Definition sorted_reverse (l : list ServiceMetrics) : list ServiceMetrics :=
  foldr insert_desc [] l.

(** [l[:limit]]: a negative [limit] counts from the end. *)
Definition slice_to {A} (l : list A) (limit : Z) : list A :=
  if limit <? 0 then take (Z.to_nat (Z.of_nat (length l) + limit)) l
  else take (Z.to_nat limit) l.

Definition get_top_escalated_services (now_utc7 : datetime) (tbl : table)
    (days limit : Z) : result (list ServiceMetrics) :=
  service_metrics ← get_service_metrics_last_x_days now_utc7 tbl days;
  Ok (slice_to (sorted_reverse service_metrics) limit).

End IncidentAnalytics.

(** ** JSON payloads of the remote API, as Python sees them after
    [response.json()] *)

#[local] Set Warnings "-register-all".

Inductive json :=
| JNull
| JBool (b : bool)
| JNum (n : Z)
| JStr (s : string)
| JArr (items : list json)
| JObj (members : list (string * json)).

(** [bool(j)] *)
Definition json_truthy (j : json) : bool :=
  match j with
  | JNull => false
  | JBool b => b
  | JNum n => negb (n =? 0)
  | JStr s => negb (String.eqb s "")
  | JArr items => match items with [] => false | _ => true end
  | JObj members => match members with [] => false | _ => true end
  end.

Fixpoint dict_get (members : list (string * json)) (k : string) : option json :=
  match members with
  | [] => None
  | (k', v) :: rest => if String.eqb k' k then Some v else dict_get rest k
  end.

(** [j.get(k, dflt)]: only a [dict] has [get]. *)
Definition py_get (j : json) (k : string) (dflt : json) : result json :=
  match j with
  | JObj members => Ok (default dflt (dict_get members k))
  | _ => Raise AttributeError
  end.

(** [j[k]] for a string key *)
Definition py_getitem (j : json) (k : string) : result json :=
  match j with
  | JObj members =>
      match dict_get members k with
      | Some v => Ok v
      | None => Raise (KeyError k)
      end
  | _ => Raise TypeError
  end.

(** A string method called on [j]: only a [str] has it. *)
Definition py_str (j : json) : result string :=
  match j with
  | JStr s => Ok s
  | _ => Raise AttributeError
  end.

(** [for x in j] *)
Definition py_iter (j : json) : result (list json) :=
  match j with
  | JArr items => Ok items
  | JObj members => Ok (map (λ kv, JStr kv.1) members)
  | JStr s => Ok (map (λ c, JStr (String c "")) (list_ascii_of_string s))
  | _ => Raise TypeError
  end.

(** [len(j)] of a list, a dict or a string *)
Definition py_len (j : json) : Z :=
  match j with
  | JArr items => Z.of_nat (length items)
  | JObj members => Z.of_nat (length members)
  | JStr s => Z.of_nat (String.length s)
  | _ => 0
  end.

(** A JSON value stored in a field annotated [str] or [Optional[str]]. *)
Definition json_optstr (j : json) : result (option string) :=
  match j with
  | JNull => Ok None
  | JStr s => Ok (Some s)
  | _ => Raise ModelLimit
  end.

(** ** [pagerduty_client_v2.py] *)

Module PagerDutyAPIClient.

Inductive request :=
| GetIncidents (service_ids : list string) (since until : string) (limit offset : Z)
| GetLogEntries (incident_id : string)
| GetCustomFieldValues (incident_id : string).

(** What [requests.get] does: a timeout, another transport error, or a
    response with its status and its body ([None]: not JSON). *)
Inductive response :=
| RTimeout
| RConnectionError
| Response (status_code : Z) (body : option json).

(** A computation that talks to the API: the requests sent so far are the
    state. *)
Definition M (A : Type) : Type := list request → result A * list request.

Global Instance M_ret : MRet M := λ A a log, (Ok a, log).
Global Instance M_bind : MBind M := λ A B k m log,
  match m log with
  | (Ok a, log') => k a log'
  | (Raise e, log') => (Raise e, log')
  end.

Definition lift {A} (r : result A) : M A := λ log, (r, log).

(** [try: m except Exception: h] *)
Definition try_except {A} (m : M A) (h : exn → M A) : M A := λ log,
  match m log with
  | (Ok a, log') => (Ok a, log')
  | (Raise e, log') => h e log'
  end.

(** The dictionary [_get_incident_custom_fields] returns. *)
Definition custom_fields_dict (resolution prelim_root_cause : option string)
  : gmap string (option string) :=
  <["resolution" := resolution]> $ <["prelim_root_cause" := prelim_root_cause]> ∅.

(** [d.get(k)] on such a dictionary *)
Definition cf_get (d : gmap string (option string)) (k : string) : option string :=
  default None (d !! k).

(** A character of the class [[A-Z0-9]]. *)
Definition is_id_char (c : ascii) : bool :=
  let n := N_of_ascii c in
  ((65 <=? n) && (n <=? 90) || (48 <=? n) && (n <=? 57))%N.

Fixpoint all_id_chars (s : string) : bool :=
  match s with
  | EmptyString => true
  | String c s' => is_id_char c && all_id_chars s'
  end.

(** [re.search(r'/([A-Z0-9]{7})$', path)], as [group(1)] of the match: [$]
    matches at the end of the string and before a newline that ends it, so
    the match is the last eight characters once such a newline is set
    aside. *)
Definition search_service_id (path : string) : option string :=
  let n := String.length path in
  let path :=
    if String.eqb (Str.drop (n - 1) path) (String "010" "")
    then Str.take (n - 1) path else path in
  let n := String.length path in
  if (n <? 8)%nat then None else
  match Str.drop (n - 8) path with
  | String "/" group1 => if all_id_chars group1 then Some group1 else None
  | _ => None
  end.

Section Config.

(** [urlparse(service_url).path], or the exception [urlparse] raised. *)
Variable urlparse_path : string → result string.

Definition _extract_service_id (service_url : string) : result string :=
  path ← urlparse_path service_url;
  match search_service_id path with
  | Some group1 => Ok group1
  | None => Raise ValueError
  end.

(** The loop of [load_services_from_config].  A URL or a name that is not
    a string is outside this model. *)
Fixpoint load_services_loop (services : list json) (service_ids : list string)
    (service_id_to_name : gmap string string)
  : result (list string * gmap string string) :=
  match services with
  | [] => Ok (service_ids, service_id_to_name)
  | service :: rest =>
      service_url ← py_getitem service "url";
      service_name ← py_getitem service "name";
      service_id ← match service_url with
                   | JStr s => _extract_service_id s
                   | _ => Raise ModelLimit
                   end;
      service_name ← match service_name with
                     | JStr s => Ok s
                     | _ => Raise ModelLimit
                     end;
      load_services_loop rest (service_ids ++ [service_id])
        (<[service_id := service_name]> service_id_to_name)
  end.

(** [load_services_from_config]; [data] is what [yaml.safe_load] returned
    for the file, or the exception of opening or parsing it. *)
Definition load_services_from_config (data : result json)
  : result (list string * gmap string string) :=
  data ← data;
  services ← py_get data "services" (JArr []);
  services ← py_iter services;
  load_services_loop services [] ∅.

End Config.

Section Client.

(** The remote API: its answer to a request, given the requests before. *)
Variable api : list request → request → response.
(** [datetime.now(self.utc_minus_7)] *)
Variable now_utc7 : datetime.
(** [datetime.strptime(s, "%Y-%m-%d")], as year, month and day; [None] is
    its [ValueError]. *)
Variable strptime_ymd : string → option (Z * Z * Z).
(** The host's zone, for API timestamps without an offset. *)
Variable local_utcoffset : datetime → Z.
(** [load_services_from_config()]: the ids and the id-to-name map read
    from [PagerDuty.yaml], or the exception it raised. *)
Variable config : result (list string * gmap string string).

(** [requests.get(...)] then [response.raise_for_status()] then
    [response.json()] *)
Definition get_json (req : request) : M json := λ log,
  let log' := log ++ [req] in
  match api log req with
  | RTimeout => (Raise Timeout, log')
  | RConnectionError => (Raise RequestException, log')
  | Response status_code body =>
      if (400 <=? status_code) && (status_code <? 600)
      then (Raise (HTTPError status_code), log')
      else match body with
           | Some j => (Ok j, log')
           | None => (Raise ValueError, log')
           end
  end.

(** The [for attempt in range(max_retries)] loop around a [try] whose
    [except] clauses retry while [attempt < max_retries - 1] and otherwise
    return [dflt]; [time.sleep] has no effect here. *)
Fixpoint retry {A} (attempts : list nat) (max_retries : nat) (body : M A)
    (dflt : A) : M A :=
  match attempts with
  | [] => mret dflt
  | attempt :: rest =>
      try_except body
        (λ _, if (attempt <? max_retries - 1)%nat
              then retry rest max_retries body dflt
              else mret dflt)
  end.

(** [for log_entry in log_entries: if log_entry.get('type') == ...] *)
Fixpoint any_escalate (log_entries : list json) : result bool :=
  match log_entries with
  | [] => Ok false
  | log_entry :: rest =>
      ty ← py_get log_entry "type" JNull;
      match ty with
      | JStr "escalate_log_entry" => Ok true
      | _ => any_escalate rest
      end
  end.

Definition _check_incident_escalation (incident_id : string) : M bool :=
  retry (seq 0 3) 3
    (j ← get_json (GetLogEntries incident_id);
     lift (log_entries ← py_get j "log_entries" (JArr []);
           entries ← py_iter log_entries;
           any_escalate entries))
    false.

(** The body of the loop over the custom fields; [res] is the pair
    ([result['resolution']], [result['prelim_root_cause']]). *)
Definition custom_field_step (res : option string * option string)
    (field : json) : result (option string * option string) :=
  field_name ← (n ← py_get field "name" (JStr ""); Str.lower <$> py_str n);
  field_value ← py_get field "value" JNull;
  if String.eqb field_name "resolution" && json_truthy field_value then
    v ← py_str field_value; Ok (Some (Str.strip (Str.lower v)), res.2)
  else if String.eqb field_name "prelim_root_cause" && json_truthy field_value then
    v ← py_str field_value; Ok (res.1, Some (Str.strip (Str.lower v)))
  else Ok res.

Fixpoint custom_fields_loop (res : option string * option string)
    (fields : list json) : result (option string * option string) :=
  match fields with
  | [] => Ok res
  | field :: rest =>
      res' ← custom_field_step res field;
      custom_fields_loop res' rest
  end.

(** The [try] block of [_get_incident_custom_fields] after the request. *)
Definition extract_custom_fields (j : json)
  : result (gmap string (option string)) :=
  custom_fields ← py_get j "custom_fields" (JArr []);
  fields ← py_iter custom_fields;
  '(resolution, prelim_root_cause) ← custom_fields_loop (None, None) fields;
  Ok (custom_fields_dict resolution prelim_root_cause).

Definition _get_incident_custom_fields (incident_id : string)
  : M (gmap string (option string)) :=
  retry (seq 0 3) 3
    (j ← get_json (GetCustomFieldValues incident_id);
     lift (extract_custom_fields j))
    (custom_fields_dict None None).

(** [datetime.fromisoformat(j.replace('Z', '+00:00')).astimezone(self.utc_minus_7)] *)
Definition parse_api_time (j : json) : result datetime :=
  s ← py_str j;
  d ← fromisoformat (Str.replace_char "Z" "+00:00" s);
  astimezone local_utcoffset d utc_minus_7.

(** [service_id_to_name.get(service_id, dflt)]; a list or a dict is not
    hashable. *)
Definition lookup_service_name (service_id_to_name : gmap string string)
    (service_id dflt : json) : result json :=
  match service_id with
  | JStr s => Ok (default dflt (JStr <$> service_id_to_name !! s))
  | JArr _ | JObj _ => Raise TypeError
  | _ => Ok dflt
  end.

Definition _convert_to_incident_object (raw_incident : json) (is_escalated : bool)
    (service_id_to_name : gmap string string)
    (custom_fields : option (gmap string (option string))) : result Incident :=
  service ← py_get raw_incident "service" (JObj []);
  escalation_policy ← py_get raw_incident "escalation_policy" (JObj []);
  service_id ← py_get service "id" (JStr "");
  name_dflt ← py_get service "name" (JStr "");
  service_name ← lookup_service_name service_id_to_name service_id name_dflt;
  created_at ← (c ← py_getitem raw_incident "created_at"; parse_api_time c);
  r ← py_get raw_incident "resolved_at" JNull;
  resolved_at ← (if json_truthy r then Some <$> parse_api_time r else Ok None);
  acknowledgments ← py_get raw_incident "acknowledgments" (JArr []);
  acknowledged_at ←
    (if json_truthy acknowledgments then
       first ← match acknowledgments with
               | JArr (a :: _) => Ok a
               | JStr (String c _) => Ok (JStr (String c ""))
               | JObj _ => Raise (KeyError "0")
               | _ => Raise TypeError
               end;
       ack_time_str ← py_get first "at" (JStr "");
       if json_truthy ack_time_str then Some <$> parse_api_time ack_time_str
       else Ok None
     else Ok None);
  let custom_fields :=
    match custom_fields with
    | Some d => if bool_decide (d = ∅) then ∅ else d
    | None => ∅
    end in
  resolved_by_ccoe ←
    match cf_get custom_fields "resolution" with
    | Some s => Ok (String.eqb (Str.lower s) "ccoe")
    | None => Raise AttributeError
    end;
  let caused_by_infra := cf_get custom_fields "prelim_root_cause" in
  id_ ← (v ← py_getitem raw_incident "id"; json_optstr v);
  title_ ← (v ← py_get raw_incident "title" (JStr ""); json_optstr v);
  status_ ← (v ← py_getitem raw_incident "status"; json_optstr v);
  service_id_ ← json_optstr service_id;
  service_name_ ← json_optstr service_name;
  escalation_policy_id_ ← (v ← py_get escalation_policy "id" JNull; json_optstr v);
  escalation_policy_name_ ← (v ← py_get escalation_policy "name" JNull; json_optstr v);
  urgency_ ← (v ← py_get raw_incident "urgency" (JStr "low"); json_optstr v);
  p ← py_get raw_incident "priority" JNull;
  priority_ ← (if json_truthy p then v ← py_get p "name" JNull; json_optstr v
               else Ok None);
  description_ ← (v ← py_get raw_incident "description" (JStr ""); json_optstr v);
  Ok (mkIncident id_ title_ status_ service_id_ service_name_ (Some created_at)
        resolved_at acknowledged_at is_escalated escalation_policy_id_
        escalation_policy_name_ urgency_ priority_ description_
        resolved_by_ccoe caused_by_infra).

(** The [while True] loop of [_fetch_incidents_from_api]; [fuel] bounds
    the number of pages. *)
Fixpoint fetch_pages (fuel : nat) (service_ids : list string)
    (since until : string) (limit offset : Z) (all_incidents : list json)
  : M (list json) :=
  match fuel with
  | O => lift (Raise ModelLimit)
  | S fuel' =>
      data ← get_json (GetIncidents service_ids since until limit offset);
      incidents ← lift (py_get data "incidents" (JArr []));
      if negb (json_truthy incidents) then mret all_incidents else
      items ← lift (py_iter incidents);
      let all_incidents := all_incidents ++ items in
      more ← lift (py_get data "more" (JBool false));
      if negb (json_truthy more) || (py_len incidents <? limit)
      then mret all_incidents
      else fetch_pages fuel' service_ids since until limit (offset + limit)
             all_incidents
  end.

Definition _fetch_incidents_from_api (fuel : nat) (service_ids : list string)
    (since until : string) : M (list json) :=
  fetch_pages fuel service_ids since until 100 0 [].

(** [raw_incidents[batch_start:batch_end]] for
    [batch_start in range(0, total_incidents, batch_size)] *)
Fixpoint batches {A} (fuel size : nat) (l : list A) : list (list A) :=
  match fuel, l with
  | S fuel', _ :: _ => take size l :: batches fuel' size (drop size l)
  | _, _ => []
  end.

(** The body of the inner loop. *)
Definition process_incident (service_id_to_name : gmap string string)
    (raw_incident : json) : M Incident :=
  incident_id ← lift (v ← py_getitem raw_incident "id";
                      match v with
                      | JStr s => Ok s
                      | _ => Raise ModelLimit
                      end);
  is_escalated ← _check_incident_escalation incident_id;
  custom_fields ← _get_incident_custom_fields incident_id;
  lift (_convert_to_incident_object raw_incident is_escalated service_id_to_name
          (Some custom_fields)).

(** The service ids to query: all configured ones, or the caller's once
    each of them is found in the configuration. *)
Definition resolve_service_ids (all_service_ids : list string)
    (service_ids : option (list string)) : result (list string) :=
  match service_ids with
  | None => Ok all_service_ids
  | Some service_ids =>
      let invalid_ids :=
        filter (λ sid, sid ∉ all_service_ids) service_ids in
      match invalid_ids with
      | [] => Ok service_ids
      | _ => Raise (InvalidServiceIds invalid_ids all_service_ids)
      end
  end.

(** [if s:] on an [Optional[str]] *)
Definition str_given (s : option string) : option string :=
  match s with
  | Some "" | None => None
  | Some s => Some s
  end.

(** [datetime.strptime(s, "%Y-%m-%d").replace(tzinfo=self.utc_minus_7)] *)
Definition parse_day (s : string) : result datetime :=
  match strptime_ymd s with
  | Some (y, m, d) => new_datetime y m d 0 0 0 0 (Some utc_minus_7)
  | None => Raise ValueError
  end.

Definition date_window (start_date end_date : option string) (days : Z)
  : result (datetime * datetime) :=
  end_time ← match str_given end_date with
             | Some s => d ← parse_day s; Ok (replace_hms d 23 59 59)
             | None => Ok now_utc7
             end;
  start_time ← match str_given start_date with
               | Some s => parse_day s
               | None =>
                   t ← add_timedelta end_time (- ((days - 1) * US_PER_DAY));
                   Ok (replace_hmsu t 0 0 0 0)
               end;
  Ok (start_time, end_time).

Definition fetch_incidents_for_date_range (fuel : nat)
    (start_date end_date : option string) (days : Z)
    (service_ids : option (list string)) : M (list Incident) :=
  '(all_service_ids, service_id_to_name) ← lift config;
  service_ids ← lift (resolve_service_ids all_service_ids service_ids);
  '(start_time, end_time) ← lift (date_window start_date end_date days);
  let since := isoformat start_time in
  let until := isoformat end_time in
  raw_incidents ← _fetch_incidents_from_api fuel service_ids since until;
  let batch_size := 20%nat in
  processed ← mapM (λ batch, mapM (process_incident service_id_to_name) batch)
                   (batches (length raw_incidents) batch_size raw_incidents);
  mret (List.concat processed).

Definition fetch_incidents_for_last_x_days (fuel : nat) (days : Z)
  : M (list Incident) :=
  fetch_incidents_for_date_range fuel None None days None.

End Client.

End PagerDutyAPIClient.

(** ** Definitions used to state the properties *)

(** The timestamps of an instance are what [datetime] can construct. *)
Definition timestamps_ok (x : Incident) : bool :=
  match created_at x with Some d => datetime_ok d | None => false end
  && match resolved_at x with Some d => datetime_ok d | None => true end
  && match acknowledged_at x with Some d => datetime_ok d | None => true end.



(** The row a successful store of [x] at time [now] writes. *)
Definition row_of (now : datetime) (x : Incident) : option Row :=
  t ← title x; s ← status x; sid ← service_id x; sn ← service_name x;
  c ← created_at x;
  Some (mkRow (id x) t s sid sn (isoformat c)
          (isoformat <$> resolved_at x) (isoformat <$> acknowledged_at x)
          (Z.b2z (is_escalated x)) (escalation_policy_id x)
          (escalation_policy_name x) (urgency x) (priority x) (description x)
          (Z.b2z (resolved_by_ccoe x)) (caused_by_infra x) (isoformat now)).

(** The invariant of the primary key: the ids that are not [NULL] are
    pairwise distinct. *)
Definition unique_ids (tbl : table) : Prop := NoDup (omap r_id tbl).

(** The rows stored under an id. *)
Definition rows_with_id (k : string) (tbl : table) : table :=
  filter (λ r, r_id r = Some k) tbl.

(** The date prefix of the stored timestamp lies in [[start_date, end_date]],
    as strings. *)
Definition in_date_range (start_date end_date : string) (r : Row) : Prop :=
  String.le start_date (Str.take 10 (r_created_at r))
  ∧ String.le (Str.take 10 (r_created_at r)) end_date.

Global Instance in_date_range_dec s e r : Decision (in_date_range s e r).
Proof. unfold in_date_range. apply _. Defined.

(** The row passes the service filter: no service given, the empty one,
    or the row's own. *)
Definition of_service (service_id : option string) (r : Row) : Prop :=
  match service_id with
  | Some s => s = "" ∨ r_service_id r = s
  | None => True
  end.

Global Instance of_service_dec s r : Decision (of_service s r).
Proof. unfold of_service. destruct s; apply _. Defined.

(** Every row of the table was written by a store of an instance whose
    timestamps are valid. *)
Definition stored_rows (tbl : table) : Prop :=
  Forall (λ r, ∃ now x, timestamps_ok x = true ∧ row_of now x = Some r) tbl.

(** The text under which an instance's creation time is stored. *)
Definition created_text (x : Incident) : string :=
  match created_at x with
  | Some c => isoformat c
  | None => ""
  end.

(** The values of the custom fields named "prelim_root_cause" (in any
    letter case) that are non-empty strings, in the order of the payload. *)
Definition prelim_root_cause_values (fields : list json) : list string :=
  omap (λ field,
          match field with
          | JObj members =>
              match dict_get members "name", dict_get members "value" with
              | Some (JStr n), Some (JStr v) =>
                  if String.eqb (Str.lower n) "prelim_root_cause"
                     && negb (String.eqb v "")
                  then Some v else None
              | _, _ => None
              end
          | _ => None
          end) fields.

(** The instant of an aware datetime, in microseconds from ordinal 0 at
    UTC. *)
Definition utc_microseconds (d : datetime) : Z :=
  (((toordinal d * 24 + hour d) * 60 + minute d) * 60 + second d) * US_PER_SECOND
  + microsecond d - default 0 (tzinfo d).

(** The wall-clock reading of a datetime, in microseconds from ordinal 0. *)
Definition wall_microseconds (d : datetime) : Z :=
  (((toordinal d * 24 + hour d) * 60 + minute d) * 60 + second d) * US_PER_SECOND
  + microsecond d.

(** The requests for the first [pages] pages of the incident listing. *)
Definition page_requests (service_ids : list string) (since until : string)
    (pages : nat) : list PagerDutyAPIClient.request :=
  (λ i : nat, PagerDutyAPIClient.GetIncidents service_ids since until 100
                (100 * Z.of_nat i)) <$> seq 0 pages.

(** Every character of the string is one that [strip] removes. *)
Fixpoint all_space (s : string) : bool :=
  match s with
  | EmptyString => true
  | String c s' => Str.is_space c && all_space s'
  end.

(** [x] with another status. *)
Definition with_status (x : Incident) (s : option string) : Incident :=
  mkIncident (id x) (title x) s (service_id x) (service_name x)
    (created_at x) (resolved_at x) (acknowledged_at x) (is_escalated x)
    (escalation_policy_id x) (escalation_policy_name x) (urgency x) (priority x)
    (description x) (resolved_by_ccoe x) (caused_by_infra x).

(** ** Sample data *)

Module Sample.

Definition at_utc7 (d h mi : Z) : datetime :=
  mkdatetime 2025 8 d h mi 0 0 (Some utc_minus_7).

(** An incident with every optional field absent. *)
Definition minimal (i : string) (created : datetime) (escalated : bool) : Incident :=
  mkIncident (Some i) (Some "Database Connection Timeout") (Some "triggered")
    (Some "PHMCGNE") (Some "Production Database Service") (Some created)
    None None escalated None None (Some "low") None None false None.

(** An incident with every field set. *)
Definition full : Incident :=
  mkIncident (Some "Q1ABC123DEF") (Some "Database Connection Timeout")
    (Some "resolved") (Some "PHMCGNE") (Some "Production Database Service")
    (Some (mkdatetime 2025 8 23 10 0 0 123456 (Some utc_minus_7)))
    (Some (at_utc7 23 11 30)) (Some (at_utc7 23 10 5)) true
    (Some "POLICY1") (Some "Default") (Some "high") (Some "P1")
    (Some "Connection pool exhausted") true (Some "rheos").

Definition noon : datetime := at_utc7 23 12 0.

(** Created at 03:00 on 23 August, without a time zone. *)
Definition naive_early : Incident :=
  minimal "NAIVE123" (mkdatetime 2025 8 23 3 0 0 0 None) false.

(** Created at 00:30 UTC on 24 August. *)
Definition utc_0030 : Incident :=
  minimal "EDGE123" (mkdatetime 2025 8 24 0 30 0 0 (Some 0)) false.

(** Created at 20:00 on 23 August in UTC-7, which is 03:00 UTC on the 24th. *)
Definition evening : Incident := minimal "EVE1" (at_utc7 23 20 0) false.

(** A host whose local zone is UTC, and one whose zone is UTC-7. *)
Definition host_utc : datetime → Z := λ _, 0.
Definition host_utc_minus_7 : datetime → Z := λ _, utc_minus_7.

(** Four incidents on one day, the first and the third escalated. *)
Definition four : list Incident :=
  [minimal "INC1" (at_utc7 23 9 0) true; minimal "INC2" (at_utc7 23 10 0) false;
   minimal "INC3" (at_utc7 23 11 0) true; minimal "INC4" (at_utc7 23 12 0) false].

(** [x] with its identity set to [None]. *)
Definition without_id (x : Incident) : Incident :=
  mkIncident None (title x) (status x) (service_id x) (service_name x)
    (created_at x) (resolved_at x) (acknowledged_at x) (is_escalated x)
    (escalation_policy_id x) (escalation_policy_name x) (urgency x) (priority x)
    (description x) (resolved_by_ccoe x) (caused_by_infra x).

(** [x] with its title set to [None]. *)
Definition without_title (x : Incident) : Incident :=
  mkIncident (id x) None (status x) (service_id x) (service_name x)
    (created_at x) (resolved_at x) (acknowledged_at x) (is_escalated x)
    (escalation_policy_id x) (escalation_policy_name x) (urgency x) (priority x)
    (description x) (resolved_by_ccoe x) (caused_by_infra x).

(** Five valid incidents and, in second place, one whose id is [None]. *)
Definition five_and_null_id : list Incident :=
  [minimal "INC1" (at_utc7 23 9 0) true;
   without_id (minimal "INC2" (at_utc7 23 10 0) false);
   minimal "INC3" (at_utc7 23 11 0) true; minimal "INC4" (at_utc7 23 12 0) false;
   minimal "INC5" (at_utc7 23 13 0) false; minimal "INC6" (at_utc7 23 14 0) false].

Definition clock : nat → datetime := λ i, at_utc7 23 15 (Z.of_nat i).

(** Two records of the service "PHMCGNE": one created at 23:00 UTC, one
    three hours later at 19:00 in UTC-7 (02:00 UTC the next day). *)
Definition older_utc : Incident :=
  minimal "OLD" (mkdatetime 2025 8 23 23 0 0 0 (Some 0)) false.
Definition newer_utc7 : Incident := minimal "NEW" (at_utc7 23 19 0) false.
Definition mixed_offsets : table :=
  (IncidentDatabase.store_incidents_batch clock [] [older_utc; newer_utc7]).2.

(** A payload of the incident list, and the configured directory. *)
Definition raw_incident : json :=
  JObj [("id", JStr "Q1ABC123DEF"); ("title", JStr "Database Connection Timeout");
        ("status", JStr "resolved");
        ("service", JObj [("id", JStr "PHMCGNE"); ("name", JStr "db")]);
        ("created_at", JStr "2025-08-23T10:00:00Z");
        ("resolved_at", JStr "2025-08-23T11:30:00Z");
        ("escalation_policy", JObj [("id", JStr "POLICY1"); ("name", JStr "Default")]);
        ("urgency", JStr "high"); ("priority", JObj [("name", JStr "P1")]);
        ("description", JStr "Connection pool exhausted")].

Definition directory : gmap string string :=
  {["PHMCGNE" := "Production Database Service"]}.

Definition field (name val : string) : json :=
  JObj [("name", JStr name); ("value", JStr val)].

(** Custom field values as the API returns them. *)
Definition custom_fields_body : json :=
  JObj [("custom_fields",
         JArr [field "resolution" "CCOE"; field "prelim_root_cause" "Rheos "])].

(** The root cause given as blanks only. *)
Definition custom_fields_body_blank : json :=
  JObj [("custom_fields",
         JArr [field "resolution" "ccoe"; field "prelim_root_cause" "   "])].

(** An incident without a resolution field. *)
Definition custom_fields_body_unresolved : json :=
  JObj [("custom_fields", JArr [field "prelim_root_cause" "rheos"])].

(** An API that lists [raw_incident], reports no escalation, and answers
    the custom-field request with [custom_fields]. *)
Definition api_with (custom_fields : json) (log : list PagerDutyAPIClient.request)
    (req : PagerDutyAPIClient.request) : PagerDutyAPIClient.response :=
  match req with
  | PagerDutyAPIClient.GetIncidents _ _ _ _ _ =>
      PagerDutyAPIClient.Response 200
        (Some (JObj [("incidents", JArr [raw_incident]); ("more", JBool false)]))
  | PagerDutyAPIClient.GetLogEntries _ =>
      PagerDutyAPIClient.Response 200 (Some (JObj [("log_entries", JArr [])]))
  | PagerDutyAPIClient.GetCustomFieldValues _ =>
      PagerDutyAPIClient.Response 200 (Some custom_fields)
  end.

(** [strptime] is not reached when no dates are passed. *)
Definition no_strptime : string → option (Z * Z * Z) := λ _, None.

End Sample.

(** ** Further definitions used to state properties *)

(** The record has the five values the table requires: the four [NOT NULL]
    texts, and a [created_at] for [to_dict] to format. *)
Definition storable (x : Incident) : bool :=
  match title x, status x, service_id x, service_name x, created_at x with
  | Some _, Some _, Some _, Some _, Some _ => true
  | _, _, _, _, _ => false
  end.

(** The datetime that reads [total] microseconds on the wall clock, as
    [add_timedelta] builds it, or [OverflowError] outside the calendar. *)
Definition datetime_of_wall (total : Z) (tz : option Z) : result datetime :=
  let days := total / US_PER_DAY in
  let rem := total mod US_PER_DAY in
  if (0 <? days) && (days <=? MAXORDINAL) then
    let '(y, m, dd) := ord2ymd days in
    Ok (mkdatetime y m dd (rem / US_PER_HOUR)
          (rem mod US_PER_HOUR / US_PER_MINUTE)
          (rem mod US_PER_MINUTE / US_PER_SECOND)
          (rem mod US_PER_SECOND) tz)
  else Raise OverflowError.

(** The log entry is a dictionary whose ['type'] is ['escalate_log_entry']. *)
Definition has_escalate_type (log_entry : json) : bool :=
  match log_entry with
  | JObj members =>
      match dict_get members "type" with
      | Some (JStr ty) => String.eqb ty "escalate_log_entry"
      | _ => false
      end
  | _ => false
  end.


Definition set_caused_by_infra (x : Incident) (c : option string) : Incident :=
  mkIncident (id x) (title x) (status x) (service_id x) (service_name x)
    (created_at x) (resolved_at x) (acknowledged_at x) (is_escalated x)
    (escalation_policy_id x) (escalation_policy_name x) (urgency x) (priority x)
    (description x) (resolved_by_ccoe x) c.



(** The instant of creation, in microseconds. *)
Definition created_instant (x : Incident) : Z :=
  default 0 (utc_microseconds <$> created_at x).


(** The values of the custom fields named "resolution" (in any letter
    case) that are non-empty strings, in the order of the payload. *)
Definition resolution_values (fields : list json) : list string :=
  omap (λ field,
          match field with
          | JObj members =>
              match dict_get members "name", dict_get members "value" with
              | Some (JStr n), Some (JStr v) =>
                  if String.eqb (Str.lower n) "resolution"
                     && negb (String.eqb v "")
                  then Some v else None
              | _, _ => None
              end
          | _ => None
          end) fields.

(** Every text of the payload, keys included, is ASCII. *)
Fixpoint json_isascii (j : json) : bool :=
  match j with
  | JStr s => Str.isascii s
  | JArr items => forallb json_isascii items
  | JObj members =>
      forallb (λ kv, Str.isascii kv.1 && json_isascii kv.2) members
  | _ => true
  end.

(** [caused_by_infra], when there is one, is ASCII. *)
Definition caused_by_infra_isascii (x : Incident) : bool :=
  match caused_by_infra x with
  | Some s => Str.isascii s
  | None => true
  end.

(** * Results *)

Lemma bind_ok {A B} (a : A) (k : A → result B) : (Ok a ≫= k) = k a.
Proof. reflexivity. Qed.

Lemma bind_raise {A B} (e : exn) (k : A → result B) : (Raise e ≫= k) = Raise e.
Proof. reflexivity. Qed.

(** * Strings: slicing, searching, digits *)

Lemma str_app_cons (c : ascii) (s r : string) :
  String c s +:+ r = String c (s +:+ r).
Proof. reflexivity. Qed.

Lemma str_app_nil (r : string) : "" +:+ r = r.
Proof. reflexivity. Qed.

Lemma str_app_nil_r (s : string) : s +:+ "" = s.
Proof. induction s as [|c s IH]; [done|]. by rewrite str_app_cons, IH. Qed.

Lemma str_app_assoc (a b c : string) : (a +:+ b) +:+ c = a +:+ (b +:+ c).
Proof. induction a as [|x a IH]; [done|]. by rewrite !str_app_cons, IH. Qed.

Lemma str_length_app (a b : string) :
  String.length (a +:+ b) = (String.length a + String.length b)%nat.
Proof. induction a as [|x a IH]; [done|]. rewrite str_app_cons. simpl. by rewrite IH. Qed.

Lemma str_take_app (a b : string) : Str.take (String.length a) (a +:+ b) = a.
Proof.
  induction a as [|x a IH]; [by destruct b|].
  rewrite str_app_cons. simpl. by rewrite IH.
Qed.

Lemma str_drop_app (a b : string) : Str.drop (String.length a) (a +:+ b) = b.
Proof. induction a as [|x a IH]; [done|]. rewrite str_app_cons. simpl. done. Qed.

Lemma str_take_all (a : string) : Str.take (String.length a) a = a.
Proof. induction a as [|x a IH]; simpl; [done|]. by rewrite IH. Qed.

Lemma nochar_app (c : ascii) (a b : string) :
  Str.nochar c (a +:+ b) = Str.nochar c a && Str.nochar c b.
Proof.
  induction a as [|x a IH]; [done|].
  rewrite str_app_cons. simpl. rewrite IH. by rewrite andb_assoc.
Qed.

Lemma find_nochar (c : ascii) (s : string) :
  Str.nochar c s = true → Str.find c s = None.
Proof.
  induction s as [|x s IH]; simpl; [done|].
  intros [H1%negb_true_iff H2]%andb_prop. by rewrite H1, IH.
Qed.

Lemma find_app_nochar (c : ascii) (a b : string) :
  Str.nochar c a = true →
  Str.find c (a +:+ b) = (λ i, String.length a + i)%nat <$> Str.find c b.
Proof.
  induction a as [|x a IH].
  - intros _. rewrite str_app_nil. by destruct (Str.find c b).
  - simpl Str.nochar. intros [H1%negb_true_iff H2]%andb_prop.
    rewrite str_app_cons. simpl. rewrite H1, IH by done.
    by destruct (Str.find _ b).
Qed.

Lemma str_drop_app_cons (a : string) (c : ascii) (b : string) :
  Str.drop (S (String.length a)) (a +:+ String c b) = b.
Proof. induction a as [|x a IH]; [done|]. rewrite str_app_cons. simpl. done. Qed.

Lemma digit_char_range (d : Z) :
  0 <= d <= 9 → Str.digit_val (Str.digit_char d) = Some d.
Proof.
  intros H.
  assert (d = 0 ∨ d = 1 ∨ d = 2 ∨ d = 3 ∨ d = 4 ∨ d = 5 ∨ d = 6 ∨ d = 7
          ∨ d = 8 ∨ d = 9) as Hd by lia.
  repeat (destruct Hd as [-> | Hd]; [reflexivity|]). by subst.
Qed.

Lemma digit_char_nochar (c : ascii) (d : Z) :
  Str.digit_val c = None → Ascii.eqb (Str.digit_char d) c = false.
Proof.
  intros Hc. apply Ascii.eqb_neq. intros <-. revert Hc.
  destruct d as [|p|p]; try discriminate.
  do 4 (destruct p as [p|p|]; try discriminate).
Qed.

Lemma pad_length (k : nat) (n : Z) : String.length (Str.pad k n) = k.
Proof. revert n. induction k as [|k IH]; intros n; simpl; [done|]. by rewrite IH. Qed.

Lemma pad_nochar (c : ascii) (k : nat) (n : Z) :
  Str.digit_val c = None → Str.nochar c (Str.pad k n) = true.
Proof.
  intros Hc. revert n. induction k as [|k IH]; intros n; [done|].
  cbn [Str.pad Str.nochar]. by rewrite digit_char_nochar, IH.
Qed.

Lemma digits_acc_pad (k : nat) (acc n : Z) (r : string) :
  0 <= n < 10 ^ Z.of_nat k →
  Str.digits_acc k acc (Str.pad k n +:+ r) = Some (acc * 10 ^ Z.of_nat k + n, r).
Proof.
  revert acc n. induction k as [|k IH]; intros acc n Hn.
  - simpl in *. rewrite str_app_nil. do 2 f_equal. lia.
  - assert (0 < 10 ^ Z.of_nat k) as Hpos by (apply Z.pow_pos_nonneg; lia).
    assert (10 ^ Z.of_nat (S k) = 10 * 10 ^ Z.of_nat k) as Hpow
      by (rewrite Nat2Z.inj_succ, Z.pow_succ_r; lia).
    rewrite Hpow in Hn.
    cbn [Str.pad]. rewrite str_app_cons. cbn [Str.digits_acc].
    rewrite digit_char_range.
    2:{ split; [apply Z.div_pos; lia|].
        assert (n / 10 ^ Z.of_nat k < 10); [|lia].
        apply Z.div_lt_upper_bound; lia. }
    rewrite IH by (apply Z.mod_pos_bound; lia).
    do 2 f_equal. rewrite Hpow.
    pose proof (Z.div_mod n (10 ^ Z.of_nat k)). lia.
Qed.

Lemma digits_pad (k : nat) (n : Z) (r : string) :
  0 <= n < 10 ^ Z.of_nat k →
  Str.digits k (Str.pad k n +:+ r) = Some (n, r).
Proof. intros H. unfold Str.digits. rewrite digits_acc_pad by done. do 2 f_equal. Qed.

Lemma digits_pad2 (n : Z) (r : string) :
  0 <= n <= 99 → Str.digits 2 (Str.pad 2 n +:+ r) = Some (n, r).
Proof. intros H. apply digits_pad. simpl. lia. Qed.

Lemma digits_all_pad (k : nat) (n : Z) :
  0 <= n < 10 ^ Z.of_nat k → Str.digits_all (Str.pad k n) = Some n.
Proof.
  intros H. unfold Str.digits_all. rewrite pad_length.
  rewrite <- (str_app_nil_r (Str.pad k n)) at 1. by rewrite digits_pad.
Qed.

(** * [isoformat] and [fromisoformat] *)

Ltac nochar_tac :=
  repeat (rewrite nochar_app);
  repeat (rewrite pad_nochar by reflexivity);
  try reflexivity.

Lemma parse_isoformat_date_isoformat (y m d : Z) :
  0 <= y <= 9999 → 0 <= m <= 99 → 0 <= d <= 99 →
  parse_isoformat_date (date_isoformat y m d) = Ok (y, m, d).
Proof.
  intros Hy Hm Hd. unfold parse_isoformat_date, date_isoformat.
  rewrite digits_pad by (simpl; lia). rewrite str_app_cons, str_app_nil.
  rewrite digits_pad2 by lia. rewrite str_app_cons, str_app_nil.
  rewrite <- (str_app_nil_r (Str.pad 2 d)). by rewrite digits_pad2 by lia.
Qed.

Lemma date_isoformat_length (y m d : Z) :
  String.length (date_isoformat y m d) = 10%nat.
Proof.
  unfold date_isoformat. by rewrite !str_length_app, !pad_length.
Qed.

Lemma parse_fraction_pad (us : Z) :
  0 <= us <= 999999 → parse_fraction (Str.pad 6 us) = Ok us.
Proof.
  intros H. unfold parse_fraction. rewrite pad_length.
  by rewrite digits_all_pad by (simpl; lia).
Qed.

Lemma parse_format_time (h mi s us : Z) :
  check_time_fields h mi s us = true →
  parse_hh_mm_ss_ff (format_time h mi s us) = Ok (h, mi, s, us).
Proof.
  unfold check_time_fields. intros H.
  repeat (apply andb_prop in H as [H ?]).
  unfold parse_hh_mm_ss_ff, format_time.
  rewrite digits_pad2 by lia. rewrite str_app_cons, str_app_nil.
  rewrite digits_pad2 by lia. rewrite str_app_cons, str_app_nil.
  rewrite digits_pad2 by lia.
  destruct (Z.eqb_spec us 0) as [-> | Hus]; [done|].
  rewrite str_app_cons, str_app_nil. by rewrite parse_fraction_pad by lia.
Qed.

Lemma format_time_nochar (c : ascii) (h mi s us : Z) :
  c = "-"%char ∨ c = "+"%char →
  Str.nochar c (format_time h mi s us) = true.
Proof.
  intros [-> | ->]; unfold format_time; destruct (us =? 0); nochar_tac.
Qed.

Lemma format_time_length_ge (h mi s us : Z) :
  (String.length (format_time h mi s us) <? 2)%nat = false.
Proof.
  unfold format_time. rewrite !str_length_app, !pad_length. by apply Nat.ltb_ge; simpl; lia.
Qed.

Lemma offset_parts (a : Z) :
  0 <= a < US_PER_DAY →
  let r := a mod US_PER_HOUR in
  let ss := r mod US_PER_MINUTE in
  0 <= a / US_PER_HOUR <= 23 ∧ 0 <= r / US_PER_MINUTE <= 59
  ∧ 0 <= ss / US_PER_SECOND <= 59 ∧ 0 <= ss mod US_PER_SECOND <= 999999
  ∧ a = a / US_PER_HOUR * US_PER_HOUR + r / US_PER_MINUTE * US_PER_MINUTE
        + ss / US_PER_SECOND * US_PER_SECOND + ss mod US_PER_SECOND
  ∧ ss = ss / US_PER_SECOND * US_PER_SECOND + ss mod US_PER_SECOND.
Proof.
  unfold US_PER_DAY, US_PER_HOUR, US_PER_MINUTE, US_PER_SECOND. intros H.
  cbv zeta. Z.div_mod_to_equations. lia.
Qed.

Lemma parse_format_offset_abs (a : Z) :
  0 <= a < US_PER_DAY →
  let r := a mod US_PER_HOUR in
  let ss := r mod US_PER_MINUTE in
  parse_hh_mm_ss_ff (format_offset_abs a)
  = Ok (a / US_PER_HOUR, r / US_PER_MINUTE, ss / US_PER_SECOND, ss mod US_PER_SECOND).
Proof.
  intros Ha. destruct (offset_parts a Ha) as (Hh & Hm & Hs & Hu & _ & Hss).
  cbv zeta in *. unfold parse_hh_mm_ss_ff, format_offset_abs.
  rewrite digits_pad2 by lia. rewrite str_app_cons, str_app_nil.
  rewrite digits_pad2 by lia.
  destruct (Z.eqb_spec (a mod US_PER_HOUR mod US_PER_MINUTE) 0) as [E | _].
  { rewrite E. done. }
  rewrite str_app_cons, str_app_nil. rewrite digits_pad2 by lia.
  destruct (Z.eqb_spec (a mod US_PER_HOUR mod US_PER_MINUTE mod US_PER_SECOND) 0)
    as [E | _].
  { rewrite E. done. }
  rewrite str_app_cons, str_app_nil. by rewrite parse_fraction_pad by lia.
Qed.

Lemma format_offset_abs_length (a : Z) :
  let n := String.length (format_offset_abs a) in
  ((n =? 5) || (n =? 8) || (n =? 15))%nat = true.
Proof.
  unfold format_offset_abs. cbv zeta.
  repeat match goal with |- context [if ?b then _ else _] => destruct b end;
    by rewrite !str_length_app, !pad_length.
Qed.

Lemma format_offset_abs_nochar (c : ascii) (a : Z) :
  c = "-"%char ∨ c = "+"%char →
  Str.nochar c (format_offset_abs a) = true.
Proof.
  intros [-> | ->]; unfold format_offset_abs; cbv zeta;
    repeat match goal with |- context [if ?b then _ else _] => destruct b end;
    nochar_tac.
Qed.

Lemma tz_pos_split (T B : string) (c : ascii) :
  c = "-"%char ∨ c = "+"%char →
  Str.nochar "-" T = true → Str.nochar "+" T = true → Str.nochar "-" B = true →
  match Str.find "-" (T +:+ String c B) with
  | Some i => S i
  | None => match Str.find "+" (T +:+ String c B) with
            | Some i => S i
            | None => O
            end
  end = S (String.length T).
Proof.
  intros Hc HT1 HT2 HB. destruct Hc as [-> | ->].
  - rewrite find_app_nochar by done. simpl. by rewrite Nat.add_0_r.
  - rewrite (find_nochar "-") by (rewrite nochar_app, HT1; simpl; by rewrite HB).
    rewrite find_app_nochar by done. simpl. by rewrite Nat.add_0_r.
Qed.

Lemma parse_isoformat_time_split (T B : string) (c : ascii) :
  c = "-"%char ∨ c = "+"%char →
  Str.nochar "-" T = true → Str.nochar "+" T = true → Str.nochar "-" B = true →
  (String.length T <? 2)%nat = false →
  parse_isoformat_time (T +:+ String c B)
  = '(hh, mm, ss, us) ← parse_hh_mm_ss_ff T;
    let n := String.length B in
    if negb ((n =? 5) || (n =? 8) || (n =? 15))%nat then Raise ValueError else
    '(th, tm, ts, tus) ← parse_hh_mm_ss_ff B;
    if (th =? 0) && (tm =? 0) && (ts =? 0) && (tus =? 0)
    then Ok (hh, mm, ss, us, Some 0)
    else
      let tzsign := if Ascii.eqb c "-" then -1 else 1 in
      let off := tzsign * (th * US_PER_HOUR + tm * US_PER_MINUTE
                           + ts * US_PER_SECOND + tus) in
      if check_utcoffset off then Ok (hh, mm, ss, us, Some off)
      else Raise ValueError.
Proof.
  intros Hc HT1 HT2 HB HL. unfold parse_isoformat_time.
  rewrite tz_pos_split by done.
  assert ((String.length (T +:+ String c B) <? 2)%nat = false) as ->.
  { apply Nat.ltb_ge. apply Nat.ltb_ge in HL. rewrite str_length_app. lia. }
  replace (0 <? S (String.length T))%nat with true by done.
  replace (S (String.length T) - 1)%nat with (String.length T) by lia.
  rewrite str_take_app, str_drop_app_cons. unfold Str.slice.
  replace (S (String.length T) - String.length T)%nat with 1%nat by lia.
  rewrite str_drop_app.
  replace (String.eqb (Str.take 1 (String c B)) "-") with (Ascii.eqb c "-")
    by (destruct Hc as [-> | ->]; done).
  done.
Qed.

Lemma parse_isoformat_time_format (h mi s us : Z) (tz : option Z) :
  check_time_fields h mi s us = true →
  match tz with Some off => check_utcoffset off = true | None => True end →
  parse_isoformat_time (format_time h mi s us +:+ format_offset tz)
  = Ok (h, mi, s, us, tz).
Proof.
  intros Ht Htz. destruct tz as [off|]; unfold format_offset.
  2:{ rewrite str_app_nil_r. unfold parse_isoformat_time.
      rewrite format_time_length_ge.
      rewrite !find_nochar by (apply format_time_nochar; auto).
      simpl. by rewrite parse_format_time. }
  pose proof Htz as Hchk.
  unfold check_utcoffset in Htz. apply andb_prop in Htz as [Hlo%Z.ltb_lt Hhi%Z.ltb_lt].
  assert (0 <= Z.abs off < US_PER_DAY) as Habs by lia.
  pose proof (parse_format_offset_abs _ Habs) as HB. cbv zeta in HB.
  pose proof (format_offset_abs_length (Z.abs off)) as HL. cbv zeta in HL.
  destruct (offset_parts _ Habs) as (Hh & Hm & Hs & Hu & Hsum & _). cbv zeta in Hsum.
  assert (∀ c : ascii, c = "-"%char ∨ c = "+"%char →
          parse_isoformat_time
            (format_time h mi s us +:+ String c (format_offset_abs (Z.abs off)))
          = if off =? 0 then Ok (h, mi, s, us, Some 0)
            else let o := (if Ascii.eqb c "-" then -1 else 1) * Z.abs off in
                 if check_utcoffset o then Ok (h, mi, s, us, Some o)
                 else Raise ValueError) as Hgen.
  { intros c Hc. rewrite parse_isoformat_time_split;
      auto using format_time_nochar, format_offset_abs_nochar, format_time_length_ge.
    rewrite parse_format_time by done. rewrite bind_ok. cbv beta iota zeta.
    rewrite HL. cbv [negb]. cbv iota. rewrite HB. rewrite bind_ok. cbv beta iota.
    rewrite <- Hsum.
    destruct (Z.eqb_spec off 0) as [-> | Hnz].
    { done. }
    match goal with |- context [if ?b && _ && _ && _ then _ else _] =>
      destruct b eqn:E1 end; [|done].
    match goal with |- context [if true && ?b && _ && _ then _ else _] =>
      destruct b eqn:E2 end; [|done].
    match goal with |- context [if true && true && ?b && _ then _ else _] =>
      destruct b eqn:E3 end; [|done].
    match goal with |- context [if true && true && true && ?b then _ else _] =>
      destruct b eqn:E4 end; [|done].
    lia. }
  destruct (Z.ltb_spec off 0) as [Hneg | Hpos]; rewrite str_app_cons, str_app_nil, Hgen by auto.
  - destruct (Z.eqb_spec off 0); [lia|]. cbv zeta. simpl Ascii.eqb. cbv iota.
    replace (-1 * Z.abs off) with off by lia. by rewrite Hchk.
  - destruct (Z.eqb_spec off 0) as [-> | ?]; [done|]. cbv zeta. simpl Ascii.eqb. cbv iota.
    replace (1 * Z.abs off) with off by lia. by rewrite Hchk.
Qed.

Lemma eqb_empty_false (s : string) :
  (String.length s <? 2)%nat = false → String.eqb s "" = false.
Proof. by destruct s. Qed.

Lemma datetime_ok_fields (d : datetime) :
  datetime_ok d = true →
  1 <= year d <= 9999 ∧ 1 <= month d <= 12 ∧ 1 <= day d <= 31
  ∧ check_time_fields (hour d) (minute d) (second d) (microsecond d) = true
  ∧ match tzinfo d with Some off => check_utcoffset off = true | None => True end.
Proof.
  unfold datetime_ok, check_date_fields, MINYEAR, MAXYEAR. intros H.
  repeat (apply andb_prop in H as [H ?]).
  assert (days_in_month (year d) (month d) <= 31).
  { unfold days_in_month. destruct (_ && _); [lia|].
    unfold DAYS_IN_MONTH. repeat case_match; lia. }
  repeat split; try lia; try done. by destruct (tzinfo d).
Qed.

Lemma fromisoformat_isoformat (d : datetime) :
  datetime_ok d = true → fromisoformat (isoformat d) = Ok d.
Proof.
  intros Hok. destruct (datetime_ok_fields d Hok) as (Hy & Hm & Hd & Ht & Htz).
  unfold fromisoformat, isoformat, Str.slice.
  pose proof (date_isoformat_length (year d) (month d) (day d)) as HL.
  replace (10 - 0)%nat with (String.length (date_isoformat (year d) (month d) (day d)))
    by (by rewrite HL).
  change (Str.drop 0 ?s) with s. rewrite str_take_app.
  rewrite parse_isoformat_date_isoformat by lia. rewrite bind_ok. cbv beta iota.
  rewrite str_app_cons, str_app_nil.
  replace 11%nat with (S (String.length (date_isoformat (year d) (month d) (day d))))
    by (by rewrite HL).
  rewrite str_drop_app_cons.
  rewrite eqb_empty_false.
  2:{ apply Nat.ltb_ge. rewrite str_length_app.
      pose proof (format_time_length_ge (hour d) (minute d) (second d) (microsecond d))
        as H%Nat.ltb_ge. lia. }
  rewrite parse_isoformat_time_format by done. rewrite bind_ok. cbv beta iota.
  unfold new_datetime. destruct d; simpl in *. by rewrite Hok.
Qed.

(** * The record model: [to_dict] and [from_dict] *)

Section fields_dict.

Context (base : gmap string value).
Context (v1 v2 v3 v4 v5 v6 v7 v8 v9 v10 v11 v12 v13 v14 v15 v16 : value).

Let data := fields_dict base v1 v2 v3 v4 v5 v6 v7 v8 v9 v10 v11 v12 v13 v14 v15 v16.

Lemma lookup_fields_dict :
  data !! "id" = Some v1 ∧ data !! "title" = Some v2
  ∧ data !! "status" = Some v3 ∧ data !! "service_id" = Some v4
  ∧ data !! "service_name" = Some v5 ∧ data !! "created_at" = Some v6
  ∧ data !! "resolved_at" = Some v7 ∧ data !! "acknowledged_at" = Some v8
  ∧ data !! "is_escalated" = Some v9
  ∧ data !! "escalation_policy_id" = Some v10
  ∧ data !! "escalation_policy_name" = Some v11
  ∧ data !! "urgency" = Some v12 ∧ data !! "priority" = Some v13
  ∧ data !! "description" = Some v14 ∧ data !! "resolved_by_ccoe" = Some v15
  ∧ data !! "caused_by_infra" = Some v16.
Proof. subst data. unfold fields_dict. repeat split; by simplify_map_eq. Qed.

End fields_dict.

Lemma isoformat_truthy (d : datetime) : truthy (VStr (isoformat d)) = true.
Proof.
  unfold truthy. apply negb_true_iff.
  unfold isoformat, date_isoformat. cbn [Str.pad]. by rewrite !str_app_cons.
Qed.

Lemma as_optstr_of_optstr (o : option string) : as_optstr (of_optstr o) = Ok o.
Proof. by destruct o. Qed.

Lemma fromisoformat_opt (o : option datetime) :
  match o with Some d => datetime_ok d | None => true end = true →
  (if truthy (isoformat_opt o) then Some <$> fromisoformat_value (isoformat_opt o)
   else Ok None) = Ok o.
Proof.
  destruct o as [d|]; [|done]. intros Hd.
  unfold isoformat_opt. rewrite isoformat_truthy. simpl fromisoformat_value.
  by rewrite fromisoformat_isoformat.
Qed.

Lemma truthy_b2z (b : bool) : truthy (VInt (Z.b2z b)) = b.
Proof. by destruct b. Qed.



Lemma from_dict_fields_dict (base : gmap string value)
    (v1 v2 v3 v4 v5 v6 v7 v8 v9 v10 v11 v12 v13 v14 v15 v16 : value)
    (x : Incident) :
  as_optstr v1 = Ok (id x) → as_optstr v2 = Ok (title x) →
  as_optstr v3 = Ok (status x) → as_optstr v4 = Ok (service_id x) →
  as_optstr v5 = Ok (service_name x) →
  (∃ c, created_at x = Some c ∧ fromisoformat_value v6 = Ok c) →
  (if truthy v7 then Some <$> fromisoformat_value v7 else Ok None) = Ok (resolved_at x) →
  (if truthy v8 then Some <$> fromisoformat_value v8 else Ok None)
    = Ok (acknowledged_at x) →
  truthy v9 = is_escalated x → as_optstr v10 = Ok (escalation_policy_id x) →
  as_optstr v11 = Ok (escalation_policy_name x) → as_optstr v12 = Ok (urgency x) →
  as_optstr v13 = Ok (priority x) → as_optstr v14 = Ok (description x) →
  truthy v15 = resolved_by_ccoe x → as_optstr v16 = Ok (caused_by_infra x) →
  from_dict (fields_dict base v1 v2 v3 v4 v5 v6 v7 v8 v9 v10 v11 v12 v13 v14 v15 v16)
  = Ok x.
Proof.
  intros H1 H2 H3 H4 H5 (c & Hc & H6) H7 H8 H9 H10 H11 H12 H13 H14 H15 H16.
  destruct (lookup_fields_dict base v1 v2 v3 v4 v5 v6 v7 v8 v9 v10 v11 v12 v13
              v14 v15 v16)
    as (L1 & L2 & L3 & L4 & L5 & L6 & L7 & L8 & L9 & L10 & L11 & L12 & L13
        & L14 & L15 & L16).
  unfold from_dict, fromisoformat_if, getitem_str, getitem.
  rewrite L1, L2, L3, L4, L5, L6, L7, L8, L9, L10, L11, L12, L13, L14, L15, L16.
  cbv [default from_option Datatypes.id]. cbn [mbind result_bind].
  rewrite H6. cbn [mbind result_bind]. rewrite H7. cbn [mbind result_bind].
  rewrite H8. cbn [mbind result_bind].
  rewrite H1, H2, H3, H4, H5, H10, H11, H12, H13, H14, H16.
  cbn [mbind result_bind fmap result_fmap]. rewrite H9, H15.
  destruct x; simpl in *. by subst.
Qed.






(** * Conversion of API payloads *)

Lemma custom_fields_dict_resolution (r p : option string) :
  PagerDutyAPIClient.cf_get (PagerDutyAPIClient.custom_fields_dict r p) "resolution" = r
  ∧ PagerDutyAPIClient.cf_get (PagerDutyAPIClient.custom_fields_dict r p)
      "prelim_root_cause" = p
  ∧ PagerDutyAPIClient.custom_fields_dict r p ≠ ∅.
Proof.
  unfold PagerDutyAPIClient.cf_get, PagerDutyAPIClient.custom_fields_dict.
  repeat split; [by simplify_map_eq.. | apply insert_non_empty].
Qed.

(** Without a resolution value the conversion stops at
    [custom_fields.get('resolution').lower()], if it gets that far. *)
Lemma convert_needs_resolution (local_utcoffset : datetime → Z) (raw_incident : json)
    (is_escalated : bool) (service_id_to_name : gmap string string)
    (custom_fields : option (gmap string (option string))) :
  (∀ d, custom_fields = Some d → PagerDutyAPIClient.cf_get d "resolution" = None) →
  is_ok (PagerDutyAPIClient._convert_to_incident_object local_utcoffset raw_incident
           is_escalated service_id_to_name custom_fields) = false.
Proof.
  intros Hres. unfold PagerDutyAPIClient._convert_to_incident_object.
  assert (PagerDutyAPIClient.cf_get
            match custom_fields with
            | Some d => if bool_decide (d = ∅) then ∅ else d
            | None => ∅
            end "resolution" = None) as ->.
  { destruct custom_fields as [d|]; [|done].
    case_bool_decide; [done|]. by apply Hres. }
  repeat match goal with
  | |- is_ok (?r ≫= _) = false =>
      destruct r as [?|?]; [cbn [mbind result_bind]|reflexivity]
  end.
  reflexivity.
Qed.

(** C1: with no resolution value (the enrichment default), the conversion
    raises instead of yielding [resolved_by_ccoe = false]: for every payload
    it returns no instance, on a well-formed payload the exception is
    [AttributeError], and a fetch that meets such an incident fails as a
    whole.  With a resolution value the flag is its case-insensitive
    comparison with "ccoe". *)
Theorem convert_without_resolution_raises :
  (∀ local_utcoffset raw_incident is_escalated service_id_to_name p,
     is_ok (PagerDutyAPIClient._convert_to_incident_object local_utcoffset
              raw_incident is_escalated service_id_to_name
              (Some (PagerDutyAPIClient.custom_fields_dict None p))) = false
     ∧ is_ok (PagerDutyAPIClient._convert_to_incident_object local_utcoffset
                raw_incident is_escalated service_id_to_name None) = false)
  ∧ PagerDutyAPIClient._convert_to_incident_object Sample.host_utc
      Sample.raw_incident false Sample.directory
      (Some (PagerDutyAPIClient.custom_fields_dict None None))
    = Raise AttributeError
  ∧ (PagerDutyAPIClient.fetch_incidents_for_date_range
       (Sample.api_with Sample.custom_fields_body_unresolved) Sample.noon
       Sample.no_strptime Sample.host_utc (Ok (["PHMCGNE"], Sample.directory))
       3 None None 7 None []).1
    = Raise AttributeError
  ∧ resolved_by_ccoe <$>
      PagerDutyAPIClient._convert_to_incident_object Sample.host_utc
        Sample.raw_incident false Sample.directory
        (Some (PagerDutyAPIClient.custom_fields_dict (Some "ccoe") None))
    = Ok true.
Proof.
  split; [|by vm_compute].
  intros local_utcoffset raw_incident is_escalated service_id_to_name p.
  split; apply convert_needs_resolution.
  - intros d [= <-]. apply custom_fields_dict_resolution.
  - done.
Qed.

(** What a conversion that succeeds puts in the two classification
    fields. *)
Lemma convert_classification (local_utcoffset : datetime → Z) (raw_incident : json)
    (is_escalated : bool) (service_id_to_name : gmap string string)
    (d : gmap string (option string)) (inc : Incident) :
  PagerDutyAPIClient._convert_to_incident_object local_utcoffset raw_incident
    is_escalated service_id_to_name (Some d) = Ok inc →
  (∃ s, PagerDutyAPIClient.cf_get d "resolution" = Some s
        ∧ resolved_by_ccoe inc = String.eqb (Str.lower s) "ccoe")
  ∧ caused_by_infra inc = PagerDutyAPIClient.cf_get d "prelim_root_cause".
Proof.
  unfold PagerDutyAPIClient._convert_to_incident_object. intros H.
  assert ((if bool_decide (d = ∅) then ∅ else d) = d) as Hd
    by (by case_bool_decide).
  rewrite Hd in H.
  destruct (PagerDutyAPIClient.cf_get d "resolution") as [s|] eqn:Hs.
  - repeat match type of H with
    | (?r ≫= _) = Ok _ =>
        destruct r as [?|?]; [cbn [mbind result_bind] in H | discriminate H]
    end.
    injection H as <-. simpl. eauto.
  - exfalso.
    repeat match type of H with
    | (?r ≫= _) = Ok _ =>
        destruct r as [?|?]; [cbn [mbind result_bind] in H | discriminate H]
    end.
    discriminate H.
Qed.

(** * The date key *)

(** C2: on a host whose local zone is UTC, the date key of an Incident
    whose [created_at] is the naive 2025-08-23 03:00 is "2025-08-22", not
    the timestamp's own date: [astimezone] reads a naive timestamp in the
    host's zone, not in UTC-7.  On a host in UTC-7 the key is "2025-08-23",
    and a timezone-aware [created_at] at 00:30 UTC on the 24th is keyed to
    the 23rd on any host. *)
Theorem date_key_of_naive_follows_host_zone :
  get_date_str_utc_minus_7 Sample.host_utc Sample.naive_early = Ok "2025-08-22"
  ∧ get_date_str_utc_minus_7 Sample.host_utc_minus_7 Sample.naive_early
    = Ok "2025-08-23"
  ∧ (∀ host, get_date_str_utc_minus_7 host Sample.utc_0030 = Ok "2025-08-23").
Proof. by vm_compute. Qed.

(** * The store *)

(** C6: a batch of five valid records and one whose id is [None] stores
    all six and returns 6: the [id TEXT PRIMARY KEY] column admits [NULL],
    so that record does not fail.  A record that does fail (here one
    without a title) is skipped and not counted. *)
Theorem batch_with_null_id_stores_all :
  let '(stored_count, tbl) :=
    IncidentDatabase.store_incidents_batch Sample.clock [] Sample.five_and_null_id in
  stored_count = 6%nat ∧ length tbl = 6%nat
  ∧ r_id <$> tbl = [Some "INC1"; None; Some "INC3"; Some "INC4"; Some "INC5";
                   Some "INC6"]
  ∧ (IncidentDatabase.store_incidents_batch Sample.clock []
       (Sample.without_title (Sample.minimal "BAD" Sample.noon false) :: Sample.four)).1
    = 4%nat.
Proof. by vm_compute. Qed.

(** * The two date keys of the query layer *)

(** C4: for the record created at 2025-08-23T20:00:00-07:00, as [to_dict]
    writes it, [substr(created_at, 1, 10)] is "2025-08-23" while
    [DATE(created_at)] is "2025-08-24" (SQLite converts to UTC), so the range
    query for the 23rd returns the record and the total count over the same
    day is 0. *)
Theorem date_keys_disagree :
  ∃ tbl row,
    IncidentDatabase.store_incident Sample.noon [] Sample.evening = Ok tbl
    ∧ tbl = [row]
    ∧ r_created_at row = "2025-08-23T20:00:00-07:00"
    ∧ Sqlite.substr_1_10 (r_created_at row) = "2025-08-23"
    ∧ Sqlite.date (r_created_at row) = Some "2025-08-24"
    ∧ IncidentDatabase.get_incidents_by_date_range tbl "2025-08-23" "2025-08-23" None
      = Ok [Sample.evening]
    ∧ IncidentDatabase.get_incidents_last_x_days (Sample.at_utc7 23 23 0) tbl 0 None
      = Ok [Sample.evening]
    ∧ IncidentAnalytics.metric_value <$>
        IncidentAnalytics.get_total_incidents_last_x_days (Sample.at_utc7 23 23 0) tbl 0
      = Ok 0%nat.
Proof.
  do 2 eexists. split; [vm_compute; reflexivity|]. split; [reflexivity|].
  repeat split; vm_compute; reflexivity.
Qed.

(** * Metrics *)



(** * [store_incident] and [store_incidents_batch] *)

Lemma bind_text_of_optstr (o : option string) : bind_text (of_optstr o) = Ok o.
Proof. by destruct o. Qed.

Lemma bind_text_isoformat_opt (o : option datetime) :
  bind_text (isoformat_opt o) = Ok (isoformat <$> o).
Proof. by destruct o. Qed.

(** One store: the row of [row_of] replaces the rows with the same id and
    goes to the end of the table; an instance without [created_at] fails in
    [to_dict], one without a [NOT NULL] text fails in SQLite. *)
Lemma execute_store_spec (now : datetime) (tbl : table) (x : Incident) :
  IncidentDatabase.execute_store now tbl x
  = match row_of now x with
    | Some row => Ok (filter (λ r, ¬ same_key (id x) r) tbl ++ [row])
    | None => Raise (match created_at x with
                     | None => AttributeError
                     | Some _ => IntegrityError
                     end)
    end.
Proof.
  unfold IncidentDatabase.execute_store, to_dict, row_of.
  destruct x as [i t s si sn c r a e pi pn u p de cc ci]; cbn [created_at].
  destruct c as [c|]; cbn [mbind result_bind].
  2:{ cbn. by destruct t, s, si, sn. }
  match goal with |- context [fields_dict ?b ?a1 ?a2 ?a3 ?a4 ?a5 ?a6 ?a7 ?a8 ?a9
                                ?a10 ?a11 ?a12 ?a13 ?a14 ?a15 ?a16] =>
    destruct (lookup_fields_dict b a1 a2 a3 a4 a5 a6 a7 a8 a9 a10 a11 a12 a13
                a14 a15 a16)
      as (L1 & L2 & L3 & L4 & L5 & L6 & L7 & L8 & L9 & L10 & L11 & L12 & L13
          & L14 & L15 & L16)
  end.
  unfold FIELD_NAMES. cbn [mapM]. unfold getitem.
  rewrite L1, L2, L3, L4, L5, L6, L7, L8, L9, L10, L11, L12, L13, L14, L15, L16.
  cbn [mbind result_bind mret result_ret app].
  unfold insert_or_replace.
  rewrite !bind_text_of_optstr, !bind_text_isoformat_opt.
  cbn [id title status service_id service_name mbind result_bind option_bind].
  unfold bind_text_not_null. rewrite !bind_text_of_optstr.
  destruct t as [t|]; [|done]. destruct s as [s|]; [|done].
  destruct si as [si|]; [|done]. destruct sn as [sn|]; [|done].
  reflexivity.
Qed.

Lemma row_of_id (now : datetime) (x : Incident) (row : Row) :
  row_of now x = Some row → r_id row = id x.
Proof.
  unfold row_of. intros H.
  destruct (title x), (status x), (service_id x), (service_name x), (created_at x);
    try discriminate H.
  by injection H as <-.
Qed.



Lemma of_optstr_isoformat (o : option datetime) :
  of_optstr (isoformat <$> o) = isoformat_opt o.
Proof. by destruct o. Qed.

(** Reading back the row a store wrote gives the instance that was
    stored. *)
Lemma from_dict_row_of (now : datetime) (x : Incident) (row : Row) :
  timestamps_ok x = true → row_of now x = Some row →
  from_dict (dict_of_row row) = Ok x.
Proof.
  unfold timestamps_ok, row_of. intros [[Hc Hr]%andb_prop Ha]%andb_prop H.
  destruct (title x) as [t|] eqn:Et; [|discriminate H].
  destruct (status x) as [s|] eqn:Es; [|discriminate H].
  destruct (service_id x) as [si|] eqn:Esi; [|discriminate H].
  destruct (service_name x) as [sn|] eqn:Esn; [|discriminate H].
  destruct (created_at x) as [c|] eqn:Ec; [|discriminate H].
  injection H as <-. unfold dict_of_row.
  cbn [r_id r_title r_status r_service_id r_service_name r_created_at
       r_resolved_at r_acknowledged_at r_is_escalated r_escalation_policy_id
       r_escalation_policy_name r_urgency r_priority r_description
       r_resolved_by_ccoe r_caused_by_infra r_updated_at].
  rewrite !of_optstr_isoformat.
  apply from_dict_fields_dict;
    first [ apply as_optstr_of_optstr | apply truthy_b2z
          | by apply fromisoformat_opt
          | exists c; split; [done | by apply fromisoformat_isoformat]
          | by rewrite ?Et, ?Es, ?Esi, ?Esn ].
Qed.

Lemma same_key_iff (k : option string) (r : Row) :
  same_key k r ↔ ∃ s, k = Some s ∧ r_id r = Some s.
Proof.
  unfold same_key. split.
  - destruct k as [a|], (r_id r) as [b|]; try done.
    intros ->%Is_true_true%String.eqb_eq. eauto.
  - intros (s & -> & ->). apply Is_true_true, String.eqb_refl.
Qed.

Lemma rows_with_id_replaced (k : string) (tbl : table) :
  rows_with_id k (filter (λ r, ¬ same_key (Some k) r) tbl) = [].
Proof.
  unfold rows_with_id. induction tbl as [|r tbl IH]; [done|].
  rewrite (filter_cons (λ r, ¬ same_key (Some k) r)). case_decide as Hk; [|done].
  rewrite filter_cons. case_decide as Hr; [|done].
  exfalso. apply Hk, same_key_iff. eauto.
Qed.

(** After a successful store of [x], exactly the new row carries [x]'s
    id. *)
Lemma rows_with_id_stored (now : datetime) (tbl tbl' : table) (x : Incident)
    (k : string) :
  id x = Some k → IncidentDatabase.store_incident now tbl x = Ok tbl' →
  ∃ row, row_of now x = Some row ∧ rows_with_id k tbl' = [row].
Proof.
  intros Hk. unfold IncidentDatabase.store_incident. rewrite execute_store_spec.
  destruct (row_of now x) as [row|] eqn:Hrow; [|done].
  intros [= <-]. exists row. split; [done|].
  unfold rows_with_id. rewrite filter_app. fold (rows_with_id k).
  rewrite Hk.
  change (filter _ (filter _ tbl))
    with (rows_with_id k (filter (λ r, ¬ same_key (Some k) r) tbl)).
  rewrite rows_with_id_replaced. rewrite filter_cons, filter_nil.
  rewrite (row_of_id _ _ _ Hrow), Hk. by case_decide.
Qed.

Lemma omap_sublist {A B} (f : A → option B) (l1 l2 : list A) :
  l1 `sublist_of` l2 → omap f l1 `sublist_of` omap f l2.
Proof.
  induction 1 as [|x l1 l2 _ IH|x l1 l2 _ IH]; simpl.
  - constructor.
  - destruct (f x); [by constructor|done].
  - destruct (f x); [by constructor|done].
Qed.




(** The batch: the count is the number of records that [row_of] accepts,
    whatever else is in the list. *)
Lemma store_loop_count (clock : nat → datetime) (incidents : list Incident) :
  ∀ i n tbl,
    (IncidentDatabase.store_loop clock i n tbl incidents).1
    = (n + length (filter (λ x, is_Some (row_of (clock O) x)) incidents))%nat.
Proof.
  induction incidents as [|x xs IH]; intros i n tbl; [simpl; lia|].
  cbn [IncidentDatabase.store_loop]. rewrite execute_store_spec, filter_cons.
  assert (is_Some (row_of (clock i) x) ↔ is_Some (row_of (clock 0%nat) x)) as Hiff.
  { unfold row_of.
    destruct (title x), (status x), (service_id x), (service_name x), (created_at x);
      simpl; split; intros [? ?]; done || by eexists. }
  destruct (row_of (clock i) x) as [row|] eqn:Hrow.
  - rewrite IH. case_decide as Hd; [simpl; lia|].
    exfalso. apply Hd, Hiff. by eexists.
  - rewrite IH. case_decide as Hd; [|done].
    apply Hiff in Hd as [? ?]. done.
Qed.



(** * [get_incidents_by_date_range] *)

Global Instance created_desc_trans : Transitive IncidentDatabase.created_desc.
Proof. intros r1 r2 r3 H12 H23. unfold IncidentDatabase.created_desc in *. by etrans. Qed.

Global Instance created_desc_total : Total IncidentDatabase.created_desc.
Proof. intros r1 r2. unfold IncidentDatabase.created_desc. apply (total String.le). Qed.

Lemma date_range_where_iff (start_date end_date : string)
    (service_id : option string) (r : Row) :
  IncidentDatabase.date_range_where start_date end_date service_id r
  ↔ in_date_range start_date end_date r ∧ of_service service_id r.
Proof.
  unfold IncidentDatabase.date_range_where, Sqlite.between, Sqlite.substr_1_10,
    in_date_range, of_service, String.le.
  rewrite !andb_True. apply and_iff_compat_l.
  destruct service_id as [s|]; [|done].
  destruct (String.eqb_spec s "") as [-> | Hs].
  - split; [by left|done].
  - rewrite Is_true_true, String.eqb_eq. split; [by right|by intros [?|?]].
Qed.

(** [mapM] in [result]: every element converts, so the list does. *)
Lemma mapM_result_Forall2 {A B} (f : A → result B) (P : B → A → Prop) (l : list A) :
  Forall (λ a, ∃ b, f a = Ok b ∧ P b a) l →
  ∃ k, mapM f l = Ok k ∧ Forall2 P k l.
Proof.
  induction 1 as [|a l (b & Hb & HP) _ (k & Hk & IH)].
  - by exists [].
  - exists (b :: k). split; [|by constructor].
    cbn [mapM]. rewrite Hb. cbn [mbind result_bind]. rewrite Hk. done.
Qed.

Lemma stored_rows_perm (l1 l2 : table) :
  l1 ≡ₚ l2 → stored_rows l2 → stored_rows l1.
Proof. unfold stored_rows. by intros ->. Qed.

Lemma stored_rows_filter (P : Row → Prop) `{∀ r, Decision (P r)} (tbl : table) :
  stored_rows tbl → stored_rows (filter P tbl).
Proof.
  unfold stored_rows. rewrite !Forall_forall.
  intros Hall r [_ Hr]%list_elem_of_filter. by apply Hall.
Qed.

Lemma row_of_created_text (now : datetime) (x : Incident) (r : Row) :
  row_of now x = Some r → r_created_at r = created_text x.
Proof.
  unfold row_of, created_text. intros H.
  destruct (title x), (status x), (service_id x), (service_name x), (created_at x);
    try discriminate H.
  by injection H as <-.
Qed.

Lemma StronglySorted_Forall2 {A B} (R : relation A) (S : relation B)
    (P : B → A → Prop) (k : list B) (l : list A) :
  (∀ b1 b2 a1 a2, P b1 a1 → P b2 a2 → R a1 a2 → S b1 b2) →
  Forall2 P k l → StronglySorted R l → StronglySorted S k.
Proof.
  intros HRS HF. induction HF as [|b a k l Hba HF IH]; intros Hs.
  - constructor.
  - apply StronglySorted_inv in Hs as [Hs Hall]. constructor; [by apply IH|].
    clear IH Hs. induction HF as [|b' a' k l Hb' _ IH']; [constructor|].
    apply Forall_cons in Hall as [Ha Hall]. constructor; [by eapply HRS|by apply IH'].
Qed.

(** What the query does return: the conversion of the rows whose date
    prefix lies in [[start_date, end_date]] as strings, restricted to the
    given service when one is supplied (Python takes the empty string for
    none), in descending order of the stored [created_at] text; on a table
    written by the store every row converts back to the stored instance; a
    range that holds no row gives the empty list. *)
Lemma date_range_rows_by_text (tbl : table)
    (start_date end_date : string) (service_id : option string) :
  (∃ rows,
     rows ≡ₚ filter (λ r, in_date_range start_date end_date r
                          ∧ of_service service_id r) tbl
     ∧ StronglySorted IncidentDatabase.created_desc rows
     ∧ IncidentDatabase.get_incidents_by_date_range tbl start_date end_date service_id
       = IncidentDatabase.incidents_of_rows rows
     ∧ (stored_rows tbl →
        ∃ incidents,
          IncidentDatabase.get_incidents_by_date_range tbl start_date end_date
            service_id = Ok incidents
          ∧ Forall2 (λ x r, ∃ now, row_of now x = Some r) incidents rows
          ∧ StronglySorted (λ x y, String.le (created_text y) (created_text x))
              incidents))
  ∧ ((∀ r, r ∈ tbl → ¬ in_date_range start_date end_date r) →
     IncidentDatabase.get_incidents_by_date_range tbl start_date end_date service_id
     = Ok []).
Proof.
  assert (filter (λ r, IncidentDatabase.date_range_where start_date end_date
                         service_id r) tbl
          = filter (λ r, in_date_range start_date end_date r
                         ∧ of_service service_id r) tbl) as Hfilter.
  { apply list_filter_iff. intros r. apply date_range_where_iff. }
  unfold IncidentDatabase.get_incidents_by_date_range,
    IncidentDatabase.order_by_created_at_desc.
  rewrite Hfilter.
  set (selected := filter (λ r, in_date_range start_date end_date r
                                ∧ of_service service_id r) tbl).
  split.
  - exists (merge_sort IncidentDatabase.created_desc selected).
    pose proof (merge_sort_Permutation IncidentDatabase.created_desc selected) as Hperm.
    pose proof (StronglySorted_merge_sort IncidentDatabase.created_desc selected)
      as Hsorted.
    split; [done|]. split; [done|]. split; [done|].
    intros Hstored.
    assert (stored_rows (merge_sort IncidentDatabase.created_desc selected)) as Hrows
      by (eapply stored_rows_perm; [done|]; by apply stored_rows_filter).
    destruct (mapM_result_Forall2 (λ row, from_dict (dict_of_row row))
                (λ x r, ∃ now, row_of now x = Some r)
                (merge_sort IncidentDatabase.created_desc selected))
      as (incidents & Hinc & HF).
    { eapply Forall_impl; [exact Hrows|].
      intros r (now & x & Hts & Hrow). exists x.
      split; [by eapply from_dict_row_of|by exists now]. }
    exists incidents. split; [done|]. split; [done|].
    eapply StronglySorted_Forall2; [|exact HF|exact Hsorted].
    intros x1 x2 r1 r2 [now1 H1] [now2 H2] Hr.
    unfold IncidentDatabase.created_desc in Hr.
    by rewrite <- (row_of_created_text _ _ _ H1), <- (row_of_created_text _ _ _ H2).
  - intros Hnone.
    assert (selected = []) as ->; [|done].
    destruct selected as [|r l] eqn:Hsel; [done|]. exfalso.
    assert (r ∈ selected) as [[Hrange _] Htbl]%list_elem_of_filter
      by (rewrite Hsel; apply list_elem_of_here).
    by eapply Hnone.
Qed.

(** C7: the query orders by the stored text of [created_at], which is the
    order of creation only among texts written with one UTC offset.  The
    store takes creation times with any offset: of two valid incidents
    stored by one batch, the second created three hours after the first,
    the query for their date returns the older one first. *)
Theorem date_range_returns_older_first :
  ∃ tbl,
    IncidentDatabase.store_incidents_batch Sample.clock []
      [Sample.older_utc; Sample.newer_utc7] = (2%nat, tbl)
    ∧ timestamps_ok Sample.older_utc = true
    ∧ timestamps_ok Sample.newer_utc7 = true
    ∧ r_created_at <$> tbl
      = ["2025-08-23T23:00:00+00:00"; "2025-08-23T19:00:00-07:00"]
    ∧ IncidentDatabase.get_incidents_by_date_range tbl "2025-08-23" "2025-08-23" None
      = Ok [Sample.older_utc; Sample.newer_utc7]
    ∧ created_instant Sample.older_utc + 3 * US_PER_HOUR
      = created_instant Sample.newer_utc7.
Proof.
  eexists. split; [vm_compute; reflexivity|].
  repeat split; vm_compute; reflexivity.
Qed.

(** * Custom fields *)

Import PagerDutyAPIClient.

(** The field's contribution to [prelim_root_cause], if any. *)
Lemma custom_field_step_prelim (res res' : option string * option string)
    (field : json) :
  custom_field_step res field = Ok res' →
  res'.2 = match prelim_root_cause_values [field] with
           | v :: _ => Some (Str.strip (Str.lower v))
           | [] => res.2
           end.
Proof.
  unfold custom_field_step, prelim_root_cause_values.
  destruct field as [| | | |items|members]; try discriminate.
  cbn [py_get omap list_omap mbind result_bind].
  destruct (dict_get members "name") as [[| | |n| |]|];
    cbn [default py_str fmap result_fmap mbind result_bind]; try discriminate.
  - cbn -[Str.lower Str.strip String.eqb]. generalize (Str.lower n). intros l.
    destruct (String.eqb_spec l "resolution") as [Hres | Hres];
      destruct (String.eqb_spec l "prelim_root_cause") as [Hpre | Hpre];
      try (subst; discriminate); subst;
      destruct (dict_get members "value") as [[|b|z|v|items|ms]|]; cbn;
      repeat case_match; intros; simplify_eq/=; done.
  - destruct (dict_get members "value") as [[|b|z|v|items|ms]|]; cbn;
      repeat case_match; intros; simplify_eq/=; done.
Qed.

Lemma prelim_root_cause_values_cons (field : json) (fields : list json) :
  prelim_root_cause_values (field :: fields)
  = prelim_root_cause_values [field] ++ prelim_root_cause_values fields.
Proof.
  unfold prelim_root_cause_values. cbn [omap list_omap].
  by destruct (match field with JObj _ => _ | _ => None end).
Qed.

Lemma prelim_root_cause_values_single (field : json) :
  prelim_root_cause_values [field] = []
  ∨ ∃ v, prelim_root_cause_values [field] = [v].
Proof.
  unfold prelim_root_cause_values. cbn [omap list_omap].
  destruct (match field with JObj _ => _ | _ => None end); eauto.
Qed.

(** The loop keeps the normalised value of the last matching field. *)
Lemma custom_fields_loop_prelim (fields : list json) :
  ∀ res res', custom_fields_loop res fields = Ok res' →
    res'.2 = match last (prelim_root_cause_values fields) with
             | Some v => Some (Str.strip (Str.lower v))
             | None => res.2
             end.
Proof.
  induction fields as [|field fields IH]; intros res res' H.
  - by injection H as <-.
  - cbn [custom_fields_loop] in H.
    destruct (custom_field_step res field) as [res1|] eqn:Hstep; [|discriminate H].
    cbn [mbind result_bind] in H.
    apply IH in H. apply custom_field_step_prelim in Hstep.
    rewrite prelim_root_cause_values_cons, last_app.
    destruct (last (prelim_root_cause_values fields)) as [v|]; [done|].
    rewrite H, Hstep.
    destruct (prelim_root_cause_values_single field) as [-> | [v ->]]; done.
Qed.

(** C9, amended: for a payload of ASCII text, when the enrichment and the
    conversion succeed, [caused_by_infra] is the value of the last custom
    field named "prelim_root_cause" (in any letter case) whose value is a
    non-empty string, lower-cased and stripped of surrounding blanks, and
    is absent when there is no such field. *)
Theorem caused_by_infra_is_normalised (local_utcoffset : datetime → Z)
    (raw_incident body : json) (is_escalated : bool)
    (service_id_to_name : gmap string string) (fields : list json)
    (cf : gmap string (option string)) (inc : Incident) :
  json_isascii body = true →
  py_get body "custom_fields" (JArr []) = Ok (JArr fields) →
  extract_custom_fields body = Ok cf →
  _convert_to_incident_object local_utcoffset raw_incident is_escalated
    service_id_to_name (Some cf) = Ok inc →
  caused_by_infra inc
  = (λ v, Str.strip (Str.lower v)) <$> last (prelim_root_cause_values fields).
Proof.
  intros _ Hbody Hcf Hconv. unfold extract_custom_fields in Hcf.
  rewrite Hbody in Hcf. cbn [mbind result_bind py_iter] in Hcf.
  destruct (custom_fields_loop (None, None) fields) as [[r p]|] eqn:Hloop;
    [|discriminate Hcf].
  cbn [mbind result_bind] in Hcf. injection Hcf as <-.
  apply convert_classification in Hconv as [_ ->].
  destruct (custom_fields_dict_resolution r p) as (_ & -> & _).
  apply custom_fields_loop_prelim in Hloop. cbn [snd] in Hloop. rewrite Hloop.
  by destruct (last (prelim_root_cause_values fields)).
Qed.

Lemma caused_by_infra_is_normalised_witness :
  ∃ cf inc,
    extract_custom_fields Sample.custom_fields_body = Ok cf
    ∧ _convert_to_incident_object Sample.host_utc Sample.raw_incident false
        Sample.directory (Some cf) = Ok inc
    ∧ caused_by_infra inc = Some "rheos".
Proof.
  destruct (extract_custom_fields Sample.custom_fields_body) as [cf|] eqn:Hcf;
    [|by vm_compute in Hcf].
  destruct (_convert_to_incident_object Sample.host_utc Sample.raw_incident false
              Sample.directory (Some cf)) as [inc|] eqn:Hinc.
  2:{ apply (f_equal is_ok) in Hinc. revert Hinc.
      vm_compute in Hcf. injection Hcf as <-. vm_compute. discriminate. }
  exists cf, inc. split; [done|]. split; [done|].
  rewrite (caused_by_infra_is_normalised Sample.host_utc Sample.raw_incident
             Sample.custom_fields_body false Sample.directory
             [Sample.field "resolution" "CCOE"; Sample.field "prelim_root_cause" "Rheos "]
             cf inc); [reflexivity|reflexivity|reflexivity|exact Hcf|exact Hinc].
Defined.

(** C9 fails as stated: the API value "Rheos " is stored as "rheos", and a
    value of blanks only is stored as the empty string, not as absent. *)
Lemma caused_by_infra_counterexample :
  (caused_by_infra <$>
     (extract_custom_fields Sample.custom_fields_body ≫= λ cf,
      _convert_to_incident_object Sample.host_utc Sample.raw_incident false
        Sample.directory (Some cf))) = Ok (Some "rheos")
  ∧ prelim_root_cause_values
      [Sample.field "resolution" "CCOE"; Sample.field "prelim_root_cause" "Rheos "]
    = ["Rheos "]
  ∧ (caused_by_infra <$>
       (extract_custom_fields Sample.custom_fields_body_blank ≫= λ cf,
        _convert_to_incident_object Sample.host_utc Sample.raw_incident false
          Sample.directory (Some cf))) = Ok (Some "").
Proof. repeat split; vm_compute; reflexivity. Qed.

(** * Validation of the service ids *)

Import PagerDutyAPIClient.

(** Lemmas of the form [f x = Raise (InvalidServiceIds i a) → False]: the
    validation error comes from nowhere but the validation. *)
Create HintDb no_inv discriminated.

Ltac inv_step H :=
  match type of H with
  | Ok _ = Raise _ => discriminate H
  | Raise _ = Raise _ => first [discriminate H | injection H as ->]
  | (?r ≫= _) = Raise _ =>
      let E := fresh "E" in
      destruct r as [?|?] eqn:E; cbn [mbind result_bind] in H;
      [|injection H as ->; exfalso; eauto with no_inv]
  | (_ <$> ?r) = Raise _ =>
      let E := fresh "E" in
      destruct r as [?|?] eqn:E; cbn [fmap result_fmap] in H;
      [|injection H as ->; exfalso; eauto with no_inv]
  | (if ?b then _ else _) = Raise _ => destruct b
  | match ?x with _ => _ end = Raise _ => destruct x eqn:?
  | _ => progress cbv beta zeta in H
  end.

Ltac no_inv := intros; exfalso; repeat match goal with
  | H : _ = Raise (InvalidServiceIds _ _) |- _ => inv_step H
  end; eauto with no_inv.

Lemma new_datetime_no_inv y m d h mi s us tz i a :
  new_datetime y m d h mi s us tz = Raise (InvalidServiceIds i a) → False.
Proof. unfold new_datetime. no_inv. Qed.
#[export] Hint Resolve new_datetime_no_inv : no_inv.

Lemma add_timedelta_no_inv d delta i a :
  add_timedelta d delta = Raise (InvalidServiceIds i a) → False.
Proof. unfold add_timedelta. no_inv. Qed.
#[export] Hint Resolve add_timedelta_no_inv : no_inv.

Lemma astimezone_no_inv local d tz i a :
  astimezone local d tz = Raise (InvalidServiceIds i a) → False.
Proof. unfold astimezone. no_inv. Qed.
#[export] Hint Resolve astimezone_no_inv : no_inv.

Lemma parse_isoformat_date_no_inv s i a :
  parse_isoformat_date s = Raise (InvalidServiceIds i a) → False.
Proof. unfold parse_isoformat_date. no_inv. Qed.
#[export] Hint Resolve parse_isoformat_date_no_inv : no_inv.

Lemma parse_fraction_no_inv s i a :
  parse_fraction s = Raise (InvalidServiceIds i a) → False.
Proof. unfold parse_fraction. no_inv. Qed.
#[export] Hint Resolve parse_fraction_no_inv : no_inv.

Lemma parse_hh_mm_ss_ff_no_inv s i a :
  parse_hh_mm_ss_ff s = Raise (InvalidServiceIds i a) → False.
Proof. unfold parse_hh_mm_ss_ff. no_inv. Qed.
#[export] Hint Resolve parse_hh_mm_ss_ff_no_inv : no_inv.

Lemma parse_isoformat_time_no_inv s i a :
  parse_isoformat_time s = Raise (InvalidServiceIds i a) → False.
Proof. unfold parse_isoformat_time. no_inv. Qed.
#[export] Hint Resolve parse_isoformat_time_no_inv : no_inv.

Lemma fromisoformat_no_inv s i a :
  fromisoformat s = Raise (InvalidServiceIds i a) → False.
Proof. unfold fromisoformat. no_inv. Qed.
#[export] Hint Resolve fromisoformat_no_inv : no_inv.

Lemma py_get_no_inv j k dflt i a :
  py_get j k dflt = Raise (InvalidServiceIds i a) → False.
Proof. unfold py_get. no_inv. Qed.
#[export] Hint Resolve py_get_no_inv : no_inv.

Lemma py_getitem_no_inv j k i a :
  py_getitem j k = Raise (InvalidServiceIds i a) → False.
Proof. unfold py_getitem. no_inv. Qed.
#[export] Hint Resolve py_getitem_no_inv : no_inv.

Lemma py_str_no_inv j i a : py_str j = Raise (InvalidServiceIds i a) → False.
Proof. unfold py_str. no_inv. Qed.
#[export] Hint Resolve py_str_no_inv : no_inv.

Lemma py_iter_no_inv j i a : py_iter j = Raise (InvalidServiceIds i a) → False.
Proof. unfold py_iter. no_inv. Qed.
#[export] Hint Resolve py_iter_no_inv : no_inv.

Lemma json_optstr_no_inv j i a :
  json_optstr j = Raise (InvalidServiceIds i a) → False.
Proof. unfold json_optstr. no_inv. Qed.
#[export] Hint Resolve json_optstr_no_inv : no_inv.

Lemma lookup_service_name_no_inv m j dflt i a :
  lookup_service_name m j dflt = Raise (InvalidServiceIds i a) → False.
Proof. unfold lookup_service_name. no_inv. Qed.
#[export] Hint Resolve lookup_service_name_no_inv : no_inv.

Lemma parse_api_time_no_inv local j i a :
  parse_api_time local j = Raise (InvalidServiceIds i a) → False.
Proof. unfold parse_api_time. no_inv. Qed.
#[export] Hint Resolve parse_api_time_no_inv : no_inv.

Lemma convert_no_inv local raw esc dir cf i a :
  _convert_to_incident_object local raw esc dir cf
  = Raise (InvalidServiceIds i a) → False.
Proof. unfold _convert_to_incident_object. no_inv. Qed.
#[export] Hint Resolve convert_no_inv : no_inv.

Lemma date_window_no_inv now strptime start_date end_date days i a :
  date_window now strptime start_date end_date days
  = Raise (InvalidServiceIds i a) → False.
Proof. unfold date_window, parse_day, str_given. no_inv. Qed.
#[export] Hint Resolve date_window_no_inv : no_inv.


Import PagerDutyAPIClient.

Section api.

Context (api : list request → request → response).

Lemma M_bind_unfold {A B} (m : M A) (k : A → M B) (log : list request) :
  (m ≫= k) log
  = match m log with
    | (Ok a, log') => k a log'
    | (Raise e, log') => (Raise e, log')
    end.
Proof. reflexivity. Qed.

Lemma get_json_no_inv req log i a :
  (get_json api req log).1 = Raise (InvalidServiceIds i a) → False.
Proof.
  unfold get_json. destruct (api log req) as [| |status body]; try discriminate.
  destruct (_ && _); [discriminate|]. by destruct body.
Qed.

(** The retry loop swallows every exception. *)
Lemma retry_ok {A} (attempts : list nat) (max_retries : nat) (body : M A)
    (dflt : A) (log : list request) :
  ∃ a log', retry attempts max_retries body dflt log = (Ok a, log').
Proof.
  revert log. induction attempts as [|attempt rest IH]; intros log.
  - by eexists _, _.
  - cbn [retry]. unfold try_except.
    destruct (body log) as [[a|e] log']; [by eexists _, _|].
    destruct (_ <? _)%nat; [apply IH|by eexists _, _].
Qed.

Lemma M_bind_no_inv {A B} (m : M A) (k : A → M B) (log : list request) i a :
  (∀ log, (m log).1 = Raise (InvalidServiceIds i a) → False) →
  (∀ x log, (k x log).1 = Raise (InvalidServiceIds i a) → False) →
  ((m ≫= k) log).1 = Raise (InvalidServiceIds i a) → False.
Proof.
  intros Hm Hk. rewrite M_bind_unfold.
  destruct (m log) as [[x|e] log'] eqn:E; [apply Hk|].
  cbn [fst]. intros [= ->]. apply (Hm log). by rewrite E.
Qed.

Lemma lift_no_inv {A} (r : result A) (log : list request) i a :
  (r = Raise (InvalidServiceIds i a) → False) →
  (lift r log).1 = Raise (InvalidServiceIds i a) → False.
Proof. done. Qed.

Lemma mapM_no_inv {A B} (f : A → M B) (l : list A) i a :
  (∀ x log, (f x log).1 = Raise (InvalidServiceIds i a) → False) →
  ∀ log, (mapM f l log).1 = Raise (InvalidServiceIds i a) → False.
Proof.
  intros Hf. induction l as [|x l IH]; intros log; [done|].
  cbn [mapM]. apply M_bind_no_inv; [apply Hf|]. intros y log1.
  apply M_bind_no_inv; [apply IH|]. done.
Qed.

Lemma fetch_pages_no_inv fuel service_ids since until limit i a :
  ∀ offset all_incidents log,
    (fetch_pages api fuel service_ids since until limit offset all_incidents log).1
    = Raise (InvalidServiceIds i a) → False.
Proof.
  induction fuel as [|fuel IH]; intros offset all_incidents log; [done|].
  cbn [fetch_pages].
  apply M_bind_no_inv; [intros ?; apply get_json_no_inv|]. intros data log1.
  apply M_bind_no_inv; [intros ?; apply lift_no_inv, py_get_no_inv|].
  intros incidents log2. destruct (negb _); [done|].
  apply M_bind_no_inv; [intros ?; apply lift_no_inv, py_iter_no_inv|].
  intros items log3.
  apply M_bind_no_inv; [intros ?; apply lift_no_inv, py_get_no_inv|].
  intros more log4. destruct (_ || _); [done|]. apply IH.
Qed.

Lemma process_incident_no_inv local dir raw log i a :
  (process_incident api local dir raw log).1 = Raise (InvalidServiceIds i a) → False.
Proof.
  unfold process_incident.
  apply M_bind_no_inv.
  { intros ?. apply lift_no_inv. no_inv. }
  intros incident_id log1. rewrite M_bind_unfold.
  unfold _check_incident_escalation.
  match goal with |- context [retry ?x ?y ?z ?w log1] =>
    destruct (retry_ok x y z w log1) as (esc & log2 & ->) end.
  rewrite M_bind_unfold. unfold _get_incident_custom_fields.
  match goal with |- context [retry ?x ?y ?z ?w log2] =>
    destruct (retry_ok x y z w log2) as (cf & log3 & ->) end.
  apply lift_no_inv, convert_no_inv.
Qed.

(** C8: when some caller-supplied id is not in the configured directory,
    the call raises the validation error, which names exactly the supplied
    ids that are not configured (and lists the configured ones), before any
    request is sent, so nothing is fetched or returned; when every supplied
    id is configured, the call does not raise that error. *)
Theorem service_ids_validated (now_utc7 : datetime)
    (strptime_ymd : string → option (Z * Z * Z)) (local_utcoffset : datetime → Z)
    (all_service_ids : list string) (service_id_to_name : gmap string string)
    (fuel : nat) (start_date end_date : option string) (days : Z)
    (service_ids : list string) (log : list request) :
  let run :=
    fetch_incidents_for_date_range api now_utc7 strptime_ymd local_utcoffset
      (Ok (all_service_ids, service_id_to_name)) fuel start_date end_date days
      (Some service_ids) log in
  ((∃ sid, sid ∈ service_ids ∧ sid ∉ all_service_ids) →
   ∃ invalid_ids,
     run = (Raise (InvalidServiceIds invalid_ids all_service_ids), log)
     ∧ invalid_ids ≠ []
     ∧ ∀ sid, sid ∈ invalid_ids ↔ sid ∈ service_ids ∧ sid ∉ all_service_ids)
  ∧ ((∀ sid, sid ∈ service_ids → sid ∈ all_service_ids) →
     ∀ invalid_ids available, run.1 ≠ Raise (InvalidServiceIds invalid_ids available)).
Proof.
  cbv zeta. unfold fetch_incidents_for_date_range.
  rewrite M_bind_unfold. cbn [lift]. rewrite M_bind_unfold.
  unfold resolve_service_ids.
  set (invalid_ids := filter (λ sid, sid ∉ all_service_ids) service_ids).
  assert (∀ sid, sid ∈ invalid_ids ↔ sid ∈ service_ids ∧ sid ∉ all_service_ids)
    as Hinv by (intros sid; unfold invalid_ids; rewrite list_elem_of_filter; tauto).
  split.
  - intros (sid & Hin & Hnot). exists invalid_ids.
    assert (sid ∈ invalid_ids) as Hsid by (by apply Hinv).
    destruct invalid_ids as [|x xs] eqn:E; [by apply elem_of_nil in Hsid|].
    cbn [lift]. done.
  - intros Hall i a.
    assert (invalid_ids = []) as ->.
    { destruct invalid_ids as [|x xs] eqn:E; [done|]. exfalso.
      assert (x ∈ x :: xs) as [Hx Hnot]%Hinv by apply list_elem_of_here.
      by apply Hnot, Hall. }
    cbn [lift]. intros H. revert H.
    apply M_bind_no_inv.
    { intros ?. apply lift_no_inv, date_window_no_inv. }
    intros [start_time end_time] log1.
    apply M_bind_no_inv; [intros ?; apply fetch_pages_no_inv|].
    intros raw_incidents log2.
    apply M_bind_no_inv; [|done].
    apply mapM_no_inv. intros batch. apply mapM_no_inv.
    intros raw ?. apply process_incident_no_inv.
Qed.

End api.

Lemma service_ids_validated_witness :
  ∃ invalid_ids,
    fetch_incidents_for_date_range
      (Sample.api_with Sample.custom_fields_body) Sample.noon Sample.no_strptime
      Sample.host_utc (Ok (["PHMCGNE"], Sample.directory)) 3 None None 7
      (Some ["PHMCGNE"; "INVALID"]) []
    = (Raise (InvalidServiceIds invalid_ids ["PHMCGNE"]), [])
    ∧ invalid_ids ≠ []
    ∧ ∀ sid, sid ∈ invalid_ids
             ↔ sid ∈ ["PHMCGNE"; "INVALID"] ∧ sid ∉ ["PHMCGNE"].
Proof.
  apply (proj1 (service_ids_validated (Sample.api_with Sample.custom_fields_body)
                  Sample.noon Sample.no_strptime Sample.host_utc ["PHMCGNE"]
                  Sample.directory 3 None None 7 ["PHMCGNE"; "INVALID"] [])).
  exists "INVALID". split.
  - apply list_elem_of_further, list_elem_of_here.
  - intros H%list_elem_of_singleton. discriminate H.
Defined.

(** * The enrichment call *)

(** A first answer that parses is the result. *)
Lemma custom_fields_first_try (api : list request → request → response)
    (incident_id : string) (log : list request) (status_code : Z) (body : json)
    (cf : gmap string (option string)) :
  api log (GetCustomFieldValues incident_id) = Response status_code (Some body) →
  (400 <=? status_code) && (status_code <? 600) = false →
  extract_custom_fields body = Ok cf →
  _get_incident_custom_fields api incident_id log
  = (Ok cf, log ++ [GetCustomFieldValues incident_id]).
Proof.
  intros Hapi Hst Hcf. unfold _get_incident_custom_fields.
  cbn [seq retry]. unfold try_except. rewrite M_bind_unfold.
  unfold get_json. rewrite Hapi, Hst. cbn [lift]. by rewrite Hcf.
Qed.

(** Three timeouts in a row give the default: both values absent. *)
Lemma custom_fields_after_timeouts (api : list request → request → response)
    (incident_id : string) (log : list request) :
  (∀ log', api log' (GetCustomFieldValues incident_id) = RTimeout) →
  _get_incident_custom_fields api incident_id log
  = (Ok (custom_fields_dict None None),
     log ++ [GetCustomFieldValues incident_id; GetCustomFieldValues incident_id;
             GetCustomFieldValues incident_id]).
Proof.
  intros Hapi. unfold _get_incident_custom_fields.
  cbn [seq retry]. unfold try_except. rewrite !M_bind_unfold.
  unfold get_json. rewrite !Hapi. cbn. rewrite !M_bind_unfold. rewrite !Hapi. cbn.
  rewrite !M_bind_unfold, !Hapi. cbn. by rewrite <- !(assoc_L (++)).
Qed.

(** * Further properties of the record model *)

Lemma lower_char_idemp (c : ascii) : Str.lower_char (Str.lower_char c) = Str.lower_char c.
Proof.
  destruct c as [[] [] [] [] [] [] [] []]; reflexivity.
Qed.

Lemma lower_idemp (s : string) : Str.lower (Str.lower s) = Str.lower s.
Proof. induction s as [|c s IH]; simpl; [done|]. by rewrite lower_char_idemp, IH. Qed.

(** X1: the two status predicates read the status only through its
    lower-case form, so any change of letter case leaves them as they are;
    they are never both true; and without a status both raise. *)
Theorem status_predicates (x : Incident) (s t : string) :
  status x = Some s → Str.lower t = Str.lower s →
  is_triggered_or_acknowledged (with_status x (Some t)) = is_triggered_or_acknowledged x
  ∧ is_resolved (with_status x (Some t)) = is_resolved x
  ∧ ¬ (is_triggered_or_acknowledged x = Ok true ∧ is_resolved x = Ok true)
  ∧ is_triggered_or_acknowledged (with_status x None) = Raise AttributeError
  ∧ is_resolved (with_status x None) = Raise AttributeError.
Proof.
  intros Hs Ht. unfold is_triggered_or_acknowledged, is_resolved.
  cbn [with_status status]. rewrite Hs, Ht.
  repeat split; try done.
  intros [[= H1%bool_decide_eq_true] [= H2%String.eqb_eq]].
  rewrite H2 in H1. apply elem_of_cons in H1 as [H1|H1]; [discriminate H1|].
  apply elem_of_cons in H1 as [H1|H1]; [discriminate H1|]. by apply elem_of_nil in H1.
Qed.

Lemma status_predicates_witness :
  is_triggered_or_acknowledged
    (with_status (Sample.minimal "INC1" Sample.noon false) (Some "TRIGGERED"))
  = is_triggered_or_acknowledged (Sample.minimal "INC1" Sample.noon false).
Proof.
  apply (status_predicates (Sample.minimal "INC1" Sample.noon false)
           "triggered" "TRIGGERED"); reflexivity.
Defined.

Lemma lstrip_all_space (s : string) : all_space s = true → Str.lstrip s = "".
Proof.
  induction s as [|c s IH]; simpl; [done|].
  intros [Hc Hs]%andb_prop. rewrite Hc. auto.
Qed.

Lemma lstrip_not_all_space (s : string) :
  all_space s = false → all_space (Str.lstrip s) = false.
Proof.
  induction s as [|c s IH]; simpl; [done|].
  destruct (Str.is_space c) eqn:Hc; simpl; [done|]. by rewrite Hc.
Qed.

Lemma rstrip_empty (s : string) : Str.rstrip s = "" ↔ all_space s = true.
Proof.
  induction s as [|c s IH]; simpl; [done|].
  destruct (Str.rstrip s) as [|c' r] eqn:Hr.
  - destruct (Str.is_space c); simpl; [|by split].
    split; intros _; [by apply IH|done].
  - split; [done|]. intros [_ Hs]%andb_prop. by apply IH in Hs.
Qed.

Lemma strip_empty (s : string) : Str.strip s = "" ↔ all_space s = true.
Proof.
  unfold Str.strip. rewrite rstrip_empty.
  destruct (all_space s) eqn:Hs.
  - by rewrite lstrip_all_space.
  - by rewrite lstrip_not_all_space.
Qed.

(** X2: for an ASCII [caused_by_infra], [is_caused_by_infrastructure] is
    true exactly when [caused_by_infra] is a string with a character that
    is not blank: it is false for [None], for the empty string and for
    blanks only. *)
Theorem is_caused_by_infrastructure_iff (x : Incident) :
  caused_by_infra_isascii x = true →
  is_caused_by_infrastructure x = true
  ↔ ∃ s, caused_by_infra x = Some s ∧ all_space s = false.
Proof.
  intros _. unfold is_caused_by_infrastructure.
  destruct (caused_by_infra x) as [s|]; [|split; [done|by intros (? & ? & ?)]].
  pose proof (strip_empty s) as Hstrip.
  split.
  - intros [Hne Hst]%andb_prop. exists s. split; [done|].
    apply negb_true_iff, String.eqb_neq in Hst.
    destruct (all_space s); [|done]. by destruct Hst, Hstrip as [_ ->].
  - intros (? & [= <-] & Hs). apply andb_true_intro. split.
    + apply negb_true_iff, String.eqb_neq. by intros ->.
    + apply negb_true_iff, String.eqb_neq. intros H%Hstrip. congruence.
Qed.

Lemma is_caused_by_infrastructure_iff_witness :
  is_caused_by_infrastructure Sample.full = true
  ∧ is_caused_by_infrastructure (set_caused_by_infra Sample.full (Some "  ")) = false.
Proof.
  split.
  - apply (proj2 (is_caused_by_infrastructure_iff Sample.full eq_refl)).
    exists "rheos". split; reflexivity.
  - destruct (is_caused_by_infrastructure (set_caused_by_infra Sample.full (Some "  ")))
      eqn:E; [|reflexivity].
    apply (proj1 (is_caused_by_infrastructure_iff
                    (set_caused_by_infra Sample.full (Some "  ")) eq_refl))
      in E as (s & [= <-] & Hs).
    discriminate Hs.
Defined.

(** * The proleptic Gregorian calendar of [datetime] *)

Lemma is_leap_spec (y : Z) :
  is_leap y = true ↔ y mod 4 = 0 ∧ (y mod 100 ≠ 0 ∨ y mod 400 = 0).
Proof.
  unfold is_leap. rewrite andb_true_iff, orb_true_iff, negb_true_iff.
  rewrite !Z.eqb_eq, Z.eqb_neq. tauto.
Qed.

(** The days before a year, by the position of the year in its 400-, 100-
    and 4-year cycles. *)
Lemma days_before_year_cycles (q400 q100 q4 q1 : Z) :
  0 <= q100 <= 3 → 0 <= q4 <= 24 → 0 <= q1 <= 3 →
  days_before_year (400 * q400 + 100 * q100 + 4 * q4 + q1 + 1)
  = DI400Y * q400 + DI100Y * q100 + DI4Y * q4 + 365 * q1.
Proof.
  intros H100 H4 H1. unfold days_before_year, DI400Y, DI100Y, DI4Y.
  Z.div_mod_to_equations. lia.
Qed.

Lemma year_cycles (y : Z) :
  ∃ q400 q100 q4 q1,
    y = 400 * q400 + 100 * q100 + 4 * q4 + q1 + 1
    ∧ 0 <= q100 <= 3 ∧ 0 <= q4 <= 24 ∧ 0 <= q1 <= 3.
Proof.
  exists ((y - 1) / 400), ((y - 1) mod 400 / 100), ((y - 1) mod 100 / 4),
    ((y - 1) mod 4).
  Z.div_mod_to_equations. lia.
Qed.

Lemma is_leap_cycles (q400 q100 q4 q1 : Z) :
  0 <= q100 <= 3 → 0 <= q4 <= 24 → 0 <= q1 <= 3 →
  is_leap (400 * q400 + 100 * q100 + 4 * q4 + q1 + 1)
  = (q1 =? 3) && (negb (q4 =? 24) || (q100 =? 3)).
Proof.
  intros H100 H4 H1.
  apply eq_true_iff_eq. rewrite is_leap_spec.
  rewrite andb_true_iff, orb_true_iff, negb_true_iff, !Z.eqb_eq, Z.eqb_neq.
  Z.div_mod_to_equations. lia.
Qed.

(** The month and the day for a day of the year [n] counted from 0, as the
    second half of [_ord2ymd] finds them. *)
Lemma month_day_of_doy (leap : bool) (m d : Z) :
  1 <= m <= 12 →
  1 <= d <= (if (m =? 2) && leap then 29 else DAYS_IN_MONTH m) →
  let n := DAYS_BEFORE_MONTH m + (if (2 <? m) && leap then 1 else 0) + d - 1 in
  let m0 := Z.shiftr (n + 50) 5 in
  let preceding := DAYS_BEFORE_MONTH m0 + (if (2 <? m0) && leap then 1 else 0) in
  (let '(m1, preceding) :=
     if n <? preceding
     then (m0 - 1,
           preceding - (DAYS_IN_MONTH (m0 - 1)
                        + (if (m0 - 1 =? 2) && leap then 1 else 0)))
     else (m0, preceding) in
   (m1, n - preceding + 1)) = (m, d).
Proof.
  intros Hm Hd. cbv zeta.
  rewrite Z.shiftr_div_pow2 by lia. change (2 ^ 5) with 32.
  set (n := DAYS_BEFORE_MONTH m + (if (2 <? m) && leap then 1 else 0) + d - 1).
  assert (∃ q, (n + 50) / 32 = q ∧ 32 * q <= n + 50 < 32 * q + 32) as (q & -> & Hq).
  { eexists. split; [done|]. Z.div_mod_to_equations. lia. }
  assert (m = 1 ∨ m = 2 ∨ m = 3 ∨ m = 4 ∨ m = 5 ∨ m = 6 ∨ m = 7 ∨ m = 8 ∨ m = 9
          ∨ m = 10 ∨ m = 11 ∨ m = 12) as Hcases by lia.
  assert (0 <= n <= 365) as Hn.
  { subst n. repeat (destruct Hcases as [-> | Hcases]); try subst m;
      destruct leap; simpl in *; lia. }
  assert (q = 1 ∨ q = 2 ∨ q = 3 ∨ q = 4 ∨ q = 5 ∨ q = 6 ∨ q = 7 ∨ q = 8 ∨ q = 9
          ∨ q = 10 ∨ q = 11 ∨ q = 12) as Hqs by lia.
  subst n.
  repeat (destruct Hcases as [-> | Hcases]); try subst m;
    destruct leap; simpl in Hd, Hq, Hn;
    repeat (destruct Hqs as [-> | Hqs]); try subst q; try lia; simpl;
    repeat match goal with
           | |- context [if ?a <? ?b then _ else _] => destruct (Z.ltb_spec a b)
           end; try lia; f_equal; lia.
Qed.

Lemma doy_range (leap : bool) (m d : Z) :
  1 <= m <= 12 →
  1 <= d <= (if (m =? 2) && leap then 29 else DAYS_IN_MONTH m) →
  let n := DAYS_BEFORE_MONTH m + (if (2 <? m) && leap then 1 else 0) + d - 1 in
  0 <= n < 365 + (if leap then 1 else 0) ∧ (n = 365 → m = 12 ∧ d = 31).
Proof.
  intros Hm Hd. cbv zeta.
  assert (m = 1 ∨ m = 2 ∨ m = 3 ∨ m = 4 ∨ m = 5 ∨ m = 6 ∨ m = 7 ∨ m = 8 ∨ m = 9
          ∨ m = 10 ∨ m = 11 ∨ m = 12) as Hcases by lia.
  repeat (destruct Hcases as [-> | Hcases]); try subst m; destruct leap; simpl in *; lia.
Qed.

Lemma ord2ymd_cycles (N q400 q100 q4 q1 m d : Z) :
  0 <= q100 <= 3 → 0 <= q4 <= 24 → 0 <= q1 <= 3 →
  let leap := (q1 =? 3) && (negb (q4 =? 24) || (q100 =? 3)) in
  1 <= m <= 12 →
  1 <= d <= (if (m =? 2) && leap then 29 else DAYS_IN_MONTH m) →
  N - 1 = DI400Y * q400 + DI100Y * q100 + DI4Y * q4 + 365 * q1
          + (DAYS_BEFORE_MONTH m + (if (2 <? m) && leap then 1 else 0) + d - 1) →
  ord2ymd N = (400 * q400 + 100 * q100 + 4 * q4 + q1 + 1, m, d).
Proof.
  intros H100 H4 H1 leap Hm Hd HN.
  pose proof (doy_range leap m d Hm Hd) as [Hn H365]. cbv zeta in Hn, H365.
  pose proof (month_day_of_doy leap m d Hm Hd) as Hmd. cbv zeta in Hmd.
  set (n := DAYS_BEFORE_MONTH m + (if (2 <? m) && leap then 1 else 0) + d - 1) in *.
  assert (leap = true → q1 = 3 ∧ (q4 ≠ 24 ∨ q100 = 3)) as Hleap.
  { subst leap. rewrite andb_true_iff, orb_true_iff, negb_true_iff, !Z.eqb_eq, Z.eqb_neq.
    tauto. }
  unfold ord2ymd. cbv zeta. rewrite HN. unfold DI400Y, DI100Y, DI4Y in *.
  set (R := 36524 * q100 + 1461 * q4 + 365 * q1 + n).
  assert (0 <= R < 146097) as HR.
  { subst R. destruct leap; [destruct Hleap as [-> ?]; [done|]|]; lia. }
  assert ((146097 * q400 + 36524 * q100 + 1461 * q4 + 365 * q1 + n) / 146097 = q400
          ∧ (146097 * q400 + 36524 * q100 + 1461 * q4 + 365 * q1 + n) mod 146097 = R)
    as [-> ->].
  { subst R. Z.div_mod_to_equations. lia. }
  destruct (Z.eq_dec n 365) as [En | En].
  - (* the last day of a leap year *)
    destruct (H365 En) as [-> ->].
    assert (leap = true) as Hl by (destruct leap; [done|lia]).
    destruct (Hleap Hl) as [-> Hq].
    destruct (Z.eq_dec q4 24) as [-> | H24].
    + assert (q100 = 3) as -> by lia. subst R. rewrite En.
      change (36524 * 3 + 1461 * 24 + 365 * 3 + 365) with 146096.
      change (146096 / 36524) with 4. change (146096 mod 36524) with 0.
      change (0 / 1461) with 0. change (0 mod 1461) with 0. change (0 / 365) with 0.
      cbn [Z.eqb Pos.eqb orb]. f_equal. f_equal. lia.
    + subst R. rewrite En.
      assert ((36524 * q100 + 1461 * q4 + 365 * 3 + 365) / 36524 = q100
              ∧ (36524 * q100 + 1461 * q4 + 365 * 3 + 365) mod 36524
                = 1461 * q4 + 1460) as [-> ->]
        by (Z.div_mod_to_equations; lia).
      assert ((1461 * q4 + 1460) / 1461 = q4 ∧ (1461 * q4 + 1460) mod 1461 = 1460)
        as [-> ->] by (Z.div_mod_to_equations; lia).
      change (1460 / 365) with 4. cbn [Z.eqb Pos.eqb orb]. f_equal. f_equal. lia.
  - set (R1 := 1461 * q4 + 365 * q1 + n).
    assert (0 <= R1 < 36524) as HR1.
    { subst R1. destruct leap; [destruct Hleap as [-> ?]; [done|]|]; lia. }
    assert (R / 36524 = q100 ∧ R mod 36524 = R1) as [-> ->]
      by (subst R R1; Z.div_mod_to_equations; lia).
    set (R2 := 365 * q1 + n).
    assert (0 <= R2 < 1461) as HR2.
    { subst R2. destruct leap; [destruct Hleap as [-> ?]; [done|]|]; lia. }
    assert (R1 / 1461 = q4 ∧ R1 mod 1461 = R2) as [-> ->]
      by (subst R1 R2; Z.div_mod_to_equations; lia).
    assert (n < 365) as Hn' by (revert Hn; generalize leap; intros [] ?; lia).
    assert (R2 / 365 = q1 ∧ R2 mod 365 = n) as [-> ->]
      by (subst R2; Z.div_mod_to_equations; lia).
    replace ((q1 =? 4) || (q100 =? 4)) with false
      by (symmetry; apply orb_false_iff; split; apply Z.eqb_neq; lia).
    fold leap.
    revert Hmd.
    match goal with
    | |- context [if ?b then (?a1, ?a2) else (?b1, ?b2)] =>
        destruct b; cbv beta iota
    end; intros [= Hm1 Hd1]; rewrite Hd1, Hm1; f_equal; f_equal; lia.
Qed.

Lemma ymd2ord_cycles (q400 q100 q4 q1 m d : Z) :
  0 <= q100 <= 3 → 0 <= q4 <= 24 → 0 <= q1 <= 3 →
  let leap := (q1 =? 3) && (negb (q4 =? 24) || (q100 =? 3)) in
  ymd2ord (400 * q400 + 100 * q100 + 4 * q4 + q1 + 1) m d - 1
  = DI400Y * q400 + DI100Y * q100 + DI4Y * q4 + 365 * q1
    + (DAYS_BEFORE_MONTH m + (if (2 <? m) && leap then 1 else 0) + d - 1).
Proof.
  intros H100 H4 H1 leap. unfold ymd2ord, days_before_month.
  rewrite days_before_year_cycles, is_leap_cycles by done. fold leap. lia.
Qed.

(** [_ord2ymd] undoes [_ymd2ord] on every date of the calendar. *)
Lemma ord2ymd_ymd2ord (y m d : Z) :
  1 <= m <= 12 → 1 <= d <= days_in_month y m →
  ord2ymd (ymd2ord y m d) = (y, m, d).
Proof.
  intros Hm Hd. destruct (year_cycles y) as (q400 & q100 & q4 & q1 & -> & ? & ? & ?).
  unfold days_in_month in Hd. rewrite is_leap_cycles in Hd by done.
  apply ord2ymd_cycles; [done..|]. by apply ymd2ord_cycles.
Qed.

Lemma ordinal_cycles (n : Z) :
  ∃ q400 q100 q4 q1 doy,
    0 <= q100 <= 3 ∧ 0 <= q4 <= 24 ∧ 0 <= q1 <= 3
    ∧ 0 <= doy <= 365 ∧ (doy = 365 → q1 = 3 ∧ (q4 ≠ 24 ∨ q100 = 3))
    ∧ n - 1 = DI400Y * q400 + DI100Y * q100 + DI4Y * q4 + 365 * q1 + doy.
Proof.
  unfold DI400Y, DI100Y, DI4Y.
  set (R := (n - 1) mod 146097).
  set (q100 := Z.min (R / 36524) 3).
  set (R1 := R - 36524 * q100).
  set (q4 := R1 / 1461).
  set (R2 := R1 - 1461 * q4).
  set (q1 := Z.min (R2 / 365) 3).
  exists ((n - 1) / 146097), q100, q4, q1, (R2 - 365 * q1).
  subst q1 R2 q4 R1 q100 R. Z.div_mod_to_equations. lia.
Qed.

Lemma doy_month_day (leap : bool) (doy : Z) :
  0 <= doy < 365 + (if leap then 1 else 0) →
  ∃ m d, 1 <= m <= 12
    ∧ 1 <= d <= (if (m =? 2) && leap then 29 else DAYS_IN_MONTH m)
    ∧ doy = DAYS_BEFORE_MONTH m + (if (2 <? m) && leap then 1 else 0) + d - 1.
Proof.
  intros H. set (l := if leap then 1 else 0).
  assert (l = if leap then 1 else 0) as Hl by done. clearbody l.
  assert (doy < 31 ∨ 31 <= doy < 59 + l ∨ 59 + l <= doy < 90 + l
          ∨ 90 + l <= doy < 120 + l ∨ 120 + l <= doy < 151 + l
          ∨ 151 + l <= doy < 181 + l ∨ 181 + l <= doy < 212 + l
          ∨ 212 + l <= doy < 243 + l ∨ 243 + l <= doy < 273 + l
          ∨ 273 + l <= doy < 304 + l ∨ 304 + l <= doy < 334 + l
          ∨ 334 + l <= doy) as Hcases by lia.
  pose (pick := λ m : Z,
    doy + 1 - (DAYS_BEFORE_MONTH m + (if (2 <? m) && leap then 1 else 0))).
  destruct Hcases as [?|[?|[?|[?|[?|[?|[?|[?|[?|[?|[?|?]]]]]]]]]]];
    [exists 1, (pick 1) | exists 2, (pick 2) | exists 3, (pick 3)
    | exists 4, (pick 4) | exists 5, (pick 5) | exists 6, (pick 6)
    | exists 7, (pick 7) | exists 8, (pick 8) | exists 9, (pick 9)
    | exists 10, (pick 10) | exists 11, (pick 11) | exists 12, (pick 12)];
    subst pick; destruct leap; simpl in *; lia.
Qed.

(** Every ordinal is the ordinal of a date of the calendar. *)
Lemma ymd2ord_surjective (n : Z) :
  ∃ y m d, 1 <= m <= 12 ∧ 1 <= d <= days_in_month y m ∧ ymd2ord y m d = n.
Proof.
  destruct (ordinal_cycles n)
    as (q400 & q100 & q4 & q1 & doy & H100 & H4 & H1 & Hdoy & H365 & Hn).
  set (leap := (q1 =? 3) && (negb (q4 =? 24) || (q100 =? 3))).
  destruct (doy_month_day leap doy) as (m & d & Hm & Hd & Edoy).
  { destruct leap eqn:El; [lia|].
    assert (doy ≠ 365); [|lia]. intros E. destruct (H365 E) as [-> Hq].
    subst leap. rewrite andb_false_iff, orb_false_iff, negb_false_iff in El.
    rewrite !Z.eqb_neq, Z.eqb_eq in El. lia. }
  exists (400 * q400 + 100 * q100 + 4 * q4 + q1 + 1), m, d.
  unfold days_in_month. rewrite is_leap_cycles by done. fold leap.
  split; [done|]. split; [done|].
  pose proof (ymd2ord_cycles q400 q100 q4 q1 m d H100 H4 H1) as E.
  cbv zeta in E. fold leap in E. lia.
Qed.

Lemma ord2ymd_valid (n : Z) :
  let '(y, m, d) := ord2ymd n in
  1 <= m <= 12 ∧ 1 <= d <= days_in_month y m ∧ ymd2ord y m d = n.
Proof.
  destruct (ymd2ord_surjective n) as (y & m & d & Hm & Hd & <-).
  by rewrite ord2ymd_ymd2ord.
Qed.

Lemma days_before_year_mono (y1 y2 : Z) :
  y1 <= y2 → days_before_year y2 - days_before_year y1 >= 365 * (y2 - y1).
Proof. unfold days_before_year. intros. Z.div_mod_to_equations. lia. Qed.

Lemma days_before_next_year (y : Z) :
  days_before_year (y + 1) = days_before_year y + 365 + (if is_leap y then 1 else 0).
Proof.
  pose proof (is_leap_spec y) as Hl. unfold days_before_year. cbv zeta.
  replace (y + 1 - 1) with y by lia.
  destruct (is_leap y).
  - destruct Hl as [Hl _]. specialize (Hl eq_refl). Z.div_mod_to_equations. lia.
  - assert (¬ (y mod 4 = 0 ∧ (y mod 100 ≠ 0 ∨ y mod 400 = 0))) as Hn
      by (intros H; by apply Hl in H).
    Z.div_mod_to_equations. lia.
Qed.

Lemma ymd2ord_year_bounds (y m d : Z) :
  1 <= m <= 12 → 1 <= d <= days_in_month y m →
  days_before_year y < ymd2ord y m d <= days_before_year (y + 1).
Proof.
  intros Hm Hd. rewrite days_before_next_year.
  unfold ymd2ord, days_before_month, days_in_month in *.
  assert (m = 1 ∨ m = 2 ∨ m = 3 ∨ m = 4 ∨ m = 5 ∨ m = 6 ∨ m = 7 ∨ m = 8 ∨ m = 9
          ∨ m = 10 ∨ m = 11 ∨ m = 12) as Hcases by lia.
  repeat (destruct Hcases as [-> | Hcases]); try subst m;
    destruct (is_leap y); simpl in *; lia.
Qed.

Lemma datetime_ok_date (d : datetime) :
  datetime_ok d = true →
  1 <= year d <= 9999 ∧ 1 <= month d <= 12
  ∧ 1 <= day d <= days_in_month (year d) (month d).
Proof.
  unfold datetime_ok, check_date_fields, MINYEAR, MAXYEAR. intros H.
  repeat (apply andb_prop in H as [H ?]). lia.
Qed.

Lemma datetime_ok_time (d : datetime) :
  datetime_ok d = true →
  0 <= hour d <= 23 ∧ 0 <= minute d <= 59 ∧ 0 <= second d <= 59
  ∧ 0 <= microsecond d <= 999999.
Proof.
  unfold datetime_ok, check_time_fields. intros H.
  repeat (apply andb_prop in H as [H ?]). lia.
Qed.

(** The ordinal of a date a [datetime] can hold is within
    [[1, MAXORDINAL]]. *)
Lemma toordinal_range (d : datetime) :
  datetime_ok d = true → 0 < toordinal d <= MAXORDINAL.
Proof.
  intros H. destruct (datetime_ok_date d H) as (Hy & Hm & Hd).
  pose proof (ymd2ord_year_bounds _ _ _ Hm Hd) as Hb. unfold toordinal.
  pose proof (days_before_year_mono 1 (year d) ltac:(lia)) as H1.
  pose proof (days_before_year_mono (year d + 1) 10000 ltac:(lia)) as H2.
  change (days_before_year 1) with 0 in H1.
  change (days_before_year 10000) with 3652059 in H2.
  unfold MAXORDINAL. lia.
Qed.

Lemma wall_microseconds_split (d : datetime) :
  datetime_ok d = true →
  wall_microseconds d / US_PER_DAY = toordinal d
  ∧ wall_microseconds d mod US_PER_DAY
    = ((hour d * 60 + minute d) * 60 + second d) * US_PER_SECOND + microsecond d.
Proof.
  intros H. destruct (datetime_ok_time d H) as (? & ? & ? & ?).
  unfold wall_microseconds, US_PER_DAY, US_PER_HOUR, US_PER_MINUTE, US_PER_SECOND.
  generalize (toordinal d). intros o. Z.div_mod_to_equations. lia.
Qed.

Lemma add_timedelta_eq (d : datetime) (delta : Z) :
  add_timedelta d delta = datetime_of_wall (wall_microseconds d + delta) (tzinfo d).
Proof. unfold add_timedelta, datetime_of_wall, wall_microseconds. reflexivity. Qed.

Lemma in_range_true (n : Z) :
  0 < n <= MAXORDINAL → (0 <? n) && (n <=? MAXORDINAL) = true.
Proof. intros. apply andb_true_iff. split; [apply Z.ltb_lt|apply Z.leb_le]; lia. Qed.

(** The wall-clock reading of a valid datetime gives that datetime back. *)
Lemma datetime_of_wall_microseconds (d : datetime) (tz : option Z) :
  datetime_ok d = true →
  datetime_of_wall (wall_microseconds d) tz = Ok (replace_tzinfo d tz).
Proof.
  intros Hok. unfold datetime_of_wall. cbv zeta.
  destruct (wall_microseconds_split d Hok) as [-> ->].
  pose proof (toordinal_range d Hok) as Hr.
  destruct (datetime_ok_date d Hok) as (_ & Hm & Hd).
  destruct (datetime_ok_time d Hok) as (? & ? & ? & ?).
  rewrite in_range_true by done.
  unfold toordinal. rewrite ord2ymd_ymd2ord by done.
  unfold replace_tzinfo. f_equal.
  unfold US_PER_HOUR, US_PER_MINUTE, US_PER_SECOND.
  f_equal; Z.div_mod_to_equations; lia.
Qed.

(** What [datetime_of_wall] returns reads [total] on the wall clock. *)
Lemma datetime_of_wall_ok (total : Z) (tz : option Z) (r : datetime) :
  datetime_of_wall total tz = Ok r →
  wall_microseconds r = total ∧ tzinfo r = tz.
Proof.
  unfold datetime_of_wall. cbv zeta.
  destruct (_ && _); [|done].
  pose proof (ord2ymd_valid (total / US_PER_DAY)) as Hv.
  destruct (ord2ymd (total / US_PER_DAY)) as [[y m] dd].
  destruct Hv as (_ & _ & Hv). intros [= <-]. split; [|done].
  unfold wall_microseconds, toordinal. cbn [year month day hour minute second microsecond].
  rewrite Hv.
  unfold US_PER_DAY, US_PER_HOUR, US_PER_MINUTE, US_PER_SECOND.
  Z.div_mod_to_equations. lia.
Qed.

Lemma datetime_of_wall_range (total : Z) (tz : option Z) :
  datetime_of_wall total tz
  = if (0 <? total / US_PER_DAY) && (total / US_PER_DAY <=? MAXORDINAL)
    then datetime_of_wall total tz else Raise OverflowError.
Proof. unfold datetime_of_wall. cbv zeta. by destruct (_ && _). Qed.

Lemma datetime_of_wall_in_range (total : Z) (tz : option Z) :
  (0 <? total / US_PER_DAY) && (total / US_PER_DAY <=? MAXORDINAL) = true →
  ∃ r, datetime_of_wall total tz = Ok r.
Proof.
  intros H. unfold datetime_of_wall. cbv zeta. rewrite H.
  destruct (ord2ymd _) as [[y m] dd]. eauto.
Qed.

(** The result depends on the zone only in its [tzinfo]. *)
Lemma bind_datetime_of_wall {B} (total : Z) (tz tz' : option Z)
    (k : datetime → result B) :
  (utc ← datetime_of_wall total tz; k (replace_tzinfo utc tz'))
  = (utc ← datetime_of_wall total tz'; k utc).
Proof.
  unfold datetime_of_wall. cbv zeta.
  destruct (_ && _); [|reflexivity].
  destruct (ord2ymd _) as [[y m] dd]. reflexivity.
Qed.

(** [astimezone] of an aware datetime: the wall-clock reading of the same
    instant in the target zone, when it and the UTC reading are within the
    calendar. *)
Lemma astimezone_aware (local : datetime → Z) (d : datetime) (off tz : Z) :
  tzinfo d = Some off →
  astimezone local d tz
  = (utc ← datetime_of_wall (wall_microseconds d - off) (Some tz);
     datetime_of_wall (wall_microseconds utc + tz) (Some tz)).
Proof.
  intros H. unfold astimezone. rewrite H, add_timedelta_eq, Z.add_opp_r.
  etrans; [exact (bind_datetime_of_wall _ (tzinfo d) (Some tz)
                    (λ utc, add_timedelta utc tz))|].
  destruct (datetime_of_wall (wall_microseconds d - off) (Some tz)) as [utc|e] eqn:E;
    [|reflexivity].
  cbn [mbind result_bind]. rewrite add_timedelta_eq.
  destruct (datetime_of_wall_ok _ _ _ E) as [_ ->]. reflexivity.
Qed.

(** Converting a valid datetime to the zone it is in returns it, unless the
    intermediate UTC reading leaves the calendar. *)
Lemma astimezone_same_offset (local : datetime → Z) (d : datetime) (tz : Z) :
  datetime_ok d = true → tzinfo d = Some tz →
  astimezone local d tz
  = if (0 <? (wall_microseconds d - tz) / US_PER_DAY)
       && ((wall_microseconds d - tz) / US_PER_DAY <=? MAXORDINAL)
    then Ok d else Raise OverflowError.
Proof.
  intros Hok Htz. rewrite (astimezone_aware local d tz tz Htz).
  rewrite datetime_of_wall_range.
  destruct (_ && _) eqn:E; [|reflexivity].
  destruct (datetime_of_wall_in_range _ (Some tz) E) as [r Hr].
  rewrite Hr. cbn [mbind result_bind].
  destruct (datetime_of_wall_ok _ _ _ Hr) as [-> _].
  replace (wall_microseconds d - tz + tz) with (wall_microseconds d) by lia.
  rewrite (datetime_of_wall_microseconds d _ Hok). f_equal.
  rewrite <- Htz. by destruct d.
Qed.

(** * The date key of an incident *)

(** The date key of a valid creation time in UTC-7 is its own date. *)
Lemma date_str_of_utc_minus_7 (local : datetime → Z) (x : Incident) (d : datetime) :
  created_at x = Some d → datetime_ok d = true → tzinfo d = Some utc_minus_7 →
  get_date_str_utc_minus_7 local x
  = if utc_microseconds d <? (MAXORDINAL + 1) * US_PER_DAY
    then Ok (Sqlite.substr_1_10 (created_text x))
    else Raise OverflowError.
Proof.
  intros Hc Hok Htz. unfold get_date_str_utc_minus_7, created_text. rewrite Hc.
  rewrite !bind_ok. rewrite (astimezone_same_offset local d _ Hok Htz).
  pose proof (toordinal_range d Hok) as Hr.
  destruct (datetime_ok_time d Hok) as (? & ? & ? & ?).
  assert (utc_microseconds d = wall_microseconds d - utc_minus_7) as Hu
    by (unfold utc_microseconds, wall_microseconds; rewrite Htz; reflexivity).
  rewrite Hu.
  assert (0 < (wall_microseconds d - utc_minus_7) / US_PER_DAY) as Hpos.
  { unfold wall_microseconds, utc_minus_7, US_PER_DAY, US_PER_HOUR, US_PER_MINUTE,
      US_PER_SECOND. Z.div_mod_to_equations. lia. }
  replace (0 <? (wall_microseconds d - utc_minus_7) / US_PER_DAY) with true
    by (symmetry; by apply Z.ltb_lt).
  cbn [andb].
  assert (((wall_microseconds d - utc_minus_7) / US_PER_DAY <=? MAXORDINAL)
          = (wall_microseconds d - utc_minus_7 <? (MAXORDINAL + 1) * US_PER_DAY)) as ->.
  { apply eq_true_iff_eq. rewrite Z.leb_le, Z.ltb_lt.
    unfold US_PER_DAY, US_PER_HOUR, US_PER_MINUTE, US_PER_SECOND, MAXORDINAL.
    split; intros; Z.div_mod_to_equations; lia. }
  destruct (_ <? _); [|reflexivity]. rewrite bind_ok.
  unfold Sqlite.substr_1_10, isoformat.
  rewrite <- (date_isoformat_length (year d) (month d) (day d)).
  by rewrite str_take_app.
Qed.

(** X3: for an incident whose [created_at] is a valid datetime in UTC-7,
    [get_date_str_utc_minus_7] returns the first ten characters of the text
    under which [created_at] is stored, which is the key the date-range
    query compares; only within seven hours of the end of year 9999 it
    raises [OverflowError] instead. *)
Theorem date_key_of_utc_minus_7 (local : datetime → Z) (x : Incident) (d : datetime) :
  created_at x = Some d → datetime_ok d = true → tzinfo d = Some utc_minus_7 →
  get_date_str_utc_minus_7 local x
  = if utc_microseconds d <? (MAXORDINAL + 1) * US_PER_DAY
    then Ok (Sqlite.substr_1_10 (created_text x))
    else Raise OverflowError.
Proof. apply date_str_of_utc_minus_7. Qed.

Lemma date_key_of_utc_minus_7_witness :
  get_date_str_utc_minus_7 Sample.host_utc Sample.evening = Ok "2025-08-23".
Proof.
  exact (date_key_of_utc_minus_7 Sample.host_utc Sample.evening
           (Sample.at_utc7 23 20 0) eq_refl eq_refl eq_refl).
Defined.

(** X4: the date key of an incident whose [created_at] carries a UTC offset
    depends only on the instant: two such incidents created at the same
    instant get the same key, or fail alike, whatever offsets their
    timestamps are written with and whatever the zone of the host. *)
Theorem date_key_depends_on_instant (local1 local2 : datetime → Z)
    (x1 x2 : Incident) (d1 d2 : datetime) (off1 off2 : Z) :
  created_at x1 = Some d1 → created_at x2 = Some d2 →
  tzinfo d1 = Some off1 → tzinfo d2 = Some off2 →
  utc_microseconds d1 = utc_microseconds d2 →
  get_date_str_utc_minus_7 local1 x1 = get_date_str_utc_minus_7 local2 x2.
Proof.
  intros Hc1 Hc2 Ht1 Ht2 Hu. unfold get_date_str_utc_minus_7.
  rewrite Hc1, Hc2. rewrite !bind_ok.
  rewrite (astimezone_aware local1 d1 off1 _ Ht1),
    (astimezone_aware local2 d2 off2 _ Ht2).
  assert (wall_microseconds d1 - off1 = wall_microseconds d2 - off2) as ->; [|done].
  unfold utc_microseconds in Hu. rewrite Ht1, Ht2 in Hu. exact Hu.
Qed.

Lemma date_key_depends_on_instant_witness :
  get_date_str_utc_minus_7 Sample.host_utc Sample.newer_utc7
  = get_date_str_utc_minus_7 Sample.host_utc_minus_7
      (Sample.minimal "NEW" (mkdatetime 2025 8 24 2 0 0 0 (Some 0)) false).
Proof.
  exact (date_key_depends_on_instant Sample.host_utc Sample.host_utc_minus_7
           Sample.newer_utc7
           (Sample.minimal "NEW" (mkdatetime 2025 8 24 2 0 0 0 (Some 0)) false)
           (Sample.at_utc7 23 19 0) (mkdatetime 2025 8 24 2 0 0 0 (Some 0))
           utc_minus_7 0 eq_refl eq_refl eq_refl eq_refl eq_refl).
Defined.

(** * More of the store: counts, lookups, deletion *)

Lemma filter_all {A} (P : A → Prop) `{∀ a, Decision (P a)} (l : list A) :
  (∀ a, a ∈ l → P a) → filter P l = l.
Proof.
  induction l as [|a l IH]; [done|]. intros Hall.
  rewrite filter_cons, decide_True by (apply Hall, list_elem_of_here).
  f_equal. apply IH. intros b Hb. apply Hall. by apply list_elem_of_further.
Qed.

Lemma storable_row_of (now : datetime) (x : Incident) :
  storable x = true ↔ is_Some (row_of now x).
Proof.
  unfold storable, row_of.
  destruct (title x), (status x), (service_id x), (service_name x), (created_at x);
    simpl; split; try done; try (by intros [? ?]); by eauto.
Qed.

Lemma execute_store_storable (now : datetime) (tbl : table) (x : Incident) :
  storable x = true →
  ∃ row, row_of now x = Some row
    ∧ IncidentDatabase.execute_store now tbl x
      = Ok (filter (λ r, ¬ same_key (id x) r) tbl ++ [row]).
Proof.
  intros [row Hrow]%(storable_row_of now). exists row. split; [done|].
  by rewrite execute_store_spec, Hrow.
Qed.

Lemma execute_store_not_storable (now : datetime) (tbl : table) (x : Incident) :
  storable x = false → ∃ e, IncidentDatabase.execute_store now tbl x = Raise e.
Proof.
  intros H. rewrite execute_store_spec.
  destruct (row_of now x) as [row|] eqn:Hrow; [|by eauto].
  assert (storable x = true) by (apply (storable_row_of now); by eauto). congruence.
Qed.

Lemma store_loop_spec (clock : nat → datetime) (incidents : list Incident) :
  ∀ i n tbl,
    let res := IncidentDatabase.store_loop clock i n tbl incidents in
    res.1 = (n + length (filter (λ x, storable x) incidents))%nat
    ∧ (length res.2 + n <= length tbl + res.1)%nat
    ∧ (∀ r, r ∈ tbl → ∃ r', r' ∈ res.2 ∧ r_id r' = r_id r)
    ∧ (∀ x, x ∈ incidents → storable x = true → ∃ r, r ∈ res.2 ∧ r_id r = id x).
Proof.
  induction incidents as [|x xs IH]; intros i n tbl.
  { cbn. split; [lia|]. split; [lia|]. split; [by eauto|]. by intros x ?%elem_of_nil. }
  cbn [IncidentDatabase.store_loop]. rewrite filter_cons.
  destruct (storable x) eqn:Hx.
  - destruct (execute_store_storable (clock i) tbl x Hx) as (row & Hrow & ->).
    set (tbl' := filter (λ r, ¬ same_key (id x) r) tbl ++ [row]).
    destruct (IH (S i) (S n) tbl') as (IH1 & IH2 & IH3 & IH4).
    assert (row ∈ tbl') as Hin by (apply elem_of_app; right; apply list_elem_of_here).
    assert (length tbl' <= S (length tbl))%nat as Hlen.
    { subst tbl'. rewrite length_app. simpl.
      pose proof (length_filter (λ r, ¬ same_key (id x) r) tbl). lia. }
    rewrite decide_True by done.
    split; [rewrite IH1; simpl; lia|]. split; [lia|]. split.
    + intros r Hr. destruct (decide (same_key (id x) r)) as [Hk|Hk].
      * destruct (IH3 row Hin) as (r' & Hr' & Hid). exists r'. split; [done|].
        rewrite Hid, (row_of_id _ _ _ Hrow).
        apply same_key_iff in Hk as (s & -> & ->). done.
      * apply IH3. apply elem_of_app. left. by apply list_elem_of_filter.
    + intros y [->|Hy]%elem_of_cons Hs.
      * destruct (IH3 row Hin) as (r' & Hr' & Hid). exists r'. split; [done|].
        by rewrite Hid, (row_of_id _ _ _ Hrow).
      * by apply IH4.
  - destruct (execute_store_not_storable (clock i) tbl x Hx) as [e ->].
    destruct (IH (S i) n tbl) as (IH1 & IH2 & IH3 & IH4).
    rewrite decide_False by (by intros []).
    split; [done|]. split; [done|]. split; [done|].
    intros y [->|Hy]%elem_of_cons Hs; [congruence|by apply IH4].
Qed.

(** X5: [store_incidents_batch] returns the number of records that have a
    title, a status, a service id, a service name and a creation time: these
    are stored, the others are skipped.  The table grows by at most that
    number, every id that had a row still has one, and every stored record
    has a row with its id. *)
Theorem store_incidents_batch_count (clock : nat → datetime) (tbl : table)
    (incidents : list Incident) :
  let res := IncidentDatabase.store_incidents_batch clock tbl incidents in
  res.1 = length (filter (λ x, storable x) incidents)
  ∧ (length res.2 <= length tbl + res.1)%nat
  ∧ (∀ r, r ∈ tbl → ∃ r', r' ∈ res.2 ∧ r_id r' = r_id r)
  ∧ (∀ x, x ∈ incidents → storable x = true → ∃ r, r ∈ res.2 ∧ r_id r = id x).
Proof.
  unfold IncidentDatabase.store_incidents_batch.
  destruct incidents as [|x xs].
  { cbn. split; [done|]. split; [lia|]. split; [by eauto|]. by intros x ?%elem_of_nil. }
  destruct (store_loop_spec clock (x :: xs) O O tbl) as (H1 & H2 & H3 & H4).
  cbv zeta. split; [by rewrite H1|]. split; [lia|]. done.
Qed.

Lemma get_incident_by_id_rows (tbl : table) (k : string) :
  IncidentDatabase.get_incident_by_id tbl k
  = match rows_with_id k tbl with
    | row :: _ => Some <$> from_dict (dict_of_row row)
    | [] => Ok None
    end.
Proof. done. Qed.




(** An id that no row carries is reported as absent. *)
Lemma get_incident_by_id_absent (tbl : table) (k : string) :
  Some k ∉ r_id <$> tbl → IncidentDatabase.get_incident_by_id tbl k = Ok None.
Proof.
  intros H. rewrite get_incident_by_id_rows.
  destruct (rows_with_id k tbl) as [|r l] eqn:E; [done|]. exfalso. apply H.
  assert (r ∈ rows_with_id k tbl) as [Hr Hin]%list_elem_of_filter
    by (rewrite E; apply list_elem_of_here).
  apply list_elem_of_fmap. by exists r.
Qed.

Lemma rows_with_id_unique (k : string) (tbl : table) :
  unique_ids tbl →
  length (rows_with_id k tbl) = if bool_decide (Some k ∈ r_id <$> tbl) then 1%nat else 0%nat.
Proof.
  unfold unique_ids, rows_with_id. induction tbl as [|r tbl IH]; [done|].
  rewrite filter_cons, fmap_cons. intros Hnd.
  assert (omap r_id (r :: tbl)
          = match r_id r with Some s => s :: omap r_id tbl | None => omap r_id tbl end)
    as E by done.
  rewrite E in Hnd. clear E.
  destruct (r_id r) as [s|] eqn:Hs.
  - apply NoDup_cons in Hnd as [Hnot Hnd]. specialize (IH Hnd).
    destruct (decide (Some s = Some k)) as [Hd|Hd].
    + injection Hd as ->. rewrite bool_decide_eq_true_2 by apply list_elem_of_here.
      cbn [length]. f_equal.
      rewrite bool_decide_eq_false_2 in IH; [done|].
      intros (r' & Hr' & Hin)%list_elem_of_fmap. apply Hnot.
      apply list_elem_of_omap. exists r'. by rewrite <- Hr'.
    + rewrite IH.
      rewrite (bool_decide_ext (Some k ∈ Some s :: (r_id <$> tbl))
                 (Some k ∈ r_id <$> tbl)); [done|].
      rewrite elem_of_cons. split; [intros [?|?]; [congruence|done]|by right].
  - specialize (IH Hnd). rewrite decide_False by done. rewrite IH.
    rewrite (bool_decide_ext (Some k ∈ None :: (r_id <$> tbl))
               (Some k ∈ r_id <$> tbl)); [done|].
    rewrite elem_of_cons. split; [intros [?|?]; [congruence|done]|by right].
Qed.

Lemma length_filter_not_same_key (k : string) (tbl : table) :
  (length (filter (λ r, ¬ same_key (Some k) r) tbl) + length (rows_with_id k tbl)
   = length tbl)%nat.
Proof.
  unfold rows_with_id. induction tbl as [|r tbl IH]; [done|].
  rewrite !filter_cons.
  destruct (decide (r_id r = Some k)) as [Hr|Hr].
  - rewrite decide_False; [cbn [length]; lia|].
    intros H. apply H, same_key_iff. by eauto.
  - rewrite decide_True; [cbn [length]; lia|].
    rewrite same_key_iff. intros (s & [= <-] & ?). done.
Qed.

(** X7: a successful [store_incident] on a table whose ids are pairwise
    distinct leaves [get_incident_count] unchanged when the id of the record
    was already in the table, and raises it by one otherwise (also for a
    record without an id). *)
Theorem store_incident_count (now : datetime) (tbl tbl' : table) (x : Incident) :
  unique_ids tbl →
  IncidentDatabase.store_incident now tbl x = Ok tbl' →
  IncidentDatabase.get_incident_count tbl'
  = match id x with
    | Some k =>
        if bool_decide (Some k ∈ r_id <$> tbl)
        then IncidentDatabase.get_incident_count tbl
        else S (IncidentDatabase.get_incident_count tbl)
    | None => S (IncidentDatabase.get_incident_count tbl)
    end.
Proof.
  intros Hu. unfold IncidentDatabase.store_incident, IncidentDatabase.get_incident_count.
  rewrite execute_store_spec.
  destruct (row_of now x) as [row|] eqn:Hrow; [|done]. intros [= <-].
  rewrite length_app. cbn [length].
  destruct (id x) as [k|].
  - pose proof (length_filter_not_same_key k tbl) as Hlen.
    pose proof (rows_with_id_unique k tbl Hu) as Hone.
    destruct (bool_decide _); lia.
  - rewrite filter_all; [lia|].
    intros r _. rewrite same_key_iff. by intros (s & ? & _).
Qed.

Lemma store_incident_count_witness :
  ∃ tbl',
    IncidentDatabase.store_incident Sample.noon Sample.mixed_offsets Sample.newer_utc7
    = Ok tbl'
    ∧ IncidentDatabase.get_incident_count tbl' = 2%nat.
Proof.
  destruct (IncidentDatabase.store_incident Sample.noon Sample.mixed_offsets
              Sample.newer_utc7) as [tbl'|e] eqn:E; [|vm_compute in E; discriminate E].
  exists tbl'. split; [reflexivity|].
  rewrite (store_incident_count Sample.noon Sample.mixed_offsets tbl' Sample.newer_utc7);
    [vm_compute; reflexivity| |exact E].
  refine (bool_decide_unpack (NoDup (omap r_id Sample.mixed_offsets)) _).
  vm_compute. exact I.
Defined.

(** * Deletion, service ids and the escalated incidents *)

Lemma length_filter_negb {A} (P : A → bool) (l : list A) :
  (length (filter (λ a, P a) l) + length (filter (λ a, negb (P a)) l) = length l)%nat.
Proof.
  induction l as [|a l IH]; [done|]. rewrite !filter_cons.
  destruct (P a); cbn [negb].
  - rewrite decide_True by done. rewrite decide_False by (by intros []).
    cbn [length]. lia.
  - rewrite decide_False by (by intros []). rewrite decide_True by done.
    cbn [length]. lia.
Qed.

Lemma filter_none {A} (P : A → Prop) `{∀ a, Decision (P a)} (l : list A) :
  (∀ a, a ∈ l → ¬ P a) → filter P l = [].
Proof.
  induction l as [|a l IH]; [done|]. intros Hall.
  rewrite filter_cons, decide_False by (apply Hall, list_elem_of_here).
  apply IH. intros b Hb. apply Hall. by apply list_elem_of_further.
Qed.

Lemma ltb_leb_false (s t : string) : String.ltb t s = true → String.leb s t = false.
Proof.
  unfold String.ltb, String.leb. rewrite (String.compare_antisym t s).
  by destruct (String.compare s t).
Qed.

(** A row inside the window that starts at the cut-off date is not older
    than the cut-off date. *)
Lemma date_between_not_older (start_date end_date : string) (r : Row) :
  IncidentDatabase.date_between start_date end_date r = true →
  IncidentDatabase.older_than start_date r = false.
Proof.
  unfold IncidentDatabase.date_between, IncidentDatabase.older_than, Sqlite.between.
  destruct (Sqlite.date (r_created_at r)) as [t|]; [|done].
  intros [H _]%andb_prop. destruct (String.ltb t start_date) eqn:E; [|done].
  apply ltb_leb_false in E. congruence.
Qed.

Lemma unique_ids_sublist (l1 l2 : table) :
  l1 `sublist_of` l2 → unique_ids l2 → unique_ids l1.
Proof.
  unfold unique_ids. intros Hs Hnd.
  apply (sublist_NoDup _ (omap r_id l2)); [done|]. by apply omap_sublist.
Qed.

(** X8: when [delete_incidents_older_than_days] returns, the count it
    reports and the rows it leaves add up to the rows there were; the rows
    left are rows of the old table in their order, with ids still pairwise
    distinct; a row whose [created_at] has no [DATE] stays; a second call at
    the same clock reading deletes nothing; and the total of the window of
    the same number of days, which starts at the cut-off date, is what it
    was. *)
Theorem delete_incidents_older_than_days_spec (now : datetime) (tbl tbl' : table)
    (days : Z) (n : nat) :
  IncidentDatabase.delete_incidents_older_than_days now tbl days = Ok (n, tbl') →
  (n + length tbl' = length tbl)%nat
  ∧ tbl' `sublist_of` tbl
  ∧ (unique_ids tbl → unique_ids tbl')
  ∧ (∀ r, r ∈ tbl → Sqlite.date (r_created_at r) = None → r ∈ tbl')
  ∧ IncidentDatabase.delete_incidents_older_than_days now tbl' days = Ok (O, tbl')
  ∧ IncidentAnalytics.get_total_incidents_last_x_days now tbl' days
    = IncidentAnalytics.get_total_incidents_last_x_days now tbl days.
Proof.
  unfold IncidentDatabase.delete_incidents_older_than_days,
    IncidentAnalytics.get_total_incidents_last_x_days,
    IncidentDatabase.last_x_days_window.
  destruct (date_sub_days now days) as [[[y m] d]|e]; [|done].
  rewrite !bind_ok. cbv zeta. set (cutoff := date_isoformat y m d).
  intros [= <- <-].
  split; [apply length_filter_negb|].
  split; [apply sublist_filter|].
  split; [apply unique_ids_sublist, sublist_filter|].
  split.
  { intros r Hr Hdate. apply list_elem_of_filter. split; [|done].
    unfold IncidentDatabase.older_than. by rewrite Hdate. }
  split.
  - f_equal. f_equal.
    + apply length_zero_iff_nil. rewrite list_filter_filter.
      apply filter_none. intros r _ [H1 H2].
      destruct (IncidentDatabase.older_than cutoff r); done.
    + rewrite list_filter_filter. apply list_filter_iff. intros r. tauto.
  - do 2 f_equal. unfold IncidentAnalytics.count_where. f_equal.
    rewrite list_filter_filter. apply list_filter_iff. intros r.
    split; [by intros [? ?]|]. intros H. split; [done|].
    apply Is_true_true in H. by rewrite (date_between_not_older _ _ _ H).
Qed.

Lemma delete_incidents_older_than_days_spec_witness :
  ∃ n tbl',
    IncidentDatabase.delete_incidents_older_than_days (Sample.at_utc7 30 0 0)
      Sample.mixed_offsets 3 = Ok (n, tbl')
    ∧ (n + length tbl' = 2)%nat.
Proof.
  destruct (IncidentDatabase.delete_incidents_older_than_days (Sample.at_utc7 30 0 0)
              Sample.mixed_offsets 3) as [[n tbl']|e] eqn:E;
    [|vm_compute in E; discriminate E].
  exists n, tbl'. split; [reflexivity|].
  exact (proj1 (delete_incidents_older_than_days_spec _ _ _ _ _ E)).
Defined.

(** X9: [get_all_service_ids] lists every service id of the table exactly
    once, and after a successful [store_incident] the service id of the
    stored record is among them. *)
Theorem get_all_service_ids_spec (tbl : table) :
  NoDup (IncidentDatabase.get_all_service_ids tbl)
  ∧ (∀ s, s ∈ IncidentDatabase.get_all_service_ids tbl
          ↔ ∃ r, r ∈ tbl ∧ r_service_id r = s)
  ∧ (∀ now x tbl' s,
       IncidentDatabase.store_incident now tbl x = Ok tbl' →
       service_id x = Some s →
       s ∈ IncidentDatabase.get_all_service_ids tbl').
Proof.
  unfold IncidentDatabase.get_all_service_ids.
  split; [apply NoDup_remove_dups|]. split.
  - intros s. rewrite elem_of_remove_dups, list_elem_of_fmap.
    split; intros (r & ? & ?); by exists r.
  - intros now x tbl' s. unfold IncidentDatabase.store_incident.
    rewrite execute_store_spec.
    destruct (row_of now x) as [row|] eqn:Hrow; [|done]. intros [= <-] Hs.
    rewrite elem_of_remove_dups, fmap_app. apply elem_of_app. right.
    cbn [fmap list_fmap]. apply list_elem_of_singleton.
    unfold row_of in Hrow. rewrite Hs in Hrow.
    destruct (title x), (status x), (service_name x), (created_at x);
      try discriminate Hrow.
    by injection Hrow as <-.
Qed.

Lemma stored_rows_app (l1 l2 : table) :
  stored_rows l1 → stored_rows l2 → stored_rows (l1 ++ l2).
Proof. unfold stored_rows. intros. by apply Forall_app. Qed.

(** A table the batch store builds from records with valid timestamps
    holds only rows that read back. *)
Lemma store_loop_stored_rows (clock : nat → datetime) (incidents : list Incident) :
  Forall (λ x, timestamps_ok x = true) incidents →
  ∀ i n tbl, stored_rows tbl →
    stored_rows (IncidentDatabase.store_loop clock i n tbl incidents).2.
Proof.
  induction 1 as [|x xs Hx _ IH]; intros i n tbl Htbl; [done|].
  cbn [IncidentDatabase.store_loop]. rewrite execute_store_spec.
  destruct (row_of (clock i) x) as [row|] eqn:Hrow; [|by apply IH].
  apply IH. apply stored_rows_app; [by apply stored_rows_filter|].
  apply Forall_singleton. by exists (clock i), x.
Qed.

Lemma store_incidents_batch_stored_rows (clock : nat → datetime) (tbl : table)
    (incidents : list Incident) :
  Forall (λ x, timestamps_ok x = true) incidents → stored_rows tbl →
  stored_rows (IncidentDatabase.store_incidents_batch clock tbl incidents).2.
Proof.
  intros Hx Htbl. unfold IncidentDatabase.store_incidents_batch.
  destruct incidents; [done|]. by apply store_loop_stored_rows.
Qed.

Lemma row_of_is_escalated (now : datetime) (x : Incident) (r : Row) :
  row_of now x = Some r → r_is_escalated r = Z.b2z (is_escalated x).
Proof.
  unfold row_of. intros H.
  destruct (title x), (status x), (service_id x), (service_name x), (created_at x);
    try discriminate H.
  by injection H as <-.
Qed.

Lemma date_sub_days_error (d : datetime) (n : Z) (e : exn) :
  date_sub_days d n = Raise e → e = OverflowError.
Proof. unfold date_sub_days. destruct (_ && _); [done|]. by intros [= <-]. Qed.

(** X10: on a table written by the store, the list
    [get_escalated_incidents_last_x_days] of the database returns holds only
    escalated incidents, and its length is the value of the analytics metric
    of the same name at the same clock reading; the two fail together, with
    [OverflowError], when the window leaves the calendar. *)
Theorem escalated_incidents_list_and_count (now : datetime) (tbl : table) (days : Z) :
  stored_rows tbl →
  match IncidentDatabase.get_escalated_incidents_last_x_days now tbl days with
  | Ok incidents =>
      Forall (λ x, is_escalated x = true) incidents
      ∧ IncidentAnalytics.get_escalated_incidents_last_x_days now tbl days
        = Ok (IncidentAnalytics.mkMetricResult "escalated_incidents"
                (length incidents) days)
  | Raise e =>
      e = OverflowError
      ∧ IncidentAnalytics.get_escalated_incidents_last_x_days now tbl days
        = Raise OverflowError
  end.
Proof.
  intros Hst.
  unfold IncidentDatabase.get_escalated_incidents_last_x_days,
    IncidentAnalytics.get_escalated_incidents_last_x_days,
    IncidentDatabase.last_x_days_window.
  destruct (date_sub_days now days) as [[[y m] d]|e] eqn:Hw.
  2:{ rewrite !bind_raise. apply date_sub_days_error in Hw as ->. done. }
  rewrite !bind_ok.
  set (sel := filter _ tbl).
  assert (stored_rows (IncidentDatabase.order_by_created_at_desc sel)) as Hsel.
  { eapply stored_rows_perm; [apply merge_sort_Permutation|].
    by apply stored_rows_filter. }
  destruct (mapM_result_Forall2 (λ row, from_dict (dict_of_row row))
              (λ x r, ∃ now, row_of now x = Some r)
              (IncidentDatabase.order_by_created_at_desc sel))
    as (incidents & Hinc & HF).
  { eapply Forall_impl; [exact Hsel|]. intros r (now' & x & Hts & Hrow).
    exists x. split; [by eapply from_dict_row_of|by eexists]. }
  unfold IncidentDatabase.incidents_of_rows. rewrite Hinc. split.
  - apply Forall_forall. intros x Hx.
    apply list_elem_of_lookup in Hx as [i Hi].
    destruct (Forall2_lookup_l _ _ _ _ _ HF Hi) as (r & Hr & now' & Hrow).
    assert (r ∈ sel) as [Hp _]%list_elem_of_filter.
    { rewrite <- (merge_sort_Permutation IncidentDatabase.created_desc sel).
      by eapply list_elem_of_lookup_2. }
    apply Is_true_true, andb_prop in Hp as [_ Hp%Z.eqb_eq].
    rewrite (row_of_is_escalated _ _ _ Hrow) in Hp. by destruct (is_escalated x).
  - do 2 f_equal. unfold IncidentAnalytics.count_where. fold sel.
    rewrite (Forall2_length _ _ _ HF). unfold IncidentDatabase.order_by_created_at_desc.
    by rewrite merge_sort_Permutation.
Qed.

Lemma escalated_incidents_list_and_count_witness :
  match IncidentDatabase.get_escalated_incidents_last_x_days (Sample.clock 0)
          (IncidentDatabase.store_incidents_batch Sample.clock [] Sample.four).2 7 with
  | Ok incidents =>
      Forall (λ x, is_escalated x = true) incidents
      ∧ IncidentAnalytics.get_escalated_incidents_last_x_days (Sample.clock 0)
          (IncidentDatabase.store_incidents_batch Sample.clock [] Sample.four).2 7
        = Ok (IncidentAnalytics.mkMetricResult "escalated_incidents"
                (length incidents) 7)
  | Raise e =>
      e = OverflowError
      ∧ IncidentAnalytics.get_escalated_incidents_last_x_days (Sample.clock 0)
          (IncidentDatabase.store_incidents_batch Sample.clock [] Sample.four).2 7
        = Raise OverflowError
  end.
Proof.
  apply (escalated_incidents_list_and_count (Sample.clock 0)
           (IncidentDatabase.store_incidents_batch Sample.clock [] Sample.four).2 7).
  apply store_incidents_batch_stored_rows; [|constructor].
  repeat constructor.
Defined.

(** * The metrics of [analytics_v2.py] *)

Lemma count_where_and_le (P Q : Row → bool) (tbl : table) :
  (IncidentAnalytics.count_where (λ r, P r && Q r) tbl
   <= IncidentAnalytics.count_where P tbl)%nat.
Proof.
  unfold IncidentAnalytics.count_where. induction tbl as [|r tbl IH]; [done|].
  rewrite !filter_cons. destruct (P r), (Q r); cbn [andb];
    repeat (first [rewrite decide_True by done
                  |rewrite decide_False by (by intros [])]);
    cbn [length]; lia.
Qed.

Lemma count_where_disjoint_le (P Q1 Q2 : Row → bool) (tbl : table) :
  (∀ r, Q1 r = true → Q2 r = false) →
  (IncidentAnalytics.count_where (λ r, P r && Q1 r) tbl
   + IncidentAnalytics.count_where (λ r, P r && Q2 r) tbl
   <= IncidentAnalytics.count_where P tbl)%nat.
Proof.
  intros Hdis. unfold IncidentAnalytics.count_where.
  induction tbl as [|r tbl IH]; [done|].
  rewrite !filter_cons. specialize (Hdis r).
  destruct (P r), (Q1 r), (Q2 r); cbn [andb];
    repeat (first [rewrite decide_True by done
                  |rewrite decide_False by (by intros [])]);
    cbn [length]; lia.
Qed.

Lemma count_where_le_length (P : Row → bool) (tbl : table) :
  (IncidentAnalytics.count_where P tbl <= length tbl)%nat.
Proof. apply length_filter. Qed.

Lemma count_where_disjoint_le_length (Q1 Q2 : Row → bool) (tbl : table) :
  (∀ r, Q1 r = true → Q2 r = false) →
  (IncidentAnalytics.count_where Q1 tbl + IncidentAnalytics.count_where Q2 tbl
   <= length tbl)%nat.
Proof.
  intros Hdis. unfold IncidentAnalytics.count_where.
  induction tbl as [|r tbl IH]; [done|].
  rewrite !filter_cons. specialize (Hdis r).
  destruct (Q1 r), (Q2 r);
    repeat (first [rewrite decide_True by done
                  |rewrite decide_False by (by intros [])]);
    cbn [length]; lia.
Qed.

(** No status is both open and resolved. *)
Lemma status_triggered_not_resolved (r : Row) :
  IncidentAnalytics.status_triggered r = true →
  IncidentAnalytics.status_resolved r = false.
Proof.
  unfold IncidentAnalytics.status_triggered, IncidentAnalytics.status_resolved.
  intros [->%String.eqb_eq | ->%String.eqb_eq]%orb_prop; reflexivity.
Qed.

(** X11: at one clock reading the five filtered counts are bounded by the
    total of the same window: triggered-or-acknowledged and resolved
    incidents together, and the escalated, the CCOE-resolved and the
    infrastructure-caused ones each; every metric carries the number of days
    it was asked for.  When the window leaves the calendar all six raise
    [OverflowError]. *)
Theorem metric_counts_consistent (now : datetime) (tbl : table) (days : Z) :
  match IncidentAnalytics.get_total_incidents_last_x_days now tbl days with
  | Ok total =>
      ∃ triggered resolved escalated ccoe infra,
        IncidentAnalytics.get_triggered_incidents_last_x_days now tbl days
        = Ok (IncidentAnalytics.mkMetricResult "triggered_incidents" triggered days)
        ∧ IncidentAnalytics.get_resolved_incidents_last_x_days now tbl days
          = Ok (IncidentAnalytics.mkMetricResult "resolved_incidents" resolved days)
        ∧ IncidentAnalytics.get_escalated_incidents_last_x_days now tbl days
          = Ok (IncidentAnalytics.mkMetricResult "escalated_incidents" escalated days)
        ∧ IncidentAnalytics.get_ccoe_resolved_incidents_last_x_days now tbl days
          = Ok (IncidentAnalytics.mkMetricResult "ccoe_resolved_incidents" ccoe days)
        ∧ IncidentAnalytics.get_infrastructure_caused_incidents_last_x_days now tbl days
          = Ok (IncidentAnalytics.mkMetricResult "infrastructure_caused_incidents"
                  infra days)
        ∧ IncidentAnalytics.period_days total = days
        ∧ (triggered + resolved <= IncidentAnalytics.metric_value total)%nat
        ∧ (escalated <= IncidentAnalytics.metric_value total)%nat
        ∧ (ccoe <= IncidentAnalytics.metric_value total)%nat
        ∧ (infra <= IncidentAnalytics.metric_value total)%nat
        ∧ (IncidentAnalytics.metric_value total <= length tbl)%nat
  | Raise e =>
      e = OverflowError
      ∧ IncidentAnalytics.get_triggered_incidents_last_x_days now tbl days
        = Raise OverflowError
      ∧ IncidentAnalytics.get_resolved_incidents_last_x_days now tbl days
        = Raise OverflowError
      ∧ IncidentAnalytics.get_escalated_incidents_last_x_days now tbl days
        = Raise OverflowError
      ∧ IncidentAnalytics.get_ccoe_resolved_incidents_last_x_days now tbl days
        = Raise OverflowError
      ∧ IncidentAnalytics.get_infrastructure_caused_incidents_last_x_days now tbl days
        = Raise OverflowError
  end.
Proof.
  unfold IncidentAnalytics.get_total_incidents_last_x_days,
    IncidentAnalytics.get_triggered_incidents_last_x_days,
    IncidentAnalytics.get_resolved_incidents_last_x_days,
    IncidentAnalytics.get_escalated_incidents_last_x_days,
    IncidentAnalytics.get_ccoe_resolved_incidents_last_x_days,
    IncidentAnalytics.get_infrastructure_caused_incidents_last_x_days,
    IncidentDatabase.last_x_days_window.
  destruct (date_sub_days now days) as [[[y m] d]|e] eqn:Hw.
  2:{ rewrite !bind_raise. apply date_sub_days_error in Hw as ->. done. }
  rewrite !bind_ok. eexists _, _, _, _, _.
  do 5 (split; [reflexivity|]). split; [reflexivity|].
  cbn [IncidentAnalytics.metric_value].
  split; [apply count_where_disjoint_le, status_triggered_not_resolved|].
  split; [apply (count_where_and_le _ (λ r, r_is_escalated r =? 1))|].
  split; [apply (count_where_and_le _ (λ r, r_resolved_by_ccoe r =? 1))|].
  split; [apply count_where_and_le|apply count_where_le_length].
Qed.

(** ** Grouped queries *)

Lemma sum_list_Permutation (l1 l2 : list nat) :
  l1 ≡ₚ l2 → sum_list l1 = sum_list l2.
Proof. induction 1; cbn [sum_list sum_list_with] in *; lia. Qed.

Lemma sum_list_fmap_add {K} (f g : K → nat) (ks : list K) :
  sum_list ((λ k, f k + g k)%nat <$> ks)
  = (sum_list (f <$> ks) + sum_list (g <$> ks))%nat.
Proof. induction ks as [|k ks IH]; [done|]. rewrite !fmap_cons. simpl. lia. Qed.

Lemma sum_list_indicator {K} `{EqDecision K} (k : K) (ks : list K) :
  NoDup ks → k ∈ ks →
  sum_list ((λ k', if decide (k = k') then 1 else 0)%nat <$> ks) = 1%nat.
Proof.
  induction 1 as [|k' ks Hnot Hnd IH]; [by intros ?%elem_of_nil|].
  rewrite fmap_cons. cbn [sum_list sum_list_with]. intros Hin.
  destruct (decide (k = k')) as [<-|Hne].
  - f_equal. clear IH Hin Hnd. induction ks as [|k2 ks IH]; [done|].
    rewrite fmap_cons. cbn [sum_list sum_list_with].
    apply not_elem_of_cons in Hnot as [Hne Hnot].
    rewrite decide_False by done. by apply IH.
  - apply elem_of_cons in Hin as [?|Hin]; [done|]. by rewrite IH.
Qed.

(** The groups of a [GROUP BY] partition the rows: their sizes add up. *)
Lemma sum_group_lengths {A K} `{EqDecision K} (key : A → K) (l : list A)
    (ks : list K) :
  NoDup ks → (∀ a, a ∈ l → key a ∈ ks) →
  sum_list ((λ k, length (filter (λ a, key a = k) l)) <$> ks) = length l.
Proof.
  intros Hnd. induction l as [|a l IH]; intros Hcover.
  - clear. induction ks as [|k ks IHk]; [done|].
    rewrite fmap_cons. exact IHk.
  - rewrite (list_fmap_ext _
      (λ k, (if decide (key a = k) then 1 else 0)
            + length (filter (λ a, key a = k) l))%nat ks).
    2:{ intros i k _. rewrite filter_cons. by destruct (decide (key a = k)). }
    rewrite sum_list_fmap_add, sum_list_indicator, IH; [done| |done|].
    + intros b Hb. apply Hcover. by apply list_elem_of_further.
    + apply Hcover, list_elem_of_here.
Qed.

Lemma sum_group_counts (key : Row → string * string) (P : Row → bool) (l : table)
    (ks : list (string * string)) :
  NoDup ks → (∀ a, a ∈ l → key a ∈ ks) →
  sum_list ((λ k, IncidentAnalytics.count_where P (filter (λ a, key a = k) l)) <$> ks)
  = IncidentAnalytics.count_where P l.
Proof.
  intros Hnd Hcover. unfold IncidentAnalytics.count_where.
  rewrite <- (sum_group_lengths key (filter (λ r, P r) l) ks Hnd).
  - apply (f_equal sum_list). apply list_fmap_ext. intros i k _.
    rewrite !list_filter_filter. f_equal. apply list_filter_iff. intros r. tauto.
  - intros a [_ Ha]%list_elem_of_filter. by apply Hcover.
Qed.

Global Instance total_desc_trans : Transitive IncidentAnalytics.total_desc.
Proof. intros a b c. unfold IncidentAnalytics.total_desc. lia. Qed.

Global Instance total_desc_total : Total IncidentAnalytics.total_desc.
Proof. intros a b. unfold IncidentAnalytics.total_desc. lia. Qed.

Lemma count_where_filter (P Q : Row → bool) (tbl : table) :
  IncidentAnalytics.count_where Q (filter (λ r, P r) tbl)
  = IncidentAnalytics.count_where (λ r, P r && Q r) tbl.
Proof.
  unfold IncidentAnalytics.count_where. rewrite list_filter_filter. f_equal.
  apply list_filter_iff. intros r. rewrite andb_True. tauto.
Qed.

(** The conditions of the queries, as propositions on a row. *)
Lemma count_where_Prop (P : Row → bool) (Q : Row → Prop) `{∀ r, Decision (Q r)}
    (l : table) :
  (∀ r, P r = true ↔ Q r) →
  IncidentAnalytics.count_where P l = length (filter Q l).
Proof.
  intros HPQ. unfold IncidentAnalytics.count_where. f_equal.
  apply list_filter_iff. intros r. by rewrite Is_true_true.
Qed.

Lemma status_triggered_iff (r : Row) :
  IncidentAnalytics.status_triggered r = true
  ↔ r_status r = "triggered" ∨ r_status r = "acknowledged".
Proof.
  unfold IncidentAnalytics.status_triggered.
  by rewrite orb_true_iff, !String.eqb_eq.
Qed.

Lemma status_resolved_iff (r : Row) :
  IncidentAnalytics.status_resolved r = true ↔ r_status r = "resolved".
Proof. unfold IncidentAnalytics.status_resolved. by rewrite String.eqb_eq. Qed.

Lemma infra_caused_iff (r : Row) :
  IncidentAnalytics.infra_caused r = true
  ↔ r_caused_by_infra r ≠ None ∧ r_caused_by_infra r ≠ Some "".
Proof.
  unfold IncidentAnalytics.infra_caused.
  destruct (r_caused_by_infra r) as [s|]; [|by split; [|intros [? _]]].
  rewrite negb_true_iff, String.eqb_neq. split.
  - intros Hs. split; [done|]. by intros [= ->].
  - intros [_ Hs] ->. by apply Hs.
Qed.

(** The rate of a group that is not empty. *)
Lemma rate_of_pos (escalated total : nat) :
  (0 < total)%nat →
  IncidentAnalytics.rate_of escalated total
  = PrimFloat.mul
      (PrimFloat.div (PrimFloat.of_uint63 (Uint63.of_Z (Z.of_nat escalated)))
                     (PrimFloat.of_uint63 (Uint63.of_Z (Z.of_nat total))))
      100%float.
Proof.
  intros Hpos. unfold IncidentAnalytics.rate_of, IncidentAnalytics.int_truediv.
  by rewrite (proj2 (Nat.ltb_lt 0 total) Hpos).
Qed.

(** X12: on a table written by the store, [get_service_metrics_last_x_days]
    returns one entry for each pair of service id and name that occurs in
    the window, and no pair twice, in descending order of the totals.  The
    counts of an entry are those of the rows of the window that have its
    id and name: all of them, the open, the resolved, the escalated, those
    resolved by CCOE and those with an infrastructure cause; its rate is
    the binary64 quotient of the escalated count and the total, times 100.
    Every entry counts at least one incident, its open and resolved
    incidents together and each of its other counts are at most its total,
    and over the entries the totals add up to the total metric and the
    escalated counts to the escalated metric of the same clock reading. *)
Theorem get_service_metrics_last_x_days_spec (now : datetime) (tbl : table)
    (days : Z) :
  stored_rows tbl →
  match IncidentAnalytics.get_service_metrics_last_x_days now tbl days with
  | Ok ms =>
      (∃ start_date end_date,
         IncidentDatabase.last_x_days_window now days = Ok (start_date, end_date)
         ∧ (∀ r, r ∈ tbl → IncidentDatabase.date_between start_date end_date r →
              ∃ m, m ∈ ms
                   ∧ IncidentAnalytics.sm_service_id m = r_service_id r
                   ∧ IncidentAnalytics.sm_service_name m = r_service_name r)
         ∧ Forall (λ m,
             let g :=
               filter (λ r, IncidentDatabase.date_between start_date end_date r
                            ∧ r_service_id r = IncidentAnalytics.sm_service_id m
                            ∧ r_service_name r = IncidentAnalytics.sm_service_name m)
                 tbl in
             IncidentAnalytics.total_incidents m = length g
             ∧ IncidentAnalytics.triggered_incidents m
               = length (filter (λ r, r_status r = "triggered"
                                      ∨ r_status r = "acknowledged") g)
             ∧ IncidentAnalytics.resolved_incidents m
               = length (filter (λ r, r_status r = "resolved") g)
             ∧ IncidentAnalytics.escalated_incidents m
               = length (filter (λ r, r_is_escalated r = 1) g)
             ∧ IncidentAnalytics.ccoe_resolved_incidents m
               = length (filter (λ r, r_resolved_by_ccoe r = 1) g)
             ∧ IncidentAnalytics.infrastructure_caused_incidents m
               = length (filter (λ r, r_caused_by_infra r ≠ None
                                      ∧ r_caused_by_infra r ≠ Some "") g)
             ∧ IncidentAnalytics.escalation_rate m
               = PrimFloat.mul
                   (PrimFloat.div
                      (PrimFloat.of_uint63
                         (Uint63.of_Z
                            (Z.of_nat (IncidentAnalytics.escalated_incidents m))))
                      (PrimFloat.of_uint63
                         (Uint63.of_Z
                            (Z.of_nat (IncidentAnalytics.total_incidents m)))))
                   100%float) ms)
      ∧ NoDup ((λ m, (IncidentAnalytics.sm_service_id m,
                      IncidentAnalytics.sm_service_name m)) <$> ms)
      ∧ StronglySorted IncidentAnalytics.total_desc ms
      ∧ Forall (λ m,
          (1 <= IncidentAnalytics.total_incidents m
           ∧ IncidentAnalytics.triggered_incidents m
             + IncidentAnalytics.resolved_incidents m
             <= IncidentAnalytics.total_incidents m
           ∧ IncidentAnalytics.escalated_incidents m
             <= IncidentAnalytics.total_incidents m
           ∧ IncidentAnalytics.ccoe_resolved_incidents m
             <= IncidentAnalytics.total_incidents m
           ∧ IncidentAnalytics.infrastructure_caused_incidents m
             <= IncidentAnalytics.total_incidents m)%nat
          ∧ ∃ r, r ∈ tbl ∧ r_service_id r = IncidentAnalytics.sm_service_id m
                 ∧ r_service_name r = IncidentAnalytics.sm_service_name m) ms
      ∧ IncidentAnalytics.get_total_incidents_last_x_days now tbl days
        = Ok (IncidentAnalytics.mkMetricResult "total_incidents"
                (sum_list (IncidentAnalytics.total_incidents <$> ms)) days)
      ∧ IncidentAnalytics.get_escalated_incidents_last_x_days now tbl days
        = Ok (IncidentAnalytics.mkMetricResult "escalated_incidents"
                (sum_list (IncidentAnalytics.escalated_incidents <$> ms)) days)
  | Raise e => e = OverflowError
  end.
Proof.
  intros _.
  unfold IncidentAnalytics.get_service_metrics_last_x_days,
    IncidentAnalytics.get_total_incidents_last_x_days,
    IncidentAnalytics.get_escalated_incidents_last_x_days.
  destruct (IncidentDatabase.last_x_days_window now days) as [[start_date end_date]|e]
    eqn:Hw.
  2:{ rewrite !bind_raise. unfold IncidentDatabase.last_x_days_window in Hw.
      destruct (date_sub_days now days) as [[[y m] d]|e'] eqn:Hd.
      - by rewrite bind_ok in Hw.
      - rewrite bind_raise in Hw. injection Hw as <-.
        by apply date_sub_days_error in Hd. }
  rewrite !bind_ok. cbv zeta.
  set (rows := filter (λ r, IncidentDatabase.date_between start_date end_date r) tbl).
  set (key := λ r : Row, (r_service_id r, r_service_name r)).
  set (ks := remove_dups (key <$> rows)).
  set (unsorted := IncidentAnalytics.service_metrics_of rows <$> ks).
  pose proof (merge_sort_Permutation IncidentAnalytics.total_desc unsorted) as Hperm.
  assert (NoDup ks) as Hnd by apply NoDup_remove_dups.
  assert (∀ a, a ∈ rows → key a ∈ ks) as Hcover.
  { intros a Ha. apply elem_of_remove_dups, list_elem_of_fmap. by exists a. }
  split; [|split; [|split; [|split; [|split]]]].
  - exists start_date, end_date. split; [done|]. split.
    + intros r Hr Hb.
      exists (IncidentAnalytics.service_metrics_of rows (key r)).
      split; [|done]. rewrite Hperm. apply list_elem_of_fmap.
      exists (key r). split; [done|]. apply Hcover, list_elem_of_filter. by split.
    + apply Forall_forall. intros m' Hm'. rewrite Hperm in Hm'.
      apply list_elem_of_fmap in Hm' as ([i n] & -> & Hk).
      apply elem_of_remove_dups, list_elem_of_fmap in Hk as (r & Hkey & Hr).
      unfold IncidentAnalytics.service_metrics_of. cbv zeta.
      cbn [IncidentAnalytics.total_incidents IncidentAnalytics.triggered_incidents
           IncidentAnalytics.resolved_incidents IncidentAnalytics.escalated_incidents
           IncidentAnalytics.ccoe_resolved_incidents
           IncidentAnalytics.infrastructure_caused_incidents
           IncidentAnalytics.escalation_rate
           IncidentAnalytics.sm_service_id IncidentAnalytics.sm_service_name fst snd].
      assert (IncidentAnalytics.service_group rows (i, n)
              = filter (λ r, IncidentDatabase.date_between start_date end_date r
                             ∧ r_service_id r = i ∧ r_service_name r = n) tbl) as ->.
      { unfold IncidentAnalytics.service_group, rows. rewrite list_filter_filter.
        apply list_filter_iff. intros r'. split.
        - by intros [[= -> ->] ?].
        - intros (? & -> & ->). by split. }
      set (g := filter (λ r, IncidentDatabase.date_between start_date end_date r
                             ∧ r_service_id r = i ∧ r_service_name r = n) tbl).
      assert (r ∈ g) as Hg.
      { apply list_elem_of_filter in Hr as [Hb Htbl]. apply list_elem_of_filter.
        unfold key in Hkey. injection Hkey as -> ->. by split. }
      split; [done|].
      split; [apply count_where_Prop, status_triggered_iff|].
      split; [apply count_where_Prop, status_resolved_iff|].
      assert (IncidentAnalytics.count_where (λ r, r_is_escalated r =? 1) g
              = length (filter (λ r, r_is_escalated r = 1) g)) as He
        by (apply count_where_Prop; intros r'; apply Z.eqb_eq).
      split; [exact He|].
      split; [apply count_where_Prop; intros r'; apply Z.eqb_eq|].
      split; [apply count_where_Prop, infra_caused_iff|].
      rewrite He. apply rate_of_pos.
      destruct g; [by apply elem_of_nil in Hg|cbn [length]; lia].
  - rewrite Hperm. subst unsorted. rewrite <- list_fmap_compose.
    assert (∀ l : list (string * string), (λ k, (k.1, k.2)) <$> l = l) as Hid.
    { induction l as [|[a b] l IH]; [done|]. by rewrite fmap_cons, IH. }
    unfold compose, IncidentAnalytics.service_metrics_of. cbv zeta.
    cbn [IncidentAnalytics.sm_service_id IncidentAnalytics.sm_service_name].
    by rewrite Hid.
  - apply StronglySorted_merge_sort; apply _.
  - rewrite Hperm. apply Forall_forall. intros m' Hm'.
    apply list_elem_of_fmap in Hm' as (k & -> & Hk).
    apply elem_of_remove_dups, list_elem_of_fmap in Hk as (r & -> & Hr).
    unfold IncidentAnalytics.service_metrics_of. cbv zeta.
    cbn [IncidentAnalytics.total_incidents IncidentAnalytics.triggered_incidents
         IncidentAnalytics.resolved_incidents IncidentAnalytics.escalated_incidents
         IncidentAnalytics.ccoe_resolved_incidents
         IncidentAnalytics.infrastructure_caused_incidents
         IncidentAnalytics.sm_service_id IncidentAnalytics.sm_service_name].
    set (g := IncidentAnalytics.service_group rows (key r)).
    assert (r ∈ g) as Hg by (apply list_elem_of_filter; by split).
    split.
    + split; [destruct g; [by apply elem_of_nil in Hg|cbn [length]; lia]|].
      split; [apply count_where_disjoint_le_length, status_triggered_not_resolved|].
      repeat split; apply count_where_le_length.
    + exists r. split; [|done]. by apply list_elem_of_filter in Hr as [_ ?].
  - do 2 f_equal. rewrite (sum_list_Permutation _ _ (fmap_Permutation _ _ _ Hperm)).
    subst unsorted. rewrite <- list_fmap_compose.
    symmetry. exact (sum_group_lengths key rows ks Hnd Hcover).
  - do 2 f_equal. rewrite (sum_list_Permutation _ _ (fmap_Permutation _ _ _ Hperm)).
    subst unsorted. rewrite <- list_fmap_compose.
    rewrite <- count_where_filter. fold rows.
    symmetry. exact (sum_group_counts key _ rows ks Hnd Hcover).
Qed.

Lemma get_service_metrics_last_x_days_spec_witness :
  ∃ ms,
    IncidentAnalytics.get_service_metrics_last_x_days (Sample.clock 0)
      (IncidentDatabase.store_incidents_batch Sample.clock [] Sample.four).2 7 = Ok ms
    ∧ IncidentAnalytics.get_total_incidents_last_x_days (Sample.clock 0)
        (IncidentDatabase.store_incidents_batch Sample.clock [] Sample.four).2 7
      = Ok (IncidentAnalytics.mkMetricResult "total_incidents"
              (sum_list (IncidentAnalytics.total_incidents <$> ms)) 7).
Proof.
  assert (stored_rows
            (IncidentDatabase.store_incidents_batch Sample.clock [] Sample.four).2)
    as Hstored.
  { apply store_incidents_batch_stored_rows; [|constructor]. repeat constructor. }
  pose proof (get_service_metrics_last_x_days_spec (Sample.clock 0)
                (IncidentDatabase.store_incidents_batch Sample.clock [] Sample.four).2
                7 Hstored) as H.
  destruct (IncidentAnalytics.get_service_metrics_last_x_days (Sample.clock 0)
              (IncidentDatabase.store_incidents_batch Sample.clock [] Sample.four).2 7)
    as [ms|e] eqn:E.
  - exists ms. split; [reflexivity|]. apply H.
  - exfalso. vm_compute in E. discriminate E.
Defined.

(** ** The daily trend *)

Global Instance date_desc_trans : Transitive IncidentAnalytics.date_desc.
Proof. intros a b c H1 H2. unfold IncidentAnalytics.date_desc in *. by etrans. Qed.

Global Instance date_desc_total : Total IncidentAnalytics.date_desc.
Proof. intros a b. unfold IncidentAnalytics.date_desc. apply (total String.le). Qed.

Lemma date_between_date (start_date end_date : string) (r : Row) :
  IncidentDatabase.date_between start_date end_date r = true →
  ∃ d, Sqlite.date (r_created_at r) = Some d
       ∧ String.le start_date d ∧ String.le d end_date.
Proof.
  unfold IncidentDatabase.date_between, Sqlite.between, String.le.
  destruct (Sqlite.date (r_created_at r)) as [d|]; [|done].
  intros [H1 H2]%andb_prop. exists d. by rewrite H1, H2.
Qed.

(** X13: on a table written by the store,
    [get_daily_incident_trend_last_x_days] returns one entry for each
    [DATE(created_at)] that occurs in the window, newest first and without
    repetition.  The counts of an entry are those of the rows of the table
    with its date: all of them, the open, the resolved and the escalated;
    its rate is the binary64 quotient of the escalated count and the total,
    times 100.  Every date lies in the window and is the date of a row of
    the table, every entry counts at least one incident, its open and
    resolved incidents together and its escalated ones are at most its
    total, and the totals add up to the total metric of the same clock
    reading. *)
Theorem get_daily_incident_trend_last_x_days_spec (now : datetime) (tbl : table)
    (days : Z) :
  stored_rows tbl →
  match IncidentAnalytics.get_daily_incident_trend_last_x_days now tbl days with
  | Ok ts =>
      NoDup (IncidentAnalytics.d_date <$> ts)
      ∧ StronglySorted IncidentAnalytics.date_desc (IncidentAnalytics.d_date <$> ts)
      ∧ (∃ start_date end_date,
           IncidentDatabase.last_x_days_window now days = Ok (start_date, end_date)
           ∧ (∀ r, r ∈ tbl → IncidentDatabase.date_between start_date end_date r →
                ∃ t, t ∈ ts
                     ∧ Sqlite.date (r_created_at r)
                       = Some (IncidentAnalytics.d_date t))
           ∧ Forall (λ t,
               let g :=
                 filter (λ r, Sqlite.date (r_created_at r)
                              = Some (IncidentAnalytics.d_date t)) tbl in
               IncidentAnalytics.d_total_incidents t = length g
               ∧ IncidentAnalytics.d_triggered_incidents t
                 = length (filter (λ r, r_status r = "triggered"
                                        ∨ r_status r = "acknowledged") g)
               ∧ IncidentAnalytics.d_resolved_incidents t
                 = length (filter (λ r, r_status r = "resolved") g)
               ∧ IncidentAnalytics.d_escalated_incidents t
                 = length (filter (λ r, r_is_escalated r = 1) g)
               ∧ IncidentAnalytics.d_escalation_rate t
                 = PrimFloat.mul
                     (PrimFloat.div
                        (PrimFloat.of_uint63
                           (Uint63.of_Z
                              (Z.of_nat (IncidentAnalytics.d_escalated_incidents t))))
                        (PrimFloat.of_uint63
                           (Uint63.of_Z
                              (Z.of_nat (IncidentAnalytics.d_total_incidents t)))))
                     100%float) ts
           ∧ Forall (λ t,
               String.le start_date (IncidentAnalytics.d_date t)
               ∧ String.le (IncidentAnalytics.d_date t) end_date
               ∧ (∃ r, r ∈ tbl
                       ∧ Sqlite.date (r_created_at r)
                         = Some (IncidentAnalytics.d_date t))
               ∧ (1 <= IncidentAnalytics.d_total_incidents t
                  ∧ IncidentAnalytics.d_triggered_incidents t
                    + IncidentAnalytics.d_resolved_incidents t
                    <= IncidentAnalytics.d_total_incidents t
                  ∧ IncidentAnalytics.d_escalated_incidents t
                    <= IncidentAnalytics.d_total_incidents t)%nat) ts)
      ∧ IncidentAnalytics.get_total_incidents_last_x_days now tbl days
        = Ok (IncidentAnalytics.mkMetricResult "total_incidents"
                (sum_list (IncidentAnalytics.d_total_incidents <$> ts)) days)
  | Raise e => e = OverflowError
  end.
Proof.
  intros _.
  unfold IncidentAnalytics.get_daily_incident_trend_last_x_days,
    IncidentAnalytics.get_total_incidents_last_x_days,
    IncidentDatabase.last_x_days_window.
  destruct (date_sub_days now days) as [[[y m] d]|e] eqn:Hw.
  2:{ rewrite !bind_raise. by apply date_sub_days_error in Hw. }
  rewrite !bind_ok. cbv zeta.
  set (start_date := date_isoformat y m d).
  set (end_date := date_isoformat (year now) (month now) (day now)).
  set (rows := filter (λ r, IncidentDatabase.date_between start_date end_date r) tbl).
  set (key := λ r : Row, Sqlite.date (r_created_at r)).
  set (unsorted := remove_dups (omap key rows)).
  set (dates := merge_sort IncidentAnalytics.date_desc unsorted).
  pose proof (merge_sort_Permutation IncidentAnalytics.date_desc unsorted) as Hperm.
  fold dates in Hperm.
  assert (NoDup dates) as Hnd by (rewrite Hperm; apply NoDup_remove_dups).
  assert (IncidentAnalytics.d_date <$> (IncidentAnalytics.daily_trend_of rows <$> dates)
          = dates) as Hdates.
  { rewrite <- list_fmap_compose. clear. induction dates as [|a l IH]; [done|].
    by rewrite fmap_cons, IH. }
  assert (∀ a, a ∈ rows → key a ∈ Some <$> dates) as Hcover.
  { intros a Ha. pose proof Ha as [Hb _]%list_elem_of_filter.
    apply Is_true_true, date_between_date in Hb as (d' & Hd' & _).
    apply list_elem_of_fmap. exists d'. split; [done|].
    rewrite Hperm. apply elem_of_remove_dups, list_elem_of_omap. by exists a. }
  split; [by rewrite Hdates|]. split.
  { rewrite Hdates. apply StronglySorted_merge_sort; apply _. }
  split.
  - exists start_date, end_date. split; [done|]. split; [|split].
    + intros r Hr Hb.
      pose proof Hb as (d' & Hd' & _)%Is_true_true%date_between_date.
      exists (IncidentAnalytics.daily_trend_of rows d'). split; [|done].
      apply list_elem_of_fmap. exists d'. split; [done|].
      rewrite Hperm. apply elem_of_remove_dups, list_elem_of_omap.
      exists r. split; [|done]. by apply list_elem_of_filter.
    + apply Forall_forall. intros t Ht.
      apply list_elem_of_fmap in Ht as (d' & -> & Hd').
      rewrite Hperm in Hd'.
      apply elem_of_remove_dups, list_elem_of_omap in Hd' as (r & Hr & Hkey).
      pose proof Hr as [Hb Htbl]%list_elem_of_filter.
      unfold IncidentAnalytics.daily_trend_of. cbv zeta.
      cbn [IncidentAnalytics.d_date IncidentAnalytics.d_total_incidents
           IncidentAnalytics.d_triggered_incidents
           IncidentAnalytics.d_resolved_incidents
           IncidentAnalytics.d_escalated_incidents
           IncidentAnalytics.d_escalation_rate].
      assert (IncidentAnalytics.day_group rows d'
              = filter (λ r, Sqlite.date (r_created_at r) = Some d') tbl) as ->.
      { unfold IncidentAnalytics.day_group, rows. rewrite list_filter_filter.
        apply list_filter_iff. intros r'. split; [by intros [? _]|].
        intros Hr'. split; [done|]. revert Hb.
        unfold IncidentDatabase.date_between, key in *. by rewrite Hr', Hkey. }
      set (g := filter (λ r, Sqlite.date (r_created_at r) = Some d') tbl).
      assert (r ∈ g) as Hg by (by apply list_elem_of_filter).
      split; [done|].
      split; [apply count_where_Prop, status_triggered_iff|].
      split; [apply count_where_Prop, status_resolved_iff|].
      assert (IncidentAnalytics.count_where (λ r, r_is_escalated r =? 1) g
              = length (filter (λ r, r_is_escalated r = 1) g)) as He
        by (apply count_where_Prop; intros r'; apply Z.eqb_eq).
      split; [exact He|].
      rewrite He. apply rate_of_pos.
      destruct g; [by apply elem_of_nil in Hg|cbn [length]; lia].
    + apply Forall_forall. intros t Ht.
      apply list_elem_of_fmap in Ht as (d' & -> & Hd').
      rewrite Hperm in Hd'.
      apply elem_of_remove_dups, list_elem_of_omap in Hd' as (r & Hr & Hkey).
      pose proof Hr as [Hb Htbl]%list_elem_of_filter.
      apply Is_true_true, date_between_date in Hb as (d2 & Hd2 & Hle1 & Hle2).
      unfold key in Hkey. rewrite Hd2 in Hkey. injection Hkey as ->.
      unfold IncidentAnalytics.daily_trend_of. cbv zeta.
      cbn [IncidentAnalytics.d_date IncidentAnalytics.d_total_incidents
           IncidentAnalytics.d_triggered_incidents IncidentAnalytics.d_resolved_incidents
           IncidentAnalytics.d_escalated_incidents].
      split; [done|]. split; [done|]. split; [by exists r|].
      set (g := IncidentAnalytics.day_group rows d').
      assert (r ∈ g) as Hg by (by apply list_elem_of_filter).
      split; [destruct g; [by apply elem_of_nil in Hg|cbn [length]; lia]|].
      split; [apply count_where_disjoint_le_length, status_triggered_not_resolved|].
      apply count_where_le_length.
  - do 2 f_equal. rewrite <- list_fmap_compose.
    change (IncidentAnalytics.count_where
              (IncidentDatabase.date_between start_date end_date) tbl)
      with (length rows).
    rewrite <- (sum_group_lengths key rows (Some <$> dates));
      [|by apply NoDup_fmap_2; [apply _|]|done].
    by rewrite <- list_fmap_compose.
Qed.

Lemma get_daily_incident_trend_last_x_days_spec_witness :
  ∃ ts,
    IncidentAnalytics.get_daily_incident_trend_last_x_days (Sample.at_utc7 24 15 0)
      (IncidentDatabase.store_incidents_batch Sample.clock []
         [Sample.older_utc; Sample.newer_utc7; Sample.evening]).2 7 = Ok ts
    ∧ IncidentAnalytics.d_date <$> ts = ["2025-08-24"; "2025-08-23"]
    ∧ IncidentAnalytics.get_total_incidents_last_x_days (Sample.at_utc7 24 15 0)
        (IncidentDatabase.store_incidents_batch Sample.clock []
           [Sample.older_utc; Sample.newer_utc7; Sample.evening]).2 7
      = Ok (IncidentAnalytics.mkMetricResult "total_incidents"
              (sum_list (IncidentAnalytics.d_total_incidents <$> ts)) 7).
Proof.
  assert (stored_rows
            (IncidentDatabase.store_incidents_batch Sample.clock []
               [Sample.older_utc; Sample.newer_utc7; Sample.evening]).2)
    as Hstored.
  { apply store_incidents_batch_stored_rows; [|constructor]. repeat constructor. }
  pose proof (get_daily_incident_trend_last_x_days_spec (Sample.at_utc7 24 15 0)
                (IncidentDatabase.store_incidents_batch Sample.clock []
                   [Sample.older_utc; Sample.newer_utc7; Sample.evening]).2
                7 Hstored) as H.
  destruct (IncidentAnalytics.get_daily_incident_trend_last_x_days (Sample.at_utc7 24 15 0)
              (IncidentDatabase.store_incidents_batch Sample.clock []
                 [Sample.older_utc; Sample.newer_utc7; Sample.evening]).2 7)
    as [ts|e] eqn:E.
  - exists ts. split; [reflexivity|]. split; [|apply H].
    vm_compute in E. injection E as <-. reflexivity.
  - exfalso. vm_compute in E. discriminate E.
Defined.


(** ** The services with most escalations *)

Lemma key_lt_true (a b : IncidentAnalytics.ServiceMetrics) :
  IncidentAnalytics.key_lt a b = true →
  (IncidentAnalytics.escalated_incidents a <= IncidentAnalytics.escalated_incidents b)%nat.
Proof.
  unfold IncidentAnalytics.key_lt.
  destruct (Nat.eqb_spec (IncidentAnalytics.escalated_incidents a)
              (IncidentAnalytics.escalated_incidents b)); [lia|].
  intros ?%Nat.ltb_lt. lia.
Qed.

Lemma key_lt_false (a b : IncidentAnalytics.ServiceMetrics) :
  IncidentAnalytics.key_lt a b = false →
  (IncidentAnalytics.escalated_incidents b <= IncidentAnalytics.escalated_incidents a)%nat.
Proof.
  unfold IncidentAnalytics.key_lt.
  destruct (Nat.eqb_spec (IncidentAnalytics.escalated_incidents a)
              (IncidentAnalytics.escalated_incidents b)); [lia|].
  intros ?%Nat.ltb_ge. lia.
Qed.

Lemma insert_desc_Permutation (x : IncidentAnalytics.ServiceMetrics)
    (l : list IncidentAnalytics.ServiceMetrics) :
  IncidentAnalytics.insert_desc x l ≡ₚ x :: l.
Proof.
  induction l as [|y l IH]; [done|]. cbn [IncidentAnalytics.insert_desc].
  destruct (IncidentAnalytics.key_lt x y); [|done].
  rewrite IH. apply Permutation_swap.
Qed.

Lemma sorted_reverse_Permutation (l : list IncidentAnalytics.ServiceMetrics) :
  IncidentAnalytics.sorted_reverse l ≡ₚ l.
Proof.
  unfold IncidentAnalytics.sorted_reverse. induction l as [|x l IH]; [done|].
  cbn [foldr]. by rewrite insert_desc_Permutation, IH.
Qed.

Lemma insert_desc_sorted (x : IncidentAnalytics.ServiceMetrics)
    (l : list IncidentAnalytics.ServiceMetrics) :
  StronglySorted (λ a b, IncidentAnalytics.escalated_incidents b
                         <= IncidentAnalytics.escalated_incidents a)%nat l →
  StronglySorted (λ a b, IncidentAnalytics.escalated_incidents b
                         <= IncidentAnalytics.escalated_incidents a)%nat
    (IncidentAnalytics.insert_desc x l).
Proof.
  induction 1 as [|y l Hs IH Hall]; [repeat constructor|].
  cbn [IncidentAnalytics.insert_desc].
  destruct (IncidentAnalytics.key_lt x y) eqn:E.
  - constructor; [done|]. rewrite insert_desc_Permutation.
    constructor; [by apply key_lt_true|done].
  - apply key_lt_false in E. constructor; [by constructor|].
    constructor; [done|]. eapply Forall_impl; [exact Hall|]. intros z ?. cbv beta in *. lia.
Qed.

Lemma sorted_reverse_sorted (l : list IncidentAnalytics.ServiceMetrics) :
  StronglySorted (λ a b, IncidentAnalytics.escalated_incidents b
                         <= IncidentAnalytics.escalated_incidents a)%nat
    (IncidentAnalytics.sorted_reverse l).
Proof.
  unfold IncidentAnalytics.sorted_reverse. induction l as [|x l IH]; [constructor|].
  cbn [foldr]. by apply insert_desc_sorted.
Qed.

Lemma slice_to_take {A} (l : list A) (limit : Z) :
  IncidentAnalytics.slice_to l limit
  = take (if limit <? 0 then (length l - Z.to_nat (- limit))%nat else Z.to_nat limit) l.
Proof.
  unfold IncidentAnalytics.slice_to. destruct (Z.ltb_spec limit 0); [|done].
  f_equal. lia.
Qed.

(** X14: [get_top_escalated_services] returns a selection of the entries of
    [get_service_metrics_last_x_days] in descending order of their escalated
    counts, and no entry left out has more escalated incidents than one that
    is in.  For [limit >= 0] it holds [limit] entries, or all if there are
    fewer; a negative [limit] drops that many entries from the end
    instead. *)
Theorem get_top_escalated_services_spec (now : datetime) (tbl : table)
    (days limit : Z) :
  match IncidentAnalytics.get_top_escalated_services now tbl days limit with
  | Ok top =>
      ∃ ms,
        IncidentAnalytics.get_service_metrics_last_x_days now tbl days = Ok ms
        ∧ top ⊆+ ms
        ∧ length top
          = (if limit <? 0 then (length ms - Z.to_nat (- limit))%nat
             else (Z.to_nat limit `min` length ms)%nat)
        ∧ StronglySorted (λ a b, IncidentAnalytics.escalated_incidents b
                                 <= IncidentAnalytics.escalated_incidents a)%nat top
        ∧ (∀ a b, a ∈ top → b ∈ ms → b ∉ top →
             (IncidentAnalytics.escalated_incidents b
              <= IncidentAnalytics.escalated_incidents a)%nat)
  | Raise e =>
      IncidentAnalytics.get_service_metrics_last_x_days now tbl days = Raise e
  end.
Proof.
  unfold IncidentAnalytics.get_top_escalated_services.
  destruct (IncidentAnalytics.get_service_metrics_last_x_days now tbl days)
    as [ms|e]; [|done].
  rewrite bind_ok. exists ms. split; [done|].
  rewrite slice_to_take.
  set (n := if limit <? 0 then (length ms - Z.to_nat (- limit))%nat else Z.to_nat limit).
  pose proof (sorted_reverse_Permutation ms) as Hperm.
  pose proof (sorted_reverse_sorted ms) as Hsorted.
  assert (length (IncidentAnalytics.sorted_reverse ms) = length ms) as Hlen
    by (by rewrite Hperm).
  rewrite Hlen. fold n.
  set (s := IncidentAnalytics.sorted_reverse ms) in *.
  split; [rewrite <- Hperm; apply submseteq_take|].
  split; [rewrite length_take, Hlen; subst n; destruct (limit <? 0); lia|].
  rewrite <- (take_drop n s) in Hsorted.
  split; [by apply StronglySorted_app_1_l in Hsorted|].
  intros a b Ha Hb Hnb.
  apply (StronglySorted_app_1_elem_of _ (take n s) (drop n s) a b Hsorted Ha).
  rewrite <- Hperm, <- (take_drop n s) in Hb.
  by apply elem_of_app in Hb as [?|?].
Qed.

Import PagerDutyAPIClient.

(** * The requests of the client *)

Section requests.

Context (api : list request → request → response).

Lemma get_json_log (req : request) (log : list request) :
  (get_json api req log).2 = log ++ [req].
Proof.
  unfold get_json. destruct (api log req) as [| |status body]; try done.
  destruct (_ && _); [done|]. by destruct body.
Qed.

Lemma get_json_ok (req : request) (log : list request) (j : json) :
  (get_json api req log).1 = Ok j →
  ∃ status, api log req = Response status (Some j)
            ∧ (400 <=? status) && (status <? 600) = false.
Proof.
  unfold get_json. destruct (api log req) as [| |status body]; try done.
  destruct (_ && _) eqn:E; [done|]. destruct body as [j'|]; [|done].
  intros [= ->]. by exists status.
Qed.

Lemma request_then_log {A} (req : request) (f : json → result A)
    (log : list request) :
  ((j ← get_json api req; lift (f j)) log).2 = log ++ [req].
Proof.
  rewrite M_bind_unfold. pose proof (get_json_log req log) as H.
  by destruct (get_json api req log) as [[j|e] log'].
Qed.

Lemma request_then_ok {A} (req : request) (f : json → result A)
    (log : list request) (a : A) :
  ((j ← get_json api req; lift (f j)) log).1 = Ok a →
  ∃ status j, api log req = Response status (Some j) ∧ f j = Ok a.
Proof.
  rewrite M_bind_unfold. pose proof (get_json_ok req log) as H.
  destruct (get_json api req log) as [[j|e] log']; [|done].
  destruct (H j eq_refl) as (status & Hapi & _). intros Hf. by exists status, j.
Qed.

(** Three attempts: the first that succeeds gives the result, each attempt
    sends one request, and after three failures the default is returned. *)
Lemma retry3_spec {A} (body : M A) (dflt : A) (req : request) (log : list request) :
  (∀ log, (body log).2 = log ++ [req]) →
  ∃ a n,
    retry (seq 0 3) 3 body dflt log = (Ok a, log ++ replicate n req)
    ∧ (1 <= n <= 3)%nat
    ∧ ((∃ log', (body log').1 = Ok a) ∨ a = dflt ∧ n = 3%nat)
    ∧ (∀ a', (body log).1 = Ok a' → a = a' ∧ n = 1%nat).
Proof.
  intros Hlog. cbn [seq retry]. unfold try_except.
  pose proof (Hlog log) as H1.
  destruct (body log) as [[a1|e1] l1] eqn:E1; cbn [snd] in H1; subst l1.
  { exists a1, 1%nat. split; [done|]. split; [lia|].
    split; [left; exists log; by rewrite E1|]. by intros a' [= <-]. }
  cbn [Nat.ltb Nat.leb Nat.sub].
  pose proof (Hlog (log ++ [req])) as H2.
  destruct (body (log ++ [req])) as [[a2|e2] l2] eqn:E2; cbn [snd] in H2; subst l2.
  { exists a2, 2%nat. rewrite <- (assoc_L (++)). split; [done|]. split; [lia|].
    split; [left; exists (log ++ [req]); by rewrite E2|]. by intros a' [=]. }
  pose proof (Hlog ((log ++ [req]) ++ [req])) as H3.
  destruct (body ((log ++ [req]) ++ [req])) as [[a3|e3] l3] eqn:E3;
    cbn [snd] in H3; subst l3.
  { exists a3, 3%nat. rewrite <- !(assoc_L (++)). split; [done|]. split; [lia|].
    split; [left; exists ((log ++ [req]) ++ [req]); by rewrite E3|]. by intros a' [=]. }
  exists dflt, 3%nat. rewrite <- !(assoc_L (++)). split; [done|]. split; [lia|].
  split; [by right|]. by intros a' [=].
Qed.

(** X15: the two enrichment calls never raise.  Each sends between one and
    three requests for the incident and nothing else, and stops at the first
    attempt that succeeds.  Escalation is reported only on an answer of the
    API, and the custom fields are always a dictionary with the two keys,
    whose values are both [None] unless the API answered. *)
Theorem enrichment_calls_never_raise (incident_id : string) (log : list request) :
  (∃ is_escalated n,
     _check_incident_escalation api incident_id log
     = (Ok is_escalated, log ++ replicate n (GetLogEntries incident_id))
     ∧ (1 <= n <= 3)%nat
     ∧ (is_escalated = true →
        ∃ log' status j,
          api log' (GetLogEntries incident_id) = Response status (Some j)))
  ∧ (∃ resolution prelim_root_cause n,
       _get_incident_custom_fields api incident_id log
       = (Ok (custom_fields_dict resolution prelim_root_cause),
          log ++ replicate n (GetCustomFieldValues incident_id))
       ∧ (1 <= n <= 3)%nat
       ∧ (resolution ≠ None ∨ prelim_root_cause ≠ None →
          ∃ log' status j,
            api log' (GetCustomFieldValues incident_id) = Response status (Some j))).
Proof.
  split.
  - unfold _check_incident_escalation.
    match goal with |- context [retry _ _ ?body _ _] =>
      destruct (retry3_spec body false (GetLogEntries incident_id) log)
        as (b & n & -> & Hn & Hres & _) end.
    { intros log'. apply request_then_log. }
    exists b, n. split; [done|]. split; [done|]. intros ->.
    destruct Hres as [[log' Hok]|[? _]]; [|done].
    apply request_then_ok in Hok as (status & j & Hapi & _). by exists log', status, j.
  - unfold _get_incident_custom_fields.
    match goal with |- context [retry _ _ ?body _ _] =>
      destruct (retry3_spec body (custom_fields_dict None None)
                  (GetCustomFieldValues incident_id) log)
        as (cf & n & -> & Hn & Hres & _) end.
    { intros log'. apply request_then_log. }
    destruct Hres as [[log' Hok]|[-> _]].
    + apply request_then_ok in Hok as (status & j & Hapi & Hcf).
      unfold extract_custom_fields in Hcf.
      destruct (py_get j "custom_fields" (JArr [])) as [c|]; [|done].
      rewrite bind_ok in Hcf. destruct (py_iter c) as [fields|]; [|done].
      rewrite bind_ok in Hcf.
      destruct (custom_fields_loop (None, None) fields) as [[r p]|]; [|done].
      rewrite bind_ok in Hcf. injection Hcf as <-.
      exists r, p, n. split; [done|]. split; [done|]. intros _.
      by exists log', status, j.
    + exists None, None, n. split; [done|]. split; [done|]. by intros [?|?].
Qed.

End requests.

(** * Escalation detection *)

Lemma match_escalate_log_entry {A} (ty : string) (a b : A) :
  match ty with
  | "escalate_log_entry" => a
  | _ => b
  end = if String.eqb ty "escalate_log_entry" then a else b.
Proof.
  do 19 (destruct ty as [|[[] [] [] [] [] [] [] []] ty]; try reflexivity).
Qed.

Lemma any_escalate_objects (log_entries : list json) :
  Forall (λ e, ∃ members, e = JObj members) log_entries →
  any_escalate log_entries = Ok (existsb has_escalate_type log_entries).
Proof.
  induction 1 as [|e l [members ->] _ IH]; [done|].
  cbn [any_escalate existsb has_escalate_type py_get]. rewrite bind_ok.
  destruct (dict_get members "type") as [[]|]; cbn [default]; try exact IH.
  unfold Datatypes.id. cbv iota. rewrite match_escalate_log_entry.
  by destruct (String.eqb _ _).
Qed.

(** X16: when the API answers the log-entry request at once with a
    dictionary whose ["log_entries"] is a list of dictionaries,
    [_check_incident_escalation] reports whether one of them has the type
    ['escalate_log_entry'], after that single request. *)
Theorem check_incident_escalation_first_try
    (api : list request → request → response) (incident_id : string)
    (log : list request) (status : Z) (members : list (string * json))
    (log_entries : list json) :
  api log (GetLogEntries incident_id) = Response status (Some (JObj members)) →
  (400 <=? status) && (status <? 600) = false →
  dict_get members "log_entries" = Some (JArr log_entries) →
  Forall (λ e, ∃ m, e = JObj m) log_entries →
  _check_incident_escalation api incident_id log
  = (Ok (existsb has_escalate_type log_entries), log ++ [GetLogEntries incident_id]).
Proof.
  intros Hapi Hst Hget Hobj. unfold _check_incident_escalation.
  match goal with |- context [retry _ _ ?body _ _] =>
    destruct (retry3_spec body false (GetLogEntries incident_id) log)
      as (b & n & -> & _ & _ & Hfirst);
    [intros log'; apply request_then_log|];
    destruct (Hfirst (existsb has_escalate_type log_entries)) as [-> ->]; [|done]
  end.
  rewrite M_bind_unfold. unfold get_json. rewrite Hapi, Hst. cbn [lift fst py_get].
  rewrite bind_ok, Hget.
  change (default (JArr []) (Some (JArr log_entries))) with (JArr log_entries).
  cbn [py_iter]. rewrite bind_ok. by apply any_escalate_objects.
Qed.

Lemma check_incident_escalation_first_try_witness :
  _check_incident_escalation
    (λ _ _, Response 200
              (Some (JObj [("log_entries",
                            JArr [JObj [("type", JStr "notify_log_entry")];
                                  JObj [("type", JStr "escalate_log_entry")]])])))
    "Q1ABC123DEF" []
  = (Ok true, [GetLogEntries "Q1ABC123DEF"]).
Proof.
  refine (check_incident_escalation_first_try _ "Q1ABC123DEF" [] 200
            [("log_entries", JArr [JObj [("type", JStr "notify_log_entry")];
                                   JObj [("type", JStr "escalate_log_entry")]])]
            [JObj [("type", JStr "notify_log_entry")];
             JObj [("type", JStr "escalate_log_entry")]] eq_refl eq_refl eq_refl _).
  repeat constructor; by eexists.
Defined.

(** * The incident listing *)

Section listing.

Context (api : list request → request → response).

Lemma page_requests_S (service_ids : list string) (since until : string) (k : nat) :
  page_requests service_ids since until (S k)
  = page_requests service_ids since until k
    ++ [GetIncidents service_ids since until 100 (100 * Z.of_nat k)].
Proof.
  unfold page_requests. by rewrite seq_S, fmap_app.
Qed.

Lemma fetch_pages_log (fuel : nat) (service_ids : list string) (since until : string) :
  ∀ (j : nat) (all_incidents : list json) (log : list request),
    (0 < fuel)%nat →
    ∃ k, (1 <= k <= fuel)%nat
      ∧ (fetch_pages api fuel service_ids since until 100 (100 * Z.of_nat j)
           all_incidents log).2
        = log ++ ((λ i : nat, GetIncidents service_ids since until 100
                                (100 * Z.of_nat (j + i))) <$> seq 0 k).
Proof.
  induction fuel as [|fuel IH]; intros j all_incidents log Hfuel; [lia|].
  cbn [fetch_pages]. rewrite M_bind_unfold.
  pose proof (get_json_log api (GetIncidents service_ids since until 100
                                  (100 * Z.of_nat j)) log) as Hlog.
  assert (∀ l : list request,
            l = log ++ [GetIncidents service_ids since until 100 (100 * Z.of_nat j)] →
            ∃ k, (1 <= k <= S fuel)%nat
              ∧ l = log ++ ((λ i : nat, GetIncidents service_ids since until 100
                                         (100 * Z.of_nat (j + i))) <$> seq 0 k))
    as Hone.
  { intros l ->. exists 1%nat. split; [lia|]. cbn. by rewrite Nat.add_0_r. }
  destruct (get_json api _ log) as [[data|e] log1]; cbn [snd] in Hlog;
    [|by apply Hone].
  rewrite M_bind_unfold. cbn [lift].
  destruct (py_get data "incidents" (JArr [])) as [incidents|e]; [|by apply Hone].
  destruct (negb (json_truthy incidents)); [by apply Hone|].
  rewrite M_bind_unfold. cbn [lift].
  destruct (py_iter incidents) as [items|e]; [|by apply Hone].
  rewrite M_bind_unfold. cbn [lift].
  destruct (py_get data "more" (JBool false)) as [more|e]; [|by apply Hone].
  destruct (_ || _); [by apply Hone|].
  destruct fuel as [|fuel'].
  { cbn [fetch_pages lift snd]. by apply Hone. }
  replace (100 * Z.of_nat j + 100) with (100 * Z.of_nat (S j)) by lia.
  destruct (IH (S j) (all_incidents ++ items) log1 ltac:(lia)) as (k & Hk & ->).
  exists (S k). split; [lia|]. rewrite Hlog, <- (assoc_L (++)). f_equal.
  cbn [seq fmap list_fmap]. rewrite Nat.add_0_r. f_equal.
  rewrite <- (fmap_S_seq 0 k), <- list_fmap_compose. apply list_fmap_ext.
  intros i x _. cbn. do 2 f_equal. lia.
Qed.

(** X17: [_fetch_incidents_from_api] sends only listing requests for the
    given services and dates, with limit 100 and the offsets 0, 100, 200,
    ... in this order, at least one and no gaps, whether it returns or
    raises. *)
Theorem fetch_incidents_from_api_requests (fuel : nat) (service_ids : list string)
    (since until : string) (log : list request) :
  (0 < fuel)%nat →
  ∃ pages, (1 <= pages <= fuel)%nat
    ∧ (_fetch_incidents_from_api api fuel service_ids since until log).2
      = log ++ page_requests service_ids since until pages.
Proof.
  intros Hfuel. unfold _fetch_incidents_from_api.
  destruct (fetch_pages_log fuel service_ids since until 0 [] log Hfuel)
    as (k & Hk & Hlog).
  exists k. split; [done|]. exact Hlog.
Qed.

End listing.

Lemma fetch_incidents_from_api_requests_witness :
  ∃ pages, (1 <= pages <= 3)%nat
    ∧ (_fetch_incidents_from_api (Sample.api_with Sample.custom_fields_body) 3
         ["PHMCGNE"] "2025-08-17" "2025-08-23" []).2
      = [] ++ page_requests ["PHMCGNE"] "2025-08-17" "2025-08-23" pages.
Proof.
  apply (fetch_incidents_from_api_requests (Sample.api_with Sample.custom_fields_body)
           3 ["PHMCGNE"] "2025-08-17" "2025-08-23" []).
  lia.
Defined.

Import PagerDutyAPIClient.

(** * The fetch as a whole *)

Lemma mapM_M_cons {A B} (f : A → M B) (a : A) (l : list A) (log : list request) :
  mapM f (a :: l) log
  = match f a log with
    | (Ok b, log1) =>
        match mapM f l log1 with
        | (Ok k, log2) => (Ok (b :: k), log2)
        | (Raise e, log2) => (Raise e, log2)
        end
    | (Raise e, log1) => (Raise e, log1)
    end.
Proof.
  cbn [mapM]. rewrite M_bind_unfold. destruct (f a log) as [[b|e] log1]; [|done].
  rewrite M_bind_unfold. by destruct (mapM f l log1) as [[k|e] log2].
Qed.

Lemma mapM_M_app {A B} (f : A → M B) (l1 l2 : list A) :
  ∀ log,
    mapM f (l1 ++ l2) log
    = match mapM f l1 log with
      | (Ok k1, log1) =>
          match mapM f l2 log1 with
          | (Ok k2, log2) => (Ok (k1 ++ k2), log2)
          | (Raise e, log2) => (Raise e, log2)
          end
      | (Raise e, log1) => (Raise e, log1)
      end.
Proof.
  induction l1 as [|a l1 IH]; intros log.
  - cbn [app]. change (mapM f [] log) with (Ok (@nil B), log). cbv beta iota.
    by destruct (mapM f l2 log) as [[k2|e] log2].
  - rewrite <- app_comm_cons, !mapM_M_cons.
    destruct (f a log) as [[b|e] log1]; [|done]. rewrite IH.
    destruct (mapM f l1 log1) as [[k1|e] log2]; [|done].
    by destruct (mapM f l2 log2) as [[k2|e] log3].
Qed.

Lemma mapM_M_length {A B} (f : A → M B) (l : list A) :
  ∀ log k log', mapM f l log = (Ok k, log') → length k = length l.
Proof.
  induction l as [|a l IH]; intros log k log'.
  - by intros [= <- _].
  - rewrite mapM_M_cons. destruct (f a log) as [[b|e] log1]; [|done].
    destruct (mapM f l log1) as [[k1|e] log2] eqn:E; [|done].
    intros [= <- _]. cbn [length]. f_equal. by eapply IH.
Qed.

(** Processing batch by batch is processing one by one. *)
Lemma mapM_batches {A B} (f : A → M B) (size : nat) :
  (0 < size)%nat →
  ∀ (fuel : nat) (l : list A) (log : list request),
    (length l <= fuel)%nat →
    (processed ← mapM (λ batch, mapM f batch) (batches fuel size l);
     mret (List.concat processed)) log
    = mapM f l log.
Proof.
  intros Hsize. induction fuel as [|fuel IH]; intros l log Hlen.
  - destruct l; [done|]. cbn [length] in Hlen. lia.
  - destruct l as [|a l]; [done|].
    change (batches (S fuel) size (a :: l))
      with (take size (a :: l) :: batches fuel size (drop size (a :: l))).
    rewrite M_bind_unfold, mapM_M_cons.
    pose proof (mapM_M_app f (take size (a :: l)) (drop size (a :: l)) log) as Happ.
    rewrite take_drop in Happ. rewrite Happ. clear Happ.
    destruct (mapM f (take size (a :: l)) log) as [[k1|e] log1]; [|done].
    rewrite <- IH.
    2:{ rewrite length_drop. cbn [length] in *. lia. }
    rewrite M_bind_unfold.
    by destruct (mapM (λ batch, mapM f batch)
                   (batches fuel size (drop size (a :: l))) log1)
      as [[k2|e] log2].
Qed.

Section fetch.

Context (api : list request → request → response) (now_utc7 : datetime)
  (strptime_ymd : string → option (Z * Z * Z)) (local_utcoffset : datetime → Z).

(** X18: with the configuration loaded, the service ids accepted and the
    window computed, [fetch_incidents_for_date_range] is the listing
    followed by the processing of every listed incident in order, one by
    one: the batches make no difference.  So when it returns, it returns
    one incident for each incident listed. *)
Theorem fetch_incidents_for_date_range_pipeline
    (all_service_ids : list string) (service_id_to_name : gmap string string)
    (fuel : nat) (start_date end_date : option string) (days : Z)
    (service_ids : option (list string)) (ids : list string)
    (start_time end_time : datetime) (log : list request) :
  resolve_service_ids all_service_ids service_ids = Ok ids →
  date_window now_utc7 strptime_ymd start_date end_date days
  = Ok (start_time, end_time) →
  let run :=
    fetch_incidents_for_date_range api now_utc7 strptime_ymd local_utcoffset
      (Ok (all_service_ids, service_id_to_name)) fuel start_date end_date days
      service_ids log in
  run = (raw_incidents ← _fetch_incidents_from_api api fuel ids
                            (isoformat start_time) (isoformat end_time);
         mapM (process_incident api local_utcoffset service_id_to_name)
           raw_incidents) log
  ∧ ∀ incidents log',
      run = (Ok incidents, log') →
      ∃ raw_incidents log1,
        _fetch_incidents_from_api api fuel ids (isoformat start_time)
          (isoformat end_time) log = (Ok raw_incidents, log1)
        ∧ length incidents = length raw_incidents.
Proof.
  intros Hids Hwin. cbv zeta.
  assert (fetch_incidents_for_date_range api now_utc7 strptime_ymd local_utcoffset
            (Ok (all_service_ids, service_id_to_name)) fuel start_date end_date days
            service_ids log
          = (raw_incidents ← _fetch_incidents_from_api api fuel ids
                                (isoformat start_time) (isoformat end_time);
             mapM (process_incident api local_utcoffset service_id_to_name)
               raw_incidents) log) as Heq.
  { unfold fetch_incidents_for_date_range.
    rewrite M_bind_unfold. cbn [lift]. rewrite M_bind_unfold, Hids. cbn [lift].
    rewrite M_bind_unfold, Hwin. cbn [lift]. rewrite !M_bind_unfold.
    destruct (_fetch_incidents_from_api api fuel ids (isoformat start_time)
                (isoformat end_time) log) as [[raw|e] log1]; [|done].
    by apply mapM_batches; [lia|]. }
  split; [exact Heq|]. intros incidents log'. rewrite Heq, M_bind_unfold.
  destruct (_fetch_incidents_from_api api fuel ids (isoformat start_time)
              (isoformat end_time) log) as [[raw|e] log1]; [|done].
  intros Hmap. exists raw, log1. split; [done|]. by eapply mapM_M_length.
Qed.

(** X19: a failure of the first listing request is not retried: whatever
    [requests.get], [raise_for_status] or [json()] raised there (a timeout,
    a connection error, an HTTP status from 400 to 599, a body that is not
    JSON) is what [fetch_incidents_for_date_range] raises, after that one
    request. *)
Theorem listing_failure_propagates
    (all_service_ids : list string) (service_id_to_name : gmap string string)
    (fuel : nat) (start_date end_date : option string) (days : Z)
    (service_ids : option (list string)) (ids : list string)
    (start_time end_time : datetime) (log : list request) (e : exn) :
  resolve_service_ids all_service_ids service_ids = Ok ids →
  date_window now_utc7 strptime_ymd start_date end_date days
  = Ok (start_time, end_time) →
  (0 < fuel)%nat →
  (get_json api (GetIncidents ids (isoformat start_time) (isoformat end_time) 100 0)
     log).1 = Raise e →
  fetch_incidents_for_date_range api now_utc7 strptime_ymd local_utcoffset
    (Ok (all_service_ids, service_id_to_name)) fuel start_date end_date days
    service_ids log
  = (Raise e,
     log ++ [GetIncidents ids (isoformat start_time) (isoformat end_time) 100 0]).
Proof.
  intros Hids Hwin Hfuel Hget.
  rewrite (proj1 (fetch_incidents_for_date_range_pipeline all_service_ids
                    service_id_to_name fuel start_date end_date days service_ids ids
                    start_time end_time log Hids Hwin)).
  rewrite M_bind_unfold. unfold _fetch_incidents_from_api.
  destruct fuel as [|fuel]; [lia|]. cbn [fetch_pages]. rewrite M_bind_unfold.
  pose proof (get_json_log api (GetIncidents ids (isoformat start_time)
                                  (isoformat end_time) 100 0) log) as Hlog.
  destruct (get_json api _ log) as [[j|e'] log1]; cbn [fst snd] in *; [done|].
  by injection Hget as ->; subst log1.
Qed.

End fetch.

Lemma fetch_incidents_for_date_range_pipeline_witness :
  fetch_incidents_for_date_range (Sample.api_with Sample.custom_fields_body)
    Sample.noon Sample.no_strptime Sample.host_utc
    (Ok (["PHMCGNE"], Sample.directory)) 3 None None 7 None []
  = (raw_incidents ← _fetch_incidents_from_api
                        (Sample.api_with Sample.custom_fields_body) 3 ["PHMCGNE"]
                        (isoformat (Sample.at_utc7 17 0 0)) (isoformat Sample.noon);
     mapM (process_incident (Sample.api_with Sample.custom_fields_body)
             Sample.host_utc Sample.directory) raw_incidents) [].
Proof.
  refine (proj1 (fetch_incidents_for_date_range_pipeline
                   (Sample.api_with Sample.custom_fields_body) Sample.noon
                   Sample.no_strptime Sample.host_utc ["PHMCGNE"] Sample.directory 3
                   None None 7 None ["PHMCGNE"] (Sample.at_utc7 17 0 0) Sample.noon []
                   _ _)); vm_compute; reflexivity.
Defined.

Lemma listing_failure_propagates_witness :
  fetch_incidents_for_date_range (λ _ _, Response 503 None)
    Sample.noon Sample.no_strptime Sample.host_utc
    (Ok (["PHMCGNE"], Sample.directory)) 3 None None 7 None []
  = (Raise (HTTPError 503),
     [] ++ [GetIncidents ["PHMCGNE"] (isoformat (Sample.at_utc7 17 0 0))
              (isoformat Sample.noon) 100 0]).
Proof.
  refine (listing_failure_propagates (λ _ _, Response 503 None) Sample.noon
            Sample.no_strptime Sample.host_utc ["PHMCGNE"] Sample.directory 3
            None None 7 None ["PHMCGNE"] (Sample.at_utc7 17 0 0) Sample.noon []
            (HTTPError 503) _ _ _ _); [vm_compute; reflexivity..|lia|reflexivity].
Defined.

Import PagerDutyAPIClient.

(** * The timestamps of converted incidents *)

Lemma ord2ymd_year_range (n : Z) :
  0 < n <= MAXORDINAL →
  let '(y, m, d) := ord2ymd n in 1 <= y <= 9999.
Proof.
  intros Hn. pose proof (ord2ymd_valid n) as Hv.
  destruct (ord2ymd n) as [[y m] d]. destruct Hv as (Hm & Hd & Hord).
  pose proof (ymd2ord_year_bounds y m d Hm Hd) as Hb. rewrite Hord in Hb.
  unfold MAXORDINAL in Hn.
  destruct (Z_le_gt_dec y 0) as [Hy|Hy].
  { pose proof (days_before_year_mono (y + 1) 1 ltac:(lia)) as H1.
    change (days_before_year 1) with 0 in H1. lia. }
  destruct (Z_le_gt_dec 10000 y) as [Hy'|Hy']; [|lia].
  pose proof (days_before_year_mono 10000 y Hy') as H2.
  change (days_before_year 10000) with 3652059 in H2. lia.
Qed.

(** What [datetime_of_wall] returns is a datetime the constructor accepts. *)
Lemma datetime_of_wall_valid (total : Z) (tz : option Z) (r : datetime) :
  datetime_of_wall total tz = Ok r →
  match tz with Some off => check_utcoffset off = true | None => True end →
  datetime_ok r = true.
Proof.
  unfold datetime_of_wall. cbv zeta.
  destruct (_ && _) eqn:E; [|done].
  apply andb_true_iff in E as [E1%Z.ltb_lt E2%Z.leb_le].
  pose proof (ord2ymd_valid (total / US_PER_DAY)) as Hv.
  pose proof (ord2ymd_year_range (total / US_PER_DAY) (conj E1 E2)) as Hy.
  destruct (ord2ymd (total / US_PER_DAY)) as [[y m] dd].
  destruct Hv as (Hm & Hd & _). intros [= <-] Htz.
  unfold datetime_ok, check_date_fields, check_time_fields, MINYEAR, MAXYEAR.
  cbn [year month day hour minute second microsecond tzinfo].
  assert (0 <= total mod US_PER_DAY / US_PER_HOUR <= 23
          ∧ 0 <= total mod US_PER_DAY mod US_PER_HOUR / US_PER_MINUTE <= 59
          ∧ 0 <= total mod US_PER_DAY mod US_PER_MINUTE / US_PER_SECOND <= 59
          ∧ 0 <= total mod US_PER_DAY mod US_PER_SECOND <= 999999)
    as (Hh & Hmi & Hs & Hus).
  { unfold US_PER_DAY, US_PER_HOUR, US_PER_MINUTE, US_PER_SECOND.
    repeat split; Z.div_mod_to_equations; lia. }
  repeat (apply andb_true_intro; split); try (apply Z.leb_le; lia).
  by destruct tz.
Qed.

Lemma check_utcoffset_utc_minus_7 : check_utcoffset utc_minus_7 = true.
Proof. reflexivity. Qed.

(** [astimezone] returns a valid datetime in the target zone. *)
Lemma astimezone_result (local : datetime → Z) (d r : datetime) (tz : Z) :
  check_utcoffset tz = true →
  astimezone local d tz = Ok r →
  datetime_ok r = true ∧ tzinfo r = Some tz.
Proof.
  intros Htz. unfold astimezone.
  destruct (add_timedelta d _) as [utc|e]; [|done].
  rewrite bind_ok, add_timedelta_eq. intros H.
  split; [by eapply datetime_of_wall_valid|].
  by destruct (datetime_of_wall_ok _ _ _ H) as [_ ->].
Qed.

Lemma parse_api_time_result (local : datetime → Z) (j : json) (d : datetime) :
  parse_api_time local j = Ok d →
  datetime_ok d = true ∧ tzinfo d = Some utc_minus_7.
Proof.
  unfold parse_api_time.
  destruct (py_str j) as [s|]; [|done]. rewrite bind_ok.
  destruct (fromisoformat _) as [d0|]; [|done]. rewrite bind_ok.
  apply astimezone_result, check_utcoffset_utc_minus_7.
Qed.

Lemma bind_parse_api_time (local : datetime → Z) (r : result json) (d : datetime) :
  (c ← r; parse_api_time local c) = Ok d →
  datetime_ok d = true ∧ tzinfo d = Some utc_minus_7.
Proof.
  destruct r as [c|]; [|done]. rewrite bind_ok. apply parse_api_time_result.
Qed.

Lemma fmap_parse_api_time (local : datetime → Z) (j : json) (o : option datetime) :
  Some <$> parse_api_time local j = Ok o →
  ∃ d, o = Some d ∧ datetime_ok d = true ∧ tzinfo d = Some utc_minus_7.
Proof.
  destruct (parse_api_time local j) as [d|] eqn:E; [|done].
  intros [= <-]. exists d. split; [done|]. by eapply parse_api_time_result.
Qed.

(** The timestamps of a converted incident are valid and in UTC-7. *)
Lemma convert_timestamps (local : datetime → Z) (raw_incident : json)
    (escalated : bool) (service_id_to_name : gmap string string)
    (custom_fields : option (gmap string (option string))) (x : Incident) :
  _convert_to_incident_object local raw_incident escalated service_id_to_name
    custom_fields = Ok x →
  is_escalated x = escalated
  ∧ (∃ d, created_at x = Some d ∧ datetime_ok d = true
          ∧ tzinfo d = Some utc_minus_7)
  ∧ (∀ d, resolved_at x = Some d →
          datetime_ok d = true ∧ tzinfo d = Some utc_minus_7)
  ∧ (∀ d, acknowledged_at x = Some d →
          datetime_ok d = true ∧ tzinfo d = Some utc_minus_7)
  ∧ timestamps_ok x = true.
Proof.
  unfold _convert_to_incident_object. intros H.
  repeat match type of H with
  | (?r ≫= _) = Ok _ =>
      let E := fresh "E" in
      destruct r as [?|?] eqn:E; [rewrite bind_ok in H | discriminate H]
  end.
  injection H as <-.
  cbn [is_escalated created_at resolved_at acknowledged_at].
  match goal with
  | E : (_ ≫= λ c, parse_api_time local c) = Ok ?d |- _ =>
      apply bind_parse_api_time in E as [Hc1 Hc2]
  end.
  assert (∀ o : option datetime,
            (∃ j, (if json_truthy j then Some <$> parse_api_time local j else Ok None)
                  = Ok o) →
            ∀ d, o = Some d → datetime_ok d = true ∧ tzinfo d = Some utc_minus_7)
    as Hopt.
  { intros o [j Hj] d ->. destruct (json_truthy j); [|done].
    apply fmap_parse_api_time in Hj as (d' & [= <-] & ?). done. }
  match goal with
  | E : (if json_truthy ?j then Some <$> parse_api_time local ?j else Ok None)
        = Ok ?o |- _ =>
      pose proof (Hopt o (ex_intro _ j E)) as Hres
  end.
  match goal with
  | E : (if json_truthy ?a then _ ≫= _ else Ok None) = Ok ?o |- _ =>
      assert (∀ d, o = Some d → datetime_ok d = true ∧ tzinfo d = Some utc_minus_7)
        as Hack;
      [destruct (json_truthy a); [|by intros d' [= <-]%eq_sym];
       match type of E with
       | (?r ≫= _) = _ => destruct r as [first|]; [rewrite bind_ok in E|done]
       end;
       match type of E with
       | (?r ≫= _) = _ => destruct r as [at_|]; [rewrite bind_ok in E|done]
       end;
       apply Hopt; by exists at_ |]
  end.
  split; [done|]. split; [by eauto|]. split; [done|]. split; [done|].
  unfold timestamps_ok. cbn [created_at resolved_at acknowledged_at].
  rewrite Hc1. cbn [andb].
  apply andb_true_intro. split.
  - match goal with |- match ?o with _ => _ end = true =>
      destruct o as [d'|] eqn:Eo; [by destruct (Hres d' eq_refl)|done] end.
  - match goal with |- match ?o with _ => _ end = true =>
      destruct o as [d'|] eqn:Eo; [by destruct (Hack d' eq_refl)|done] end.
Qed.

(** X20: an incident [_convert_to_incident_object] returns carries the
    escalation flag it was given, and each of its timestamps is a valid
    datetime in UTC-7, so that [to_dict] and [from_dict] preserve them. *)
Theorem converted_incident_timestamps (local : datetime → Z) (raw_incident : json)
    (escalated : bool) (service_id_to_name : gmap string string)
    (custom_fields : option (gmap string (option string))) (x : Incident) :
  _convert_to_incident_object local raw_incident escalated service_id_to_name
    custom_fields = Ok x →
  is_escalated x = escalated
  ∧ (∃ d, created_at x = Some d ∧ datetime_ok d = true
          ∧ tzinfo d = Some utc_minus_7)
  ∧ (∀ d, resolved_at x = Some d →
          datetime_ok d = true ∧ tzinfo d = Some utc_minus_7)
  ∧ (∀ d, acknowledged_at x = Some d →
          datetime_ok d = true ∧ tzinfo d = Some utc_minus_7)
  ∧ timestamps_ok x = true.
Proof. apply convert_timestamps. Qed.

Lemma converted_incident_timestamps_witness :
  ∃ x,
    _convert_to_incident_object Sample.host_utc Sample.raw_incident true
      Sample.directory (Some (custom_fields_dict (Some "ccoe") None)) = Ok x
    ∧ is_escalated x = true ∧ timestamps_ok x = true.
Proof.
  destruct (_convert_to_incident_object Sample.host_utc Sample.raw_incident true
              Sample.directory (Some (custom_fields_dict (Some "ccoe") None)))
    as [x|e] eqn:E; [|vm_compute in E; discriminate E].
  exists x. split; [reflexivity|].
  pose proof (converted_incident_timestamps _ _ _ _ _ _ E) as (H1 & _ & _ & _ & H2).
  by split.
Defined.

Import PagerDutyAPIClient.

(** * The configured services *)

Lemma str_take_drop (n : nat) (s : string) : Str.take n s +:+ Str.drop n s = s.
Proof.
  revert s. induction n as [|n IH]; intros s; [apply str_app_nil|].
  destruct s as [|c s]; [done|]. cbn [Str.take Str.drop].
  by rewrite str_app_cons, IH.
Qed.

Lemma str_length_drop (n : nat) (s : string) :
  String.length (Str.drop n s) = (String.length s - n)%nat.
Proof.
  revert s. induction n as [|n IH]; intros s; [cbn; lia|].
  destruct s as [|c s]; [done|]. cbn [Str.drop String.length]. by rewrite IH.
Qed.

Lemma str_drop_app_plus (a b : string) (k : nat) :
  Str.drop (String.length a + k) (a +:+ b) = Str.drop k b.
Proof.
  induction a as [|c a IH]; [by rewrite str_app_nil|].
  rewrite str_app_cons. cbn [String.length Nat.add Str.drop]. exact IH.
Qed.

Lemma is_id_char_not_newline (c : ascii) :
  is_id_char c = true → String c "" ≠ String "010" "".
Proof. intros H [= ->]. discriminate H. Qed.

(** A match of the pattern is the last eight characters of the path, or
    the eight before a final newline. *)
Lemma search_service_id_sound (path group1 : string) :
  search_service_id path = Some group1 →
  String.length group1 = 7%nat ∧ all_id_chars group1 = true
  ∧ ∃ pre, path = pre +:+ String "/" group1
           ∨ path = pre +:+ String "/" group1 +:+ String "010" "".
Proof.
  unfold search_service_id. cbv zeta.
  set (n := String.length path).
  assert (∀ p : string,
            (if (String.length p <? 8)%nat then None
             else match Str.drop (String.length p - 8) p with
                  | String "/" g => if all_id_chars g then Some g else None
                  | _ => None
                  end) = Some group1 →
            String.length group1 = 7%nat ∧ all_id_chars group1 = true
            ∧ ∃ pre, p = pre +:+ String "/" group1) as Hp.
  { intros p. destruct (Nat.ltb_spec (String.length p) 8) as [|Hlen]; [done|].
    pose proof (str_take_drop (String.length p - 8) p) as Hsplit.
    pose proof (str_length_drop (String.length p - 8) p) as Hl.
    destruct (Str.drop (String.length p - 8) p) as [|c g]; [done|].
    destruct (Ascii.eqb_spec c "/") as [->|Hc].
    2:{ intros H. exfalso. revert H.
        destruct c as [[] [] [] [] [] [] [] []]; try done. }
    destruct (all_id_chars g) eqn:Hg; [|done]. intros [= ->].
    cbn [String.length] in Hl. split; [lia|]. split; [done|]. by eexists. }
  destruct (String.eqb_spec (Str.drop (n - 1) path) (String "010" "")) as [Hnl|Hnl].
  - intros (Hlen & Hid & pre & Hpre)%Hp. split; [done|]. split; [done|].
    exists pre. right. rewrite <- (str_take_drop (n - 1) path), Hnl, Hpre.
    by rewrite str_app_assoc.
  - intros (Hlen & Hid & pre & Hpre)%Hp. split; [done|]. split; [done|].
    exists pre. by left.
Qed.

(** A path that ends in a slash and seven characters of the class matches. *)
Lemma search_service_id_complete (pre group1 : string) :
  String.length group1 = 7%nat → all_id_chars group1 = true →
  search_service_id (pre +:+ String "/" group1) = Some group1.
Proof.
  intros Hlen Hid. unfold search_service_id. cbv zeta.
  rewrite str_length_app. cbn [String.length]. rewrite Hlen.
  replace (String.length pre + 8 - 1)%nat with (String.length pre + 7)%nat by lia.
  rewrite str_drop_app_plus.
  do 8 (destruct group1 as [|? group1]; try discriminate Hlen).
  cbn [Str.drop].
  destruct (String.eqb_spec (String a5 "") (String "010" "")) as [Hnl|_].
  { exfalso. cbn [all_id_chars] in Hid.
    repeat (apply andb_prop in Hid as [? Hid]).
    by eapply is_id_char_not_newline. }
  match goal with |- context [pre +:+ ?s] => set (tail := s) end.
  rewrite str_length_app.
  destruct (Nat.ltb_spec (String.length pre + String.length tail) 8) as [Hlt|_].
  { subst tail. cbn [String.length] in Hlt. lia. }
  replace (String.length pre + String.length tail - 8)%nat
    with (String.length pre + 0)%nat by (subst tail; cbn [String.length]; lia).
  rewrite str_drop_app_plus. subst tail. cbn [Str.drop]. by rewrite Hid.
Qed.

(** X21: the service id [_extract_service_id] returns is seven characters
    from [A-Z0-9] that follow the last slash of the URL's path, at its end
    or before a newline that ends it.  It raises what [urlparse] raised, or
    [ValueError] when the path does not end in a slash and seven such
    characters. *)
Theorem extract_service_id_spec (urlparse_path : string → result string)
    (service_url : string) :
  match _extract_service_id urlparse_path service_url with
  | Ok service_id =>
      String.length service_id = 7%nat ∧ all_id_chars service_id = true
      ∧ ∃ pre,
          urlparse_path service_url = Ok (pre +:+ String "/" service_id)
          ∨ urlparse_path service_url
            = Ok (pre +:+ String "/" service_id +:+ String "010" "")
  | Raise e =>
      urlparse_path service_url = Raise e
      ∨ e = ValueError
        ∧ ∃ path, urlparse_path service_url = Ok path
            ∧ ∀ pre group1, String.length group1 = 7%nat →
                all_id_chars group1 = true → path ≠ pre +:+ String "/" group1
  end.
Proof.
  unfold _extract_service_id.
  destruct (urlparse_path service_url) as [path|e]; [|by left].
  rewrite bind_ok. destruct (search_service_id path) as [g|] eqn:Hs.
  - apply search_service_id_sound in Hs as (Hlen & Hid & pre & [->| ->]);
      (split; [done|]); (split; [done|]); exists pre; [by left|by right].
  - right. split; [done|]. exists path. split; [done|].
    intros pre g Hlen Hid ->. by rewrite search_service_id_complete in Hs.
Qed.

Section load.

Context (urlparse_path : string → result string).

Lemma extract_service_id_ok (url sid : string) :
  _extract_service_id urlparse_path url = Ok sid →
  String.length sid = 7%nat ∧ all_id_chars sid = true.
Proof.
  intros H. pose proof (extract_service_id_spec urlparse_path url) as Hs.
  rewrite H in Hs. by destruct Hs as (? & ? & _).
Qed.

Lemma load_services_loop_spec (services : list json) :
  ∀ (ids0 : list string) (names0 : gmap string string) ids names,
    load_services_loop urlparse_path services ids0 names0 = Ok (ids, names) →
    ∃ new, ids = ids0 ++ new
      ∧ length new = length services
      ∧ Forall (λ sid, String.length sid = 7%nat ∧ all_id_chars sid = true) new
      ∧ (∀ sid, is_Some (names !! sid) ↔ is_Some (names0 !! sid) ∨ sid ∈ new).
Proof.
  induction services as [|service rest IH]; intros ids0 names0 ids names.
  - intros [= <- <-]. exists []. rewrite app_nil_r. split; [done|].
    split; [done|]. split; [constructor|]. intros sid. rewrite elem_of_nil. tauto.
  - cbn [load_services_loop].
    destruct (py_getitem service "url") as [service_url|]; [|done]. rewrite bind_ok.
    destruct (py_getitem service "name") as [service_name|]; [|done]. rewrite bind_ok.
    destruct service_url as [| | |url| |]; try done.
    destruct (_extract_service_id urlparse_path url) as [sid|] eqn:Hsid; [|done].
    rewrite bind_ok.
    destruct service_name as [| | |name| |]; try done. rewrite bind_ok.
    intros (new & -> & Hlen & Hall & Hdom)%IH.
    exists (sid :: new). rewrite <- (assoc_L (++)). split; [done|].
    split; [cbn [length]; by rewrite Hlen|].
    split; [constructor; [by eapply extract_service_id_ok|done]|].
    intros s. rewrite Hdom, elem_of_cons.
    destruct (decide (s = sid)) as [->|Hne].
    + rewrite lookup_insert_eq. split; [by right; left|by intros; left; eexists].
    + rewrite lookup_insert_ne by done. split; intros [?|?]; tauto.
Qed.

(** X22: when [load_services_from_config] returns, it has one service id
    for each entry under ["services"], in that order, each of them seven
    characters from [A-Z0-9], and the ids that have a name in the dictionary
    are exactly the ids of the list.  A file without the key gives no
    services; so, with no service ids passed, the fetch asks for the
    configured ones. *)
Theorem load_services_from_config_spec (data : result json)
    (service_ids : list string) (service_id_to_name : gmap string string) :
  load_services_from_config urlparse_path data = Ok (service_ids, service_id_to_name) →
  (∃ d services,
     data = Ok d
     ∧ (services ← py_get d "services" (JArr []); py_iter services) = Ok services
     ∧ length service_ids = length services)
  ∧ Forall (λ sid, String.length sid = 7%nat ∧ all_id_chars sid = true) service_ids
  ∧ (∀ sid, sid ∈ service_ids ↔ is_Some (service_id_to_name !! sid))
  ∧ resolve_service_ids service_ids None = Ok service_ids.
Proof.
  unfold load_services_from_config.
  destruct data as [d|]; [|done]. rewrite bind_ok.
  destruct (py_get d "services" (JArr [])) as [s|] eqn:Hs; [|done]. rewrite bind_ok.
  destruct (py_iter s) as [services|] eqn:Hi; [|done]. rewrite bind_ok.
  intros (new & -> & Hlen & Hall & Hdom)%load_services_loop_spec.
  cbn [app]. split.
  - exists d, services. split; [done|]. by rewrite Hs, bind_ok, Hi.
  - split; [done|]. split; [|done]. intros sid. rewrite Hdom, lookup_empty.
    split; [by right|]. intros [[? [=]]|?]. done.
Qed.

End load.

Lemma load_services_from_config_spec_witness :
  Forall (λ sid, String.length sid = 7%nat ∧ all_id_chars sid = true) ["PHMCGNE"]
  ∧ (∀ sid, sid ∈ ["PHMCGNE"]
            ↔ is_Some (({["PHMCGNE" := "Production Database Service"]}
                        : gmap string string) !! sid)).
Proof.
  refine (let H := load_services_from_config_spec
            (λ _, Ok "/service-directory/PHMCGNE")
            (Ok (JObj [("services",
                        JArr [JObj [("name", JStr "Production Database Service");
                                    ("url", JStr "https://x.pagerduty.com/service-directory/PHMCGNE")]])]))
            ["PHMCGNE"] {["PHMCGNE" := "Production Database Service"]} _ in
          conj (proj1 (proj2 H)) (proj1 (proj2 (proj2 H)))).
  vm_compute. reflexivity.
Defined.

Import PagerDutyAPIClient.

(** * The two windows of "the last [days] days" *)

Lemma check_date_fields_ord2ymd (n : Z) :
  0 < n <= MAXORDINAL →
  let '(y, m, d) := ord2ymd n in
  check_date_fields y m d = true ∧ ymd2ord y m d = n.
Proof.
  intros Hn. pose proof (ord2ymd_valid n) as Hv.
  pose proof (ord2ymd_year_range n Hn) as Hy.
  destruct (ord2ymd n) as [[y m] d]. destruct Hv as (Hm & Hd & Hord).
  split; [|done]. unfold check_date_fields, MINYEAR, MAXYEAR.
  repeat (apply andb_true_intro; split); apply Z.leb_le; lia.
Qed.

(** X23: without dates, the window the client asks the API for ends at the
    current time and starts at midnight [days - 1] days before, in the same
    zone: it covers [days] calendar dates.  It is [OverflowError] exactly
    when that start date is outside the calendar. *)
Theorem date_window_default (now_utc7 : datetime)
    (strptime_ymd : string → option (Z * Z * Z)) (days : Z) :
  datetime_ok now_utc7 = true →
  match date_window now_utc7 strptime_ymd None None days with
  | Ok (start_time, end_time) =>
      end_time = now_utc7
      ∧ toordinal start_time = toordinal now_utc7 - (days - 1)
      ∧ hour start_time = 0 ∧ minute start_time = 0 ∧ second start_time = 0
      ∧ microsecond start_time = 0
      ∧ tzinfo start_time = tzinfo now_utc7
      ∧ datetime_ok start_time = true
  | Raise e =>
      e = OverflowError
      ∧ ¬ (0 < toordinal now_utc7 - (days - 1) <= MAXORDINAL)
  end.
Proof.
  intros Hok. unfold date_window. cbn [str_given]. rewrite bind_ok.
  rewrite add_timedelta_eq. unfold datetime_of_wall. cbv zeta.
  destruct (wall_microseconds_split now_utc7 Hok) as [Hdiv Hmod].
  destruct (datetime_ok_time now_utc7 Hok) as (? & ? & ? & ?).
  assert ((wall_microseconds now_utc7 + - ((days - 1) * US_PER_DAY)) / US_PER_DAY
          = toordinal now_utc7 - (days - 1)) as ->.
  { rewrite <- Hdiv. generalize (wall_microseconds now_utc7). intros w.
    unfold US_PER_DAY, US_PER_HOUR, US_PER_MINUTE, US_PER_SECOND.
    Z.div_mod_to_equations. lia. }
  destruct (_ && _) eqn:E.
  - apply andb_true_iff in E as [E1%Z.ltb_lt E2%Z.leb_le].
    pose proof (check_date_fields_ord2ymd _ (conj E1 E2)) as Hv.
    destruct (ord2ymd _) as [[y m] d]. destruct Hv as [Hv Hord].
    rewrite !bind_ok. unfold replace_hmsu, toordinal.
    cbn [year month day hour minute second microsecond tzinfo].
    repeat (split; [done|]).
    unfold datetime_ok. cbn [year month day hour minute second microsecond tzinfo].
    rewrite Hv. cbn [andb check_time_fields].
    unfold datetime_ok in Hok. by apply andb_prop in Hok as [_ ->].
  - rewrite bind_raise. split; [done|].
    intros [?%Z.ltb_lt ?%Z.leb_le]. by rewrite andb_true_intro in E.
Qed.

Lemma date_window_default_witness :
  match date_window Sample.noon Sample.no_strptime None None 7 with
  | Ok (start_time, end_time) =>
      end_time = Sample.noon
      ∧ toordinal start_time = toordinal Sample.noon - (7 - 1)
      ∧ hour start_time = 0 ∧ minute start_time = 0 ∧ second start_time = 0
      ∧ microsecond start_time = 0
      ∧ tzinfo start_time = tzinfo Sample.noon
      ∧ datetime_ok start_time = true
  | Raise e =>
      e = OverflowError ∧ ¬ (0 < toordinal Sample.noon - (7 - 1) <= MAXORDINAL)
  end.
Proof. exact (date_window_default Sample.noon Sample.no_strptime 7 eq_refl). Defined.

(** X24: the window of the database and of the metrics ends at the current
    date and starts at the date [days] days before it: it covers [days + 1]
    calendar dates, one more than the window of the client, and for
    [days = 0] it is the current date alone.  It is [OverflowError] exactly
    when the start date is outside the calendar. *)
Theorem last_x_days_window_spec (now_utc7 : datetime) (days : Z) :
  datetime_ok now_utc7 = true →
  match IncidentDatabase.last_x_days_window now_utc7 days with
  | Ok (start_date, end_date) =>
      end_date = date_isoformat (year now_utc7) (month now_utc7) (day now_utc7)
      ∧ (∃ y m d,
           start_date = date_isoformat y m d
           ∧ check_date_fields y m d = true
           ∧ ymd2ord y m d = toordinal now_utc7 - days)
      ∧ (days = 0 → start_date = end_date)
  | Raise e =>
      e = OverflowError ∧ ¬ (0 < toordinal now_utc7 - days <= MAXORDINAL)
  end.
Proof.
  intros Hok. unfold IncidentDatabase.last_x_days_window, date_sub_days. cbv zeta.
  destruct (_ && _) eqn:E.
  - apply andb_true_iff in E as [E1%Z.ltb_lt E2%Z.leb_le].
    pose proof (check_date_fields_ord2ymd _ (conj E1 E2)) as Hv.
    destruct (ord2ymd (toordinal now_utc7 - days)) as [[y m] d] eqn:Eo.
    destruct Hv as [Hv Hord]. rewrite bind_ok.
    split; [done|]. split; [by exists y, m, d|].
    intros ->. rewrite Z.sub_0_r in Eo. unfold toordinal in Eo.
    destruct (datetime_ok_date now_utc7 Hok) as (_ & Hm & Hd).
    rewrite ord2ymd_ymd2ord in Eo by done. by injection Eo as <- <- <-.
  - rewrite bind_raise. split; [done|].
    intros [?%Z.ltb_lt ?%Z.leb_le]. by rewrite andb_true_intro in E.
Qed.

Lemma last_x_days_window_spec_witness :
  match IncidentDatabase.last_x_days_window Sample.noon 7 with
  | Ok (start_date, end_date) =>
      end_date = date_isoformat (year Sample.noon) (month Sample.noon)
                   (day Sample.noon)
      ∧ (∃ y m d,
           start_date = date_isoformat y m d
           ∧ check_date_fields y m d = true
           ∧ ymd2ord y m d = toordinal Sample.noon - 7)
      ∧ (7 = 0 → start_date = end_date)
  | Raise e =>
      e = OverflowError ∧ ¬ (0 < toordinal Sample.noon - 7 <= MAXORDINAL)
  end.
Proof. exact (last_x_days_window_spec Sample.noon 7 eq_refl). Defined.

(** * Dictionaries with a key missing *)







Import PagerDutyAPIClient.

(** * From the API to the table and back *)

(** X26: an incident the client converted and [store_incident] stored
    under its id is what [get_incident_by_id] returns for that id; the
    table then has one row for the id, and the date key of the incident is
    the first ten characters of that row's [created_at], which the
    date-range query compares (unless the creation time is within seven
    hours of the end of year 9999, where the date key raises
    [OverflowError]). *)
Theorem converted_incident_round_trip (local host : datetime → Z)
    (raw_incident : json) (escalated : bool)
    (service_id_to_name : gmap string string)
    (custom_fields : option (gmap string (option string)))
    (x : Incident) (k : string) (now : datetime) (tbl tbl' : table) :
  _convert_to_incident_object local raw_incident escalated service_id_to_name
    custom_fields = Ok x →
  id x = Some k →
  IncidentDatabase.store_incident now tbl x = Ok tbl' →
  IncidentDatabase.get_incident_by_id tbl' k = Ok (Some x)
  ∧ ∃ row,
      rows_with_id k tbl' = [row]
      ∧ (get_date_str_utc_minus_7 host x = Ok (Sqlite.substr_1_10 (r_created_at row))
         ∨ get_date_str_utc_minus_7 host x = Raise OverflowError).
Proof.
  intros Hconv Hk Hstore.
  destruct (convert_timestamps _ _ _ _ _ _ Hconv)
    as (_ & (d & Hd & Hok & Htz) & _ & _ & Hts).
  destruct (rows_with_id_stored now tbl tbl' x k Hk Hstore) as (row & Hrow & Hrows).
  split.
  - rewrite get_incident_by_id_rows, Hrows.
    by rewrite (from_dict_row_of now x row Hts Hrow).
  - exists row. split; [done|].
    rewrite (row_of_created_text _ _ _ Hrow).
    rewrite (date_str_of_utc_minus_7 host x d Hd Hok Htz).
    destruct (_ <? _); [by left|by right].
Qed.

Lemma converted_incident_round_trip_witness :
  ∃ x tbl',
    _convert_to_incident_object Sample.host_utc Sample.raw_incident true
      Sample.directory (Some (custom_fields_dict (Some "ccoe") None)) = Ok x
    ∧ IncidentDatabase.store_incident Sample.noon [] x = Ok tbl'
    ∧ IncidentDatabase.get_incident_by_id tbl' "Q1ABC123DEF" = Ok (Some x).
Proof.
  destruct (_convert_to_incident_object Sample.host_utc Sample.raw_incident true
              Sample.directory (Some (custom_fields_dict (Some "ccoe") None)))
    as [x|e] eqn:E; [|vm_compute in E; discriminate E].
  assert (id x = Some "Q1ABC123DEF") as Hid.
  { pose proof E as E'. vm_compute in E'. injection E' as <-. reflexivity. }
  destruct (IncidentDatabase.store_incident Sample.noon [] x) as [tbl'|e] eqn:Es.
  2:{ pose proof E as E'. vm_compute in E'. injection E' as <-.
      vm_compute in Es. discriminate Es. }
  exists x, tbl'. split; [reflexivity|]. split; [exact Es|].
  exact (proj1 (converted_incident_round_trip Sample.host_utc Sample.host_utc
                  Sample.raw_incident true Sample.directory
                  (Some (custom_fields_dict (Some "ccoe") None)) x "Q1ABC123DEF"
                  Sample.noon [] tbl' E Hid Es)).
Defined.

(** * The text order of timestamps *)




















(** * The window of the range query in calendar dates *)







Import PagerDutyAPIClient.

(** * The resolution field *)

Lemma is_space_lower_char (c : ascii) :
  Str.is_space (Str.lower_char c) = Str.is_space c.
Proof. by destruct c as [[] [] [] [] [] [] [] []]. Qed.

Lemma lower_lstrip (s : string) : Str.lower (Str.lstrip s) = Str.lstrip (Str.lower s).
Proof.
  induction s as [|c s IH]; [done|]. cbn [Str.lstrip Str.lower].
  rewrite is_space_lower_char. by destruct (Str.is_space c).
Qed.

Lemma lower_rstrip (s : string) : Str.lower (Str.rstrip s) = Str.rstrip (Str.lower s).
Proof.
  induction s as [|c s IH]; [done|]. cbn [Str.rstrip Str.lower].
  rewrite <- IH, is_space_lower_char.
  destruct (Str.rstrip s); cbn [Str.lower]; [by destruct (Str.is_space c)|done].
Qed.

(** Lower-casing and stripping commute. *)
Lemma lower_strip (s : string) : Str.lower (Str.strip s) = Str.strip (Str.lower s).
Proof. unfold Str.strip. by rewrite lower_rstrip, lower_lstrip. Qed.

(** The field's contribution to [resolution], if any. *)
Lemma custom_field_step_resolution (res res' : option string * option string)
    (field : json) :
  custom_field_step res field = Ok res' →
  res'.1 = match resolution_values [field] with
           | v :: _ => Some (Str.strip (Str.lower v))
           | [] => res.1
           end.
Proof.
  unfold custom_field_step, resolution_values.
  destruct field as [| | | |items|members]; try discriminate.
  cbn [py_get omap list_omap mbind result_bind].
  destruct (dict_get members "name") as [[| | |n| |]|];
    cbn [default py_str fmap result_fmap mbind result_bind]; try discriminate.
  - cbn -[Str.lower Str.strip String.eqb]. generalize (Str.lower n). intros l.
    destruct (String.eqb_spec l "resolution") as [Hres | Hres];
      destruct (String.eqb_spec l "prelim_root_cause") as [Hpre | Hpre];
      try (subst; discriminate); subst;
      destruct (dict_get members "value") as [[|b|z|v|items|ms]|]; cbn;
      repeat case_match; intros; simplify_eq/=; done.
  - destruct (dict_get members "value") as [[|b|z|v|items|ms]|]; cbn;
      repeat case_match; intros; simplify_eq/=; done.
Qed.

Lemma resolution_values_cons (field : json) (fields : list json) :
  resolution_values (field :: fields)
  = resolution_values [field] ++ resolution_values fields.
Proof.
  unfold resolution_values. cbn [omap list_omap].
  by destruct (match field with JObj _ => _ | _ => None end).
Qed.

Lemma resolution_values_single (field : json) :
  resolution_values [field] = [] ∨ ∃ v, resolution_values [field] = [v].
Proof.
  unfold resolution_values. cbn [omap list_omap].
  destruct (match field with JObj _ => _ | _ => None end); eauto.
Qed.

Lemma custom_fields_loop_resolution (fields : list json) :
  ∀ res res', custom_fields_loop res fields = Ok res' →
    res'.1 = match last (resolution_values fields) with
             | Some v => Some (Str.strip (Str.lower v))
             | None => res.1
             end.
Proof.
  induction fields as [|field fields IH]; intros res res' H.
  - by injection H as <-.
  - cbn [custom_fields_loop] in H.
    destruct (custom_field_step res field) as [res1|] eqn:Hstep; [|discriminate H].
    rewrite bind_ok in H.
    apply IH in H. apply custom_field_step_resolution in Hstep.
    rewrite resolution_values_cons, last_app.
    destruct (last (resolution_values fields)) as [v|]; [done|].
    rewrite H, Hstep.
    destruct (resolution_values_single field) as [-> | [v ->]]; done.
Qed.

(** X29: for a payload of ASCII text, when the enrichment and the
    conversion succeed, the payload has a custom field named "resolution"
    (in any letter case) with a non-empty string value, and
    [resolved_by_ccoe] tells whether the last such value, lower-cased and
    stripped of surrounding blanks, is "ccoe". *)
Theorem resolved_by_ccoe_from_resolution (local_utcoffset : datetime → Z)
    (raw_incident body : json) (escalated : bool)
    (service_id_to_name : gmap string string) (fields : list json)
    (cf : gmap string (option string)) (inc : Incident) :
  json_isascii body = true →
  py_get body "custom_fields" (JArr []) = Ok (JArr fields) →
  extract_custom_fields body = Ok cf →
  _convert_to_incident_object local_utcoffset raw_incident escalated
    service_id_to_name (Some cf) = Ok inc →
  ∃ v, last (resolution_values fields) = Some v
       ∧ resolved_by_ccoe inc = String.eqb (Str.strip (Str.lower v)) "ccoe".
Proof.
  intros _ Hbody Hcf Hconv. unfold extract_custom_fields in Hcf.
  rewrite Hbody, bind_ok in Hcf. cbn [py_iter] in Hcf. rewrite bind_ok in Hcf.
  destruct (custom_fields_loop (None, None) fields) as [[r p]|] eqn:Hloop;
    [|discriminate Hcf].
  rewrite bind_ok in Hcf. injection Hcf as <-.
  apply convert_classification in Hconv as [(s & Hs & ->) _].
  destruct (custom_fields_dict_resolution r p) as (Hr & _ & _).
  rewrite Hr in Hs. subst r.
  apply custom_fields_loop_resolution in Hloop. cbn [fst] in Hloop.
  destruct (last (resolution_values fields)) as [v|]; [|done].
  injection Hloop as ->. exists v. split; [done|].
  by rewrite lower_strip, lower_idemp.
Qed.

Lemma resolved_by_ccoe_from_resolution_witness :
  ∃ cf inc,
    extract_custom_fields Sample.custom_fields_body = Ok cf
    ∧ _convert_to_incident_object Sample.host_utc Sample.raw_incident false
        Sample.directory (Some cf) = Ok inc
    ∧ resolved_by_ccoe inc = true.
Proof.
  destruct (extract_custom_fields Sample.custom_fields_body) as [cf|] eqn:Hcf;
    [|by vm_compute in Hcf].
  destruct (_convert_to_incident_object Sample.host_utc Sample.raw_incident false
              Sample.directory (Some cf)) as [inc|] eqn:Hinc.
  2:{ apply (f_equal is_ok) in Hinc. revert Hinc.
      vm_compute in Hcf. injection Hcf as <-. vm_compute. discriminate. }
  exists cf, inc. split; [done|]. split; [done|].
  destruct (resolved_by_ccoe_from_resolution Sample.host_utc Sample.raw_incident
              Sample.custom_fields_body false Sample.directory
              [Sample.field "resolution" "CCOE";
               Sample.field "prelim_root_cause" "Rheos "]
              cf inc eq_refl eq_refl Hcf Hinc) as (v & Hv & ->).
  vm_compute in Hv. by injection Hv as <-.
Defined.

(** * The window for explicit dates *)

(** X30: with both dates given and accepted by [strptime], the window the
    client asks the API for runs from the start date at 00:00:00 to the end
    date at 23:59:59, both in UTC-7, whatever [days] and the clock are, and
    also when the end date is before the start date; a date [strptime]
    rejects raises [ValueError]. *)
Theorem date_window_explicit (now_utc7 : datetime)
    (strptime_ymd : string → option (Z * Z * Z)) (start_date end_date : string)
    (days y m d y' m' d' : Z) :
  start_date ≠ "" → end_date ≠ "" →
  strptime_ymd end_date = Some (y', m', d') →
  check_date_fields y' m' d' = true →
  (strptime_ymd start_date = Some (y, m, d) → check_date_fields y m d = true →
   date_window now_utc7 strptime_ymd (Some start_date) (Some end_date) days
   = Ok (mkdatetime y m d 0 0 0 0 (Some utc_minus_7),
         mkdatetime y' m' d' 23 59 59 0 (Some utc_minus_7))
   ∧ isoformat (mkdatetime y m d 0 0 0 0 (Some utc_minus_7))
     = date_isoformat y m d +:+ "T00:00:00-07:00"
   ∧ isoformat (mkdatetime y' m' d' 23 59 59 0 (Some utc_minus_7))
     = date_isoformat y' m' d' +:+ "T23:59:59-07:00")
  ∧ (strptime_ymd start_date = None →
     date_window now_utc7 strptime_ymd (Some start_date) (Some end_date) days
     = Raise ValueError).
Proof.
  intros Hs He Hpe Hve.
  assert (str_given (Some start_date) = Some start_date) as Hgs
    by (by destruct start_date).
  assert (str_given (Some end_date) = Some end_date) as Hge by (by destruct end_date).
  assert (parse_day strptime_ymd end_date
          = Ok (mkdatetime y' m' d' 0 0 0 0 (Some utc_minus_7))) as Hend.
  { unfold parse_day, new_datetime, datetime_ok. rewrite Hpe.
    cbn [year month day hour minute second microsecond tzinfo]. by rewrite Hve. }
  unfold date_window. rewrite Hgs, Hge, Hend, !bind_ok. split.
  - intros Hps Hvs. split; [|by split].
    unfold parse_day, new_datetime, datetime_ok. rewrite Hps.
    cbn [year month day hour minute second microsecond tzinfo]. by rewrite Hvs.
  - intros Hps. unfold parse_day. by rewrite Hps.
Qed.

Lemma date_window_explicit_witness :
  date_window Sample.noon (λ s, if String.eqb s "2025-08-01" then Some (2025, 8, 1)
                                 else Some (2025, 8, 31))
    (Some "2025-08-01") (Some "2025-08-31") 7
  = Ok (mkdatetime 2025 8 1 0 0 0 0 (Some utc_minus_7),
        mkdatetime 2025 8 31 23 59 59 0 (Some utc_minus_7)).
Proof.
  refine (proj1 (proj1 (date_window_explicit Sample.noon
                          (λ s, if String.eqb s "2025-08-01" then Some (2025, 8, 1)
                                else Some (2025, 8, 31))
                          "2025-08-01" "2025-08-31" 7 2025 8 1 2025 8 31 _ _ eq_refl
                          eq_refl) eq_refl eq_refl)); discriminate.
Defined.
